(** * The lazy hypermedia REST client of [utils/api.py]

    A shallow embedding of the client classes [API], [Collection],
    [SearchResult], [Entity], [ActionContainer] and [Action], followed by the
    properties of the client that its specification states.

    Conventions of the embedding.
    - Python values that travel through the client (decoded JSON, keyword
      arguments, hrefs) are terms of [value].  A Python [dict] is an
      association list in the order [iteritems] yields it; Python dicts have
      unique keys, which the theorems that need it ask for as [dict_ok].
      Strings hold characters below 256; floats are not represented.
    - A method that can raise returns a [Result]; a method that talks to the
      server or mutates [self] is a state transformer [ST] that gives back
      the state also when it raises, as Python keeps the mutations made
      before an exception.
    - Everything outside the repository that the client calls ([requests],
      the JSON decoder, [iso8601], [repr] of containers) is a member of the
      class [Environment].
    - [setattr(self, key, value)] with a key that comes from a server
      document writes to the map [attrs] of dynamic attributes.  The fixed
      slots of an object ([collection], [action], [_data], [_href],
      [_actions]) are separate fields: documents whose keys have the name of
      a slot or of a class member are outside the model, and the theorems
      about the fields of a document ask for plain keys ([plain_fields],
      [plain_reply]).
    - The messages and addresses are byte strings that [format] fills in:
      a text with a character from 128 on makes it raise
      [UnicodeEncodeError], which [py_format] models. *)

From stdpp Require Import base strings gmap list pretty.
From Stdlib Require Import ZArith Ascii.

Set Warnings "-register-all".
Open Scope string_scope.
Open Scope list_scope.

(** ** Python values *)

Inductive value : Type :=
| VNone
| VBool (b : bool)
| VInt (z : Z)
| VStr (s : string)
| VList (l : list value)
| VDict (d : list (string * value)).

Definition dict := list (string * value).

(** Exceptions the client raises or lets through. *)
Inductive Exn : Type :=
| APIException (msg : string)
| ValueError (msg : string)
| KeyError (key : string)
| TypeError
| AttributeError (msg : string)
| NotImplementedError
| RuntimeError (msg : string)
| ParseError
| RequestException (what : string)
| UnicodeEncodeError.

Definition Result (A : Type) : Type := (Exn + A)%type.

(** *** Dictionaries *)

Fixpoint dict_get (k : string) (d : dict) : option value :=
  match d with
  | [] => None
  | (k', v) :: d' => if String.eqb k k' then Some v else dict_get k d'
  end.

Fixpoint dict_remove (k : string) (d : dict) : dict :=
  match d with
  | [] => []
  | (k', v) :: d' =>
      if String.eqb k k' then dict_remove k d' else (k', v) :: dict_remove k d'
  end.

Definition keys (d : dict) : list string := map fst d.

Fixpoint mem (k : string) (l : list string) : bool :=
  match l with
  | [] => false
  | k' :: l' => String.eqb k k' || mem k l'
  end.

Fixpoint nodup_keys (l : list string) : bool :=
  match l with
  | [] => true
  | k :: l' => negb (mem k l') && nodup_keys l'
  end.

(** The invariant of a Python dict: no key twice. *)
Definition dict_ok (d : dict) : bool := nodup_keys (keys d).

(** [d.pop(k, default)]: the value and the dict that is left. *)
Definition dict_pop (k : string) (default : value) (d : dict) : value * dict :=
  (match dict_get k d with Some v => v | None => default end, dict_remove k d).

(** *** Builtins *)

(** Truth value of [if x:]. *)
Definition truthy (v : value) : bool :=
  match v with
  | VNone => false
  | VBool b => b
  | VInt z => negb (Z.eqb z 0)
  | VStr s => negb (String.eqb s "")
  | VList l => match l with [] => false | _ => true end
  | VDict d => match d with [] => false | _ => true end
  end.

(** [x[k]] with a string key: a dict looks the key up, every other value
    refuses a string subscript. *)
Definition getitem (v : value) (k : string) : Result value :=
  match v with
  | VDict d =>
      match dict_get k d with
      | Some x => inr x
      | None => inl (KeyError k)
      end
  | _ => inl TypeError
  end.

Fixpoint prefix_of (p s : string) : bool :=
  match p, s with
  | EmptyString, _ => true
  | String a p', String b s' => Ascii.eqb a b && prefix_of p' s'
  | String _ _, EmptyString => false
  end.

Fixpoint occurs_in (p s : string) : bool :=
  prefix_of p s ||
  match s with
  | EmptyString => false
  | String _ s' => occurs_in p s'
  end.

Definition is_str (k : string) (v : value) : bool :=
  match v with VStr s => String.eqb s k | _ => false end.

(** [k in x] for a string [k]: key of a dict, element of a list, substring of
    a string; the other values are not iterable. *)
Definition contains (k : string) (v : value) : Result bool :=
  match v with
  | VDict d => inr (mem k (keys d))
  | VList l => inr (existsb (is_str k) l)
  | VStr s => inr (occurs_in k s)
  | _ => inl TypeError
  end.

(** [for x in v]: the elements a loop over [v] visits. *)
Definition iterate (v : value) : Result (list value) :=
  match v with
  | VList l => inr l
  | VDict d => inr (map VStr (keys d))
  | VStr s => inr (map (fun c => VStr (String c "")) (String.list_ascii_of_string s))
  | _ => inl TypeError
  end.

(** [repr] of a byte string, as CPython 2 writes it: single quotes unless the
    string has a single quote and no double quote; backslash, the quote and
    the characters outside the printable ASCII range are escaped. *)
Definition hex_digit (n : N) : ascii :=
  if (n <? 10)%N then ascii_of_N (48 + n) else ascii_of_N (87 + n).

Definition repr_char (quote c : ascii) : string :=
  let n := N_of_ascii c in
  if Ascii.eqb c quote || Ascii.eqb c "\"%char then String "\" (String c "")
  else if (n =? 9)%N then "\t"
  else if (n =? 10)%N then "\n"
  else if (n =? 13)%N then "\r"
  else if (n <? 32)%N || (127 <=? n)%N
       then String "\" (String "x" (String (hex_digit (n / 16)) (String (hex_digit (n mod 16)) "")))
  else String c "".

Fixpoint repr_body (quote : ascii) (s : string) : string :=
  match s with
  | EmptyString => ""
  | String c s' => repr_char quote c +:+ repr_body quote s'
  end.

Definition repr_str (s : string) : string :=
  let quote : ascii :=
    if occurs_in "'" s && negb (occurs_in (String (ascii_of_N 34) "") s)
    then ascii_of_N 34 else "'"%char in
  String quote (repr_body quote s +:+ String quote "").

(** The texts that the codec [ascii] encodes: a character is a code point
    below 256, and the codec takes those below 128. *)
Definition is_ascii (s : string) : bool :=
  forallb (fun c => (N_of_ascii c <? 128)%N) (String.list_ascii_of_string s).

(** Whitespace as [unicode.strip] sees it, for characters below 256. *)
Definition is_space (c : ascii) : bool :=
  let n := N_of_ascii c in
  ((9 <=? n) && (n <=? 13))%N || ((28 <=? n) && (n <=? 32))%N
  || (n =? 133)%N || (n =? 160)%N.

Fixpoint lstrip (s : string) : string :=
  match s with
  | EmptyString => ""
  | String c s' => if is_space c then lstrip s' else s
  end.

Definition strip (s : string) : string :=
  String.rev (lstrip (String.rev (lstrip s))).

(** ** HTTP requests *)

Inductive Verb : Type := GET | POST | DELETE.

(** One call of [requests.get], [requests.post] or [requests.delete]:
    [params] is the [params=] argument of a GET, [data] the payload that
    [json.dumps] turns into the body of a POST or DELETE.  [verify=False] is
    the same in every call and is left out. *)
Record Request : Type := mkRequest {
  verb : Verb;
  url : value;
  auth : string * string;
  params : dict;
  data : option dict }.

(** What [requests] gives back: a response, of which the client reads the
    [text], or an exception of the transport. *)
Inductive Reply : Type :=
| Got (text : string)
| Failed (what : string).

(** The requests issued so far, oldest first. *)
Definition Log := list Request.

(** ** The environment of the client

    [respond] is the server as seen through [requests]: its reply may depend
    on every request it has received before.  [loads] is the JSON decoder
    behind [Response.json()], [None] standing for [JSONDecodeError]; no JSON
    decoder accepts a blank text, which is [loads_blank].  [py_repr] is
    [repr] of a value, which is also what [str] gives for a list or a dict.
    [iso8601_valid] tells the texts that [iso8601.parse_date] accepts. *)
Class Environment : Type := {
  respond : Log -> Request -> Reply;
  loads : string -> option value;
  loads_blank : forall s, String.length (strip s) = 0 -> loads s = None;
  py_repr : value -> string;
  iso8601_valid : string -> bool }.

(** The text [format] and [str] produce for a value. *)
Definition py_str `{Environment} (v : value) : string :=
  match v with
  | VNone => "None"
  | VBool true => "True"
  | VBool false => "False"
  | VInt z => pretty z
  | VStr s => s
  | _ => py_repr v
  end.

(** What the method [format] of a byte string makes of an argument.  The
    texts of a response and of a decoded document are [unicode] in Python 2:
    [format] encodes them with the codec [ascii], which raises
    [UnicodeEncodeError] for a character from 128 on. *)
Definition py_format `{Environment} (v : value) : Result string :=
  match v with
  | VStr s => if is_ascii s then inr s else inl UnicodeEncodeError
  | _ => inr (py_str v)
  end.

(** The value [iso8601.parse_date] builds from a text, named by that text. *)
Inductive datetime : Type := Datetime (iso : string).

Definition parse_date `{Environment} (v : value) : Result datetime :=
  match v with
  | VStr s => if iso8601_valid s then inr (Datetime s) else inl ParseError
  | _ => inl ParseError
  end.

(** ** State and exceptions *)

Definition ST (S A : Type) : Type := S -> Result A * S.

Definition ret {S A} (a : A) : ST S A := fun s => (inr a, s).
Definition raise {S A} (e : Exn) : ST S A := fun s => (inl e, s).
Definition bind {S A B} (c : ST S A) (k : A -> ST S B) : ST S B :=
  fun s =>
    match c s with
    | (inr a, s') => k a s'
    | (inl e, s') => (inl e, s')
    end.
Definition lift {S A} (r : Result A) : ST S A := fun s => (r, s).

(** [try: c except APIException: h] *)
Definition catch_APIException {S A} (c : ST S A) (h : ST S A) : ST S A :=
  fun s =>
    match c s with
    | (inl (APIException _), s') => h s'
    | r => r
    end.

Declare Scope st_scope.
Delimit Scope st_scope with st.
Notation "x <- c ;; k" := (bind c (fun x => k))
  (at level 100, c at next level, right associativity) : st_scope.
Notation "c ;;; k" := (bind c (fun _ => k))
  (at level 100, right associativity) : st_scope.
Open Scope st_scope.

(** [for x in l: body x] *)
Fixpoint for_each {S A} (l : list A) (body : A -> ST S unit) : ST S unit :=
  match l with
  | [] => ret tt
  | x :: l' => body x ;;; for_each l' body
  end.

(** Send one request: the server sees the log, the log grows. *)
Definition send `{Environment} (r : Request) : ST Log string :=
  fun log =>
    match respond log r with
    | Got text => (inr text, log ++ [r])
    | Failed what => (inl (RequestException what), log ++ [r])
    end.

(** ** class API *)

Record API : Type := mkAPI {
  API__entry_point : string;
  API__auth : string * string;
  API__version : string }.

Definition API__result_processor `{Environment} (result : value) : Result value :=
  match result with
  | VDict d =>
      if mem "error" (keys d) then
        match getitem result "error" with
        | inl e => inl e
        | inr err =>
            match getitem err "klass" with
            | inl e => inl e
            | inr klass =>
                match getitem err "message" with
                | inl e => inl e
                | inr message =>
                    match py_format klass with
                    | inl e => inl e
                    | inr k =>
                        match py_format message with
                        | inl e => inl e
                        | inr m => inl (APIException (k +:+ ": " +:+ m))
                        end
                    end
                end
            end
        end
      else inr result
  | _ => inr result
  end.

(** [raise APIException("JSONDecodeError: {}".format(data.text))]: the
    exception that the line raises. *)
Definition decode_error `{Environment} (text : string) : Exn :=
  match py_format (VStr text) with
  | inr t => APIException ("JSONDecodeError: " +:+ t)
  | inl e => e
  end.

Definition API_get `{Environment} (self : API) (url : value) (get_params : dict)
  : ST Log value :=
  text <- send (mkRequest GET url (API__auth self) get_params None) ;;
  match loads text with
  | None => raise (decode_error text)
  | Some data => lift (API__result_processor data)
  end.

Definition API_post `{Environment} (self : API) (url : value) (payload : dict)
  : ST Log value :=
  text <- send (mkRequest POST url (API__auth self) [] (Some payload)) ;;
  match loads text with
  | None =>
      if Nat.eqb (String.length (strip text)) 0 then ret VNone
      else raise (decode_error text)
  | Some data => lift (API__result_processor data)
  end.

Definition API_delete `{Environment} (self : API) (url : value) (payload : dict)
  : ST Log value :=
  text <- send (mkRequest DELETE url (API__auth self) [] (Some payload)) ;;
  match loads text with
  | None =>
      if Nat.eqb (String.length (strip text)) 0 then ret VNone
      else raise (decode_error text)
  | Some data => lift (API__result_processor data)
  end.

(** ** Versions *)

(** Modelled from the spec: [utils.version.LooseVersion], the class that
    [API.version] returns, is not among the sources.  The specification says
    of it that version strings are compared using a lenient, dotted-numeric
    ordering, numeric components comparing numerically and non-numeric
    suffixes lexically.  A version string is cut into its runs of digits, of
    lower-case letters and of other characters, the dots being separators;
    component lists compare lexicographically, a number below a text; a
    version is in a series when the components of the series start it. *)
Module LooseVersion.

Inductive component : Type := CNum (n : N) | CStr (s : string).

Inductive char_class : Type := Digit | Lower | Dot | Other.

Definition classify (c : ascii) : char_class :=
  let n := N_of_ascii c in
  if ((48 <=? n) && (n <=? 57))%N then Digit
  else if ((97 <=? n) && (n <=? 122))%N then Lower
  else if (n =? 46)%N then Dot
  else Other.

Definition same_run (a b : char_class) : bool :=
  match a, b with
  | Digit, Digit | Lower, Lower | Other, Other => true
  | _, _ => false
  end.

Fixpoint runs (s : string) : list (char_class * string) :=
  match s with
  | EmptyString => []
  | String c s' =>
      let k := classify c in
      match runs s' with
      | (k', run) :: rest =>
          if same_run k k' then (k, String c run) :: rest
          else (k, String c "") :: (k', run) :: rest
      | [] => [(k, String c "")]
      end
  end.

Fixpoint number (acc : N) (s : string) : N :=
  match s with
  | EmptyString => acc
  | String c s' => number (10 * acc + (N_of_ascii c - 48)) s'
  end.

Fixpoint components (l : list (char_class * string)) : list component :=
  match l with
  | [] => []
  | (Dot, _) :: l' => components l'
  | (Digit, run) :: l' => CNum (number 0 run) :: components l'
  | (_, run) :: l' => CStr run :: components l'
  end.

Definition t : Type := list component.

(** Modelled from the spec: [LooseVersion(vstring)], the dotted components
    of a version string. *)
Definition parse (vstring : string) : t := components (runs vstring).

Definition cmp_component (a b : component) : comparison :=
  match a, b with
  | CNum x, CNum y => N.compare x y
  | CNum _, CStr _ => Lt
  | CStr _, CNum _ => Gt
  | CStr x, CStr y => String.compare x y
  end.

(** Modelled from the spec: the lenient ordering of versions, numeric
    components numerically and the others lexically. *)
Fixpoint cmp (v w : t) : comparison :=
  match v, w with
  | [], [] => Eq
  | [], _ :: _ => Lt
  | _ :: _, [] => Gt
  | a :: v', b :: w' =>
      match cmp_component a b with
      | Eq => cmp v' w'
      | c => c
      end
  end.

(** Modelled from the spec: [version == other] with [other] a string. *)
Definition eq (v : t) (other : string) : bool :=
  match cmp v (parse other) with Eq => true | _ => false end.

(** Modelled from the spec: [version >= other] with [other] a string. *)
Definition ge (v : t) (other : string) : bool :=
  match cmp v (parse other) with Lt => false | _ => true end.

Fixpoint starts_with (series v : t) : bool :=
  match series, v with
  | [], _ => true
  | _ :: _, [] => false
  | a :: series', b :: v' =>
      match cmp_component a b with
      | Eq => starts_with series' v'
      | _ => false
      end
  end.

(** Modelled from the spec: [version.is_in_series(series)], the test behind
    the words 1.1 series. *)
Definition is_in_series (v : t) (series : string) : bool :=
  starts_with (parse series) v.

End LooseVersion.

Definition API_version (self : API) : LooseVersion.t :=
  LooseVersion.parse (API__version self).

(** 2.0.0 introduced a new id/href difference. *)
Definition API_new_id_behaviour (self : API) : bool :=
  LooseVersion.ge (API_version self) "2.0.0".

(** ** The objects of the client *)

Record Action : Type := mkAction {
  Action__name : value;
  Action__method : value;
  Action__href : value }.

(** An [ActionContainer] holds its owner [_obj], which the model passes
    along with it, and the actions that [reload] has set on it by name. *)
Record ActionContainer : Type := mkActionContainer {
  ActionContainer_attrs : gmap string Action }.

(** [None] in [_resources], [_count], [_subcount] and [_actions] stands for
    an attribute that no [reload] has set yet. *)
Record Collection : Type := mkCollection {
  Collection__api : API;
  Collection__href : value;
  Collection__data : value;
  Collection_action : ActionContainer;
  Collection_name : string;
  Collection_description : value;
  Collection__resources : option value;
  Collection__count : option value;
  Collection__subcount : option value;
  Collection__actions : option value }.

(** An [Entity] with its slots and the attributes that [reload] has set from
    the fields of a document.  An attribute holds the raw field, the parsed
    time of a time field, or the entity a foreign key refers to. *)
Inductive Entity : Type :=
  mkEntity (collection : Collection) (action : ActionContainer)
           (_data : value) (_href : value) (_actions : option value)
           (attrs : gmap string AttrVal)
with AttrVal : Type :=
| AVal (v : value)
| ATime (d : datetime)
| ARef (e : Entity).

Definition Entity_collection (e : Entity) : Collection :=
  match e with mkEntity c _ _ _ _ _ => c end.
Definition Entity_action (e : Entity) : ActionContainer :=
  match e with mkEntity _ a _ _ _ _ => a end.
Definition Entity__data (e : Entity) : value :=
  match e with mkEntity _ _ d _ _ _ => d end.
Definition Entity__href (e : Entity) : value :=
  match e with mkEntity _ _ _ h _ _ => h end.
Definition Entity__actions (e : Entity) : option value :=
  match e with mkEntity _ _ _ _ a _ => a end.
Definition Entity_attrs (e : Entity) : gmap string AttrVal :=
  match e with mkEntity _ _ _ _ _ m => m end.

Definition Entity_set__data (d : value) (e : Entity) : Entity :=
  match e with mkEntity c a _ h ac m => mkEntity c a d h ac m end.
Definition Entity_set__href (h : value) (e : Entity) : Entity :=
  match e with mkEntity c a d _ ac m => mkEntity c a d h ac m end.
Definition Entity_set__actions (ac : value) (e : Entity) : Entity :=
  match e with mkEntity c a d h _ m => mkEntity c a d h (Some ac) m end.
Definition Entity_set_action (a : ActionContainer) (e : Entity) : Entity :=
  match e with mkEntity c _ d h ac m => mkEntity c a d h ac m end.
(** The names that an entity has beside the fields of its documents: its
    slots and the members of its class; the names that start with two
    underscores are those of [object].  An object has one namespace:
    [setattr] with one of these names replaces the slot or hides the
    member, and the lookup of one of them does not come to [__getattr__].
    The name of an attribute is a byte string: [setattr] and [getattr]
    encode a text with the codec [ascii] and raise [UnicodeEncodeError] for
    a character from 128 on.  The other names are plain. *)
Definition Entity_names : list string :=
  ["collection"; "action"; "_data"; "_href"; "_actions"; "reload";
   "reload_if_needed"; "_load_data"; "_ref_repr"; "TIME_FIELDS";
   "COLLECTION_MAPPING"].

Definition plain_key (k : string) : bool :=
  is_ascii k && negb (prefix_of "__" k) && negb (mem k Entity_names).

(** [setattr(self, key, v)] for a plain key: the attributes that the fields
    of a document set are kept apart from the slots, which a field of a
    plain name does not touch.  What a field of another name does to the
    entity is outside of the model, and the statements about the fields of
    a document are for documents of plain keys. *)
Definition Entity_setattr (key : string) (v : AttrVal) (e : Entity) : Entity :=
  match e with mkEntity c a d h ac m => mkEntity c a d h ac (<[key := v]> m) end.

Definition Collection_set__data (d : value) (c : Collection) : Collection :=
  mkCollection (Collection__api c) (Collection__href c) d (Collection_action c)
    (Collection_name c) (Collection_description c) (Collection__resources c)
    (Collection__count c) (Collection__subcount c) (Collection__actions c).
Definition Collection_set__resources (v : value) (c : Collection) : Collection :=
  mkCollection (Collection__api c) (Collection__href c) (Collection__data c)
    (Collection_action c) (Collection_name c) (Collection_description c) (Some v)
    (Collection__count c) (Collection__subcount c) (Collection__actions c).
Definition Collection_set__count (v : value) (c : Collection) : Collection :=
  mkCollection (Collection__api c) (Collection__href c) (Collection__data c)
    (Collection_action c) (Collection_name c) (Collection_description c)
    (Collection__resources c) (Some v) (Collection__subcount c) (Collection__actions c).
Definition Collection_set__subcount (v : value) (c : Collection) : Collection :=
  mkCollection (Collection__api c) (Collection__href c) (Collection__data c)
    (Collection_action c) (Collection_name c) (Collection_description c)
    (Collection__resources c) (Collection__count c) (Some v) (Collection__actions c).
Definition Collection_set__actions (v : value) (c : Collection) : Collection :=
  mkCollection (Collection__api c) (Collection__href c) (Collection__data c)
    (Collection_action c) (Collection_name c) (Collection_description c)
    (Collection__resources c) (Collection__count c) (Collection__subcount c) (Some v).
Definition Collection_set_action (a : ActionContainer) (c : Collection) : Collection :=
  mkCollection (Collection__api c) (Collection__href c) (Collection__data c) a
    (Collection_name c) (Collection_description c) (Collection__resources c)
    (Collection__count c) (Collection__subcount c) (Collection__actions c).

(** *** Methods as state transformers on [self] and the log *)

Definition self {S} : ST (S * Log) S := fun s => (inr (fst s), s).
Definition update {S} (f : S -> S) : ST (S * Log) unit :=
  fun s => (inr tt, (f (fst s), snd s)).
(** A call that only talks to the server. *)
Definition call {S A} (c : ST Log A) : ST (S * Log) A :=
  fun s => let (r, log) := c (snd s) in (r, (fst s, log)).

Definition is_None (v : value) : bool :=
  match v with VNone => true | _ => false end.

(** [d.pop(k, default)] on a value: only a dict has this method. *)
Definition pop (v : value) (k : string) (default : value) : Result (value * value) :=
  match v with
  | VDict d => let (x, d') := dict_pop k default d in inr (x, VDict d')
  | VList _ => inl TypeError
  | _ => inl (AttributeError "pop")
  end.

(** [d.pop(k)] *)
Definition pop_required (v : value) (k : string) : Result (value * value) :=
  match v with
  | VDict d =>
      match dict_get k d with
      | Some x => inr (x, VDict (dict_remove k d))
      | None => inl (KeyError k)
      end
  | VList _ => inl TypeError
  | _ => inl (AttributeError "pop")
  end.

(** [d.iteritems()] *)
Definition iteritems (v : value) : Result dict :=
  match v with
  | VDict d => inr d
  | _ => inl (AttributeError "iteritems")
  end.

(** ** class Entity *)

Definition Entity_TIME_FIELDS : list string :=
  ["updated_on"; "created_on"; "last_scan_attempt_on"; "state_changed_on";
   "lastlogon"; "updated_at"; "created_at"].

Definition Entity_COLLECTION_MAPPING : list (string * string) :=
  [("ems_id", "providers"); ("storage_id", "data_stores"); ("zone_id", "zones");
   ("host_id", "hosts"); ("current_group_id", "groups");
   ("miq_user_role_id", "roles")].

Fixpoint mapping_get (k : string) (m : list (string * string)) : option string :=
  match m with
  | [] => None
  | (k', v) :: m' => if String.eqb k k' then Some v else mapping_get k m'
  end.

(** [re.sub(r"_id$", "", key)], for a key that does not end in a newline. *)
Fixpoint sub_id_suffix (key : string) : string :=
  match key with
  | EmptyString => ""
  | String c key' =>
      if String.eqb key "_id" then "" else String c (sub_id_suffix key')
  end.

Definition empty_container : ActionContainer := mkActionContainer ∅.

(** The entity that [Entity(collection, data)] builds when [data] is a dict
    with the only key [href]: [__init__] sets [collection], [action] and
    [_data]; [_load_data] finds no [id], takes the [href] and resets [_data]
    to [None].  [_actions] is not set and no attribute is. *)
Definition Entity_stub (collection : Collection) (href : value) : Entity :=
  mkEntity collection empty_container VNone href None ∅.

(** [Collection(api, href, name, description)] *)
Definition Collection___init__ (api : API) (href : value) (name : string)
    (description : value) : Collection :=
  mkCollection api href VNone empty_container name description None None None None.

(** [API.get_entity]: the constructor of [Entity] is called on a dict with
    the only key [href], which gives [Entity_stub].  The id is one that
    [format] takes into the address, a number or a text of ASCII: the
    statements about an id that comes from a document ask for it
    ([plain_field]). *)
Definition API_get_entity `{Environment} (self : API)
    (collection_or_name : Collection + string) (entity_id : value) : Entity :=
  let collection :=
    match collection_or_name with
    | inr name =>
        Collection___init__ self (VStr (API__entry_point self +:+ "/" +:+ name)) name VNone
    | inl c => c
    end in
  Entity_stub collection
    (VStr (py_str (Collection__href collection) +:+ "/" +:+ py_str entity_id)).

(** The body of the loop of [Entity.reload] for one field. *)
Definition Entity_reload_field `{Environment} (item : string * value)
  : ST (Entity * Log) unit :=
  let (key, value) := item in
  if mem key Entity_TIME_FIELDS then
    d <- lift (parse_date value) ;;
    update (Entity_setattr key (ATime d))
  else
    match mapping_get key Entity_COLLECTION_MAPPING with
    | Some target =>
        this <- self ;;
        update (Entity_setattr (sub_id_suffix key)
                  (ARef (API_get_entity (Collection__api (Entity_collection this))
                           (inr target) value))) ;;;
        update (Entity_setattr key (AVal value))
    | None => update (Entity_setattr key (AVal value))
    end.

Definition Entity_reload `{Environment} (expand : value) (get : bool)
  : ST (Entity * Log) unit :=
  let kwargs := if truthy expand then [("expand", expand)] else [] in
  (if get then
     this <- self ;;
     data <- call (API_get (Collection__api (Entity_collection this))
                     (Entity__href this) kwargs) ;;
     update (Entity_set__data data)
   else ret tt) ;;;
  this <- self ;;
  href <- lift (getitem (Entity__data this)
                  (if negb (API_new_id_behaviour (Collection__api (Entity_collection this)))
                   then "id" else "href")) ;;
  update (Entity_set__href href) ;;;
  popped <- lift (pop (Entity__data this) "actions" (VList [])) ;;
  update (Entity_set__data (snd popped)) ;;;
  update (Entity_set__actions (fst popped)) ;;;
  items <- lift (iteritems (snd popped)) ;;
  for_each items Entity_reload_field.

Definition Entity__load_data `{Environment} : ST (Entity * Log) unit :=
  this <- self ;;
  has_id <- lift (contains "id" (Entity__data this)) ;;
  if has_id : bool then Entity_reload VNone false
  else
    has_href <- lift (contains "href" (Entity__data this)) ;;
    if has_href : bool then
      href <- lift (getitem (Entity__data this) "href") ;;
      update (Entity_set__href href) ;;;
      update (Entity_set__data VNone)
    else raise (ValueError ("Malformed data: " +:+ py_repr (Entity__data this))).

(** [Entity(collection, data)].  [_href] has no value until [_load_data]
    sets it; nothing reads it before.  When [_load_data] raises there is no
    object. *)
Definition Entity___init__ `{Environment} (collection : Collection) (data : value)
  : ST Log Entity :=
  fun log =>
    match Entity__load_data (mkEntity collection empty_container data VNone None ∅, log) with
    | (inr _, (this, log')) => (inr this, log')
    | (inl e, (_, log')) => (inl e, log')
    end.

Definition Entity_reload_if_needed `{Environment} : ST (Entity * Log) unit :=
  this <- self ;;
  if is_None (Entity__data this) then Entity_reload VNone true else ret tt.

(** [Entity.__getattr__], which Python calls when the lookup of [attr] has
    found nothing; [retry] is the [getattr(self, attr)] of its second line. *)
Definition Entity___getattr__ `{Environment} {A}
    (retry : string -> ST (Entity * Log) A) (attr : string) : ST (Entity * Log) A :=
  this <- self ;;
  if is_None (Entity__data this) then
    Entity_reload VNone true ;;;
    retry attr
  else raise (AttributeError ("No such attribute " +:+ attr)).

(** [getattr(self, attr)] for a plain name, which Python finds among the
    attributes set so far or hands to [__getattr__]; a slot or a member of
    the class is found without [__getattr__], and the statements about a
    lookup are for plain names.  [depth] is the number of nested calls the
    interpreter still allows; running out of them is Python's
    [RuntimeError]. *)
Fixpoint Entity_getattr `{Environment} (depth : nat) (attr : string)
  : ST (Entity * Log) AttrVal :=
  this <- self ;;
  match Entity_attrs this !! attr with
  | Some v => ret v
  | None =>
      match depth with
      | 0 => raise (RuntimeError "maximum recursion depth exceeded")
      | S depth' => Entity___getattr__ (Entity_getattr depth') attr
      end
  end.

(** [self._actions]: the slot, or [__getattr__] when it is not set. *)
Definition Entity_get__actions `{Environment} : ST (Entity * Log) value :=
  this <- self ;;
  match Entity__actions this with
  | Some a => ret a
  | None =>
      Entity___getattr__
        (fun _ =>
           this' <- self ;;
           match Entity__actions this' with
           | Some a => ret a
           | None => raise (AttributeError "No such attribute _actions")
           end) "_actions"
  end.

Definition Entity__ref_repr (e : Entity) : value :=
  VDict [("href", Entity__href e)].

(** ** class SearchResult *)

Record SearchResult : Type := mkSearchResult {
  SearchResult_collection : Collection;
  SearchResult_count : value;
  SearchResult_subcount : value;
  SearchResult_name : value;
  SearchResult_resources : list Entity }.

(** [for x in l: acc.append(f x)] *)
Fixpoint collect {S A B} (f : A -> ST S B) (l : list A) : ST S (list B) :=
  match l with
  | [] => ret []
  | x :: l' =>
      y <- f x ;;
      ys <- collect f l' ;;
      ret (y :: ys)
  end.

Definition SearchResult___init__ `{Environment} (collection : Collection) (data : value)
  : ST Log SearchResult :=
  count <- lift (pop_required data "count") ;;
  subcount <- lift (pop_required (snd count) "subcount") ;;
  name <- lift (pop_required (snd subcount) "name") ;;
  resources <- lift (getitem (snd name) "resources") ;;
  items <- lift (iterate resources) ;;
  entities <- collect (Entity___init__ collection) items ;;
  ret (mkSearchResult collection (fst count) (fst subcount) (fst name) entities).

(** ** class Collection *)

Definition Collection_reload `{Environment} (expand : value)
  : ST (Collection * Log) unit :=
  let kwargs := if truthy expand then [("expand", VStr "resources")] else [] in
  this <- self ;;
  data <- call (API_get (Collection__api this) (Collection__href this) kwargs) ;;
  update (Collection_set__data data) ;;;
  resources <- lift (getitem data "resources") ;;
  update (Collection_set__resources resources) ;;;
  count <- lift (getitem data "count") ;;
  update (Collection_set__count count) ;;;
  subcount <- lift (getitem data "subcount") ;;
  update (Collection_set__subcount subcount) ;;;
  popped <- lift (pop data "actions" (VList [])) ;;
  update (Collection_set__data (snd popped)) ;;;
  update (Collection_set__actions (fst popped)) ;;;
  name <- lift (getitem (snd popped) "name") ;;
  if negb (is_str (Collection_name this) name)
  then raise (ValueError "Name mishap!")
  else ret tt.

Definition Collection_reload_if_needed `{Environment} : ST (Collection * Log) unit :=
  this <- self ;;
  if is_None (Collection__data this) then Collection_reload (VBool false) else ret tt.

Definition Collection__find_by_sqlfilter `{Environment} (self : Collection)
    (params : dict) : ST Log SearchResult :=
  let search_query :=
    map (fun item : string * value =>
           fst item +:+ " = " +:+ repr_str (py_str (snd item))) params in
  data <- API_get (Collection__api self) (Collection__href self)
            [("sqlfilter", VStr (String.concat " AND " search_query))] ;;
  SearchResult___init__ self data.

Definition Collection__find_by_filter `{Environment} (self : Collection)
    (params : dict) : ST Log SearchResult :=
  let search_query :=
    map (fun item : string * value =>
           fst item +:+ "=" +:+ repr_str (py_str (snd item))) params in
  data <- API_get (Collection__api self) (Collection__href self)
            [("filter[]", VList (map VStr search_query))] ;;
  SearchResult___init__ self data.

(** Search items in collection. Filters based on keywords passed. *)
Definition Collection_find_by `{Environment} (self : Collection) (params : dict)
  : ST Log SearchResult :=
  let version := API_version (Collection__api self) in
  if LooseVersion.eq version "2.0.0-pre" then
    (* Special case, there can be both, so try sqlfilter first and if that
       does not work ... *)
    catch_APIException (Collection__find_by_sqlfilter self params)
                       (Collection__find_by_filter self params)
  else if LooseVersion.is_in_series version "1.1" || LooseVersion.ge version "2.0.0" then
    (* New function *)
    Collection__find_by_filter self params
  else
    (* Old function *)
    Collection__find_by_sqlfilter self params.

(** ** class ActionContainer *)

(** The owner [_obj] of a container, with the container in its [action]. *)
Inductive Owner : Type :=
| OCollection (c : Collection)
| OEntity (e : Entity).

Definition Owner_action (o : Owner) : ActionContainer :=
  match o with
  | OCollection c => Collection_action c
  | OEntity e => Entity_action e
  end.

Definition Owner_set_action (a : ActionContainer) (o : Owner) : Owner :=
  match o with
  | OCollection c => OCollection (Collection_set_action a c)
  | OEntity e => OEntity (Entity_set_action a e)
  end.

(** Run a method of the collection or of the entity on the owner. *)
Definition on_owner {A} (mc : ST (Collection * Log) A) (me : ST (Entity * Log) A)
  : ST (Owner * Log) A :=
  fun s =>
    match fst s with
    | OCollection c =>
        match mc (c, snd s) with (r, (c', log)) => (r, (OCollection c', log)) end
    | OEntity e =>
        match me (e, snd s) with (r, (e', log)) => (r, (OEntity e', log)) end
    end.

(** [self._obj._actions] *)
Definition Collection_get__actions : ST (Collection * Log) value :=
  this <- self ;;
  match Collection__actions this with
  | Some a => ret a
  | None => raise (AttributeError "_actions")
  end.

(** [setattr(self, name, action)]: the name of an attribute is a string,
    which the codec [ascii] has to encode, and [all] and [collection] are
    properties without a setter.  The actions that are set are kept apart
    from the slot [_obj] and the method [reload], which an action of a plain
    name does not touch. *)
Definition ActionContainer_setattr (name : value) (a : Action)
  : ST (Owner * Log) unit :=
  match name with
  | VStr n =>
      if negb (is_ascii n) then raise UnicodeEncodeError
      else if mem n ["all"; "collection"] then
        raise (AttributeError "can't set attribute")
      else
        update (fun o =>
                  Owner_set_action
                    (mkActionContainer (<[n := a]> (ActionContainer_attrs (Owner_action o))))
                    o)
  | _ => raise TypeError
  end.

Definition ActionContainer_reload `{Environment} : ST (Owner * Log) unit :=
  on_owner Collection_reload_if_needed Entity_reload_if_needed ;;;
  actions <- on_owner Collection_get__actions Entity_get__actions ;;
  items <- lift (iterate actions) ;;
  for_each items (fun action =>
    name <- lift (getitem action "name") ;;
    name' <- lift (getitem action "name") ;;
    method <- lift (getitem action "method") ;;
    href <- lift (getitem action "href") ;;
    ActionContainer_setattr name (mkAction name' method href)).

(** [ActionContainer.all]: the names in the snapshot of the owner. *)
Definition ActionContainer_all `{Environment} : ST (Owner * Log) (list value) :=
  ActionContainer_reload ;;;
  actions <- on_owner Collection_get__actions Entity_get__actions ;;
  items <- lift (iterate actions) ;;
  collect (fun a => lift (getitem a "name")) items.

Definition ActionContainer_collection (o : Owner) : Collection :=
  match o with
  | OCollection c => c
  | OEntity e => Entity_collection e
  end.

(** ** class Action *)

Inductive Arg : Type :=
| ArgEntity (e : Entity)
| ArgValue (v : value).

Inductive ActionResult : Type :=
| Returned (v : value)
| Results (l : list Entity).

Definition Action_resources (args : list Arg) : list value :=
  map (fun res => match res with
                  | ArgEntity e => Entity__ref_repr e
                  | ArgValue v => v
                  end) args.

Definition Action_query_dict (self : Action) (args : list Arg) (kwargs : dict) : dict :=
  let resources := Action_resources args in
  [("action", Action__name self)] ++
  match resources with
  | _ :: _ => [("resources", VList resources)]
  | [] =>
      match kwargs with
      | _ :: _ => [("resource", VDict kwargs)]
      | [] => []
      end
  end.

(** The entity built for one element of [results]. *)
Definition Action_process_result `{Environment} (collection : Collection) (data : value)
  : ST Log Entity :=
  has_id <- lift (contains "id" data) ;;
  if has_id : bool then
    id <- lift (getitem data "id") ;;
    Entity___init__ collection
      (VDict [("href", VStr (py_str (Collection__href collection) +:+ "/" +:+ py_str id))])
  else
    has_href <- lift (contains "href" data) ;;
    if has_href : bool then
      href <- lift (getitem data "href") ;;
      Entity___init__ collection (VDict [("href", href)])
    else raise NotImplementedError.

(** [Action.__call__]; [owner] is the owner of the container of the action,
    from which [self.collection] comes. *)
Definition Action___call__ `{Environment} (self : Action) (owner : Owner)
    (args : list Arg) (kwargs : dict) : ST Log ActionResult :=
  let collection := ActionContainer_collection owner in
  let query_dict := Action_query_dict self args kwargs in
  result <-
    (if is_str "post" (Action__method self) then
       API_post (Collection__api collection) (Action__href self) query_dict
     else if is_str "delete" (Action__method self) then
       API_delete (Collection__api collection) (Action__href self) query_dict
     else raise NotImplementedError) ;;
  if is_None result then ret (Returned VNone)
  else
    has_results <- lift (contains "results" result) ;;
    if has_results : bool then
      results <- lift (getitem result "results") ;;
      items <- lift (iterate results) ;;
      processed <- collect (Action_process_result collection) items ;;
      ret (Results processed)
    else ret (Returned result).

(** ** The other methods of the client

    The methods of [Collection] and [SearchResult] that hand out entities,
    [ActionContainer.__getattr__] and [__contains__], [Action.__repr__] and
    [CollectionsIndex]. *)

(** Exceptions of list indexing and of [Collection.get], which none of the
    methods above raises. *)
Inductive Raised : Type :=
| Raised_Exn (e : Exn)
| IndexError
| Exception (msg : string).

(** The place of [l[position]] in a list: a negative position counts from
    the end, and there is no place outside of the list. *)
Definition list_index {A} (l : list A) (position : Z) : option nat :=
  let n := Z.of_nat (length l) in
  if ((0 <=? position) && (position <? n))%Z then Some (Z.to_nat position)
  else if ((- n <=? position) && (position <? 0))%Z then Some (Z.to_nat (n + position))
  else None.

(** *** class SearchResult *)

Definition SearchResult_set_resources (resources : list Entity) (sr : SearchResult)
  : SearchResult :=
  mkSearchResult (SearchResult_collection sr) (SearchResult_count sr)
    (SearchResult_subcount sr) (SearchResult_name sr) resources.

(** [SearchResult.__getitem__] for an integer position.  The entity that is
    reloaded is the one in [resources], which is given back. *)
Definition SearchResult___getitem__ `{Environment} (position : Z)
    (s : SearchResult * Log) : (Raised + Entity) * (SearchResult * Log) :=
  let resources := SearchResult_resources (fst s) in
  match list_index resources position with
  | None => (inl IndexError, s)
  | Some i =>
      match resources !! i with
      | None => (inl IndexError, s)
      | Some entity =>
          match Entity_reload VNone true (entity, snd s) with
          | (r, (entity', log')) =>
              (match r with
               | inl e => inl (Raised_Exn e)
               | inr _ => inr entity'
               end,
               (SearchResult_set_resources (<[i := entity']> resources) (fst s), log'))
          end
      end
  end.

(** [SearchResult.__iter__], for a loop that asks for at most [n] entities:
    each entity is reloaded when the loop comes to it.  The result is the
    entities the loop has got and the exception that ended it, if any. *)
Fixpoint SearchResult_loop `{Environment} (n : nat) (pending : list Entity) (log : Log)
  : list Entity * list Entity * option Exn * Log :=
  match n, pending with
  | 0, _ | _, [] => ([], pending, None, log)
  | S n', resource :: rest =>
      match Entity_reload VNone true (resource, log) with
      | (inr _, (resource', log')) =>
          match SearchResult_loop n' rest log' with
          | (yielded, rest', raised, log'') =>
              (resource' :: yielded, resource' :: rest', raised, log'')
          end
      | (inl e, (resource', log')) => ([], resource' :: rest, Some e, log')
      end
  end.

Definition SearchResult___iter__ `{Environment} (n : nat) (s : SearchResult * Log)
  : list Entity * option Exn * (SearchResult * Log) :=
  match SearchResult_loop n (SearchResult_resources (fst s)) (snd s) with
  | (yielded, resources', raised, log') =>
      (yielded, raised, (SearchResult_set_resources resources' (fst s), log'))
  end.

Definition SearchResult___len__ (sr : SearchResult) : value :=
  SearchResult_subcount sr.

(** *** class Collection *)

(** [Collection.get]: the [IndexError] of an empty result becomes
    [Exception]. *)
Definition Collection_get `{Environment} (self : Collection) (params : dict)
    (log : Log) : (Raised + Entity) * Log :=
  match Collection_find_by self params log with
  | (inl e, log') => (inl (Raised_Exn e), log')
  | (inr result, log') =>
      match SearchResult___getitem__ 0 (result, log') with
      | (inl IndexError, (_, log'')) => (inl (Exception "No such object!"), log'')
      | (r, (_, log'')) => (r, log'')
      end
  end.

Definition Collection_count `{Environment} : ST (Collection * Log) value :=
  Collection_reload_if_needed ;;;
  this <- self ;;
  match Collection__count this with
  | Some v => ret v
  | None => raise (AttributeError "_count")
  end.

Definition Collection_subcount `{Environment} : ST (Collection * Log) value :=
  Collection_reload_if_needed ;;;
  this <- self ;;
  match Collection__subcount this with
  | Some v => ret v
  | None => raise (AttributeError "_subcount")
  end.

Definition Collection___len__ `{Environment} : ST (Collection * Log) value :=
  Collection_subcount.

(** [Collection.__call__] *)
Definition Collection___call__ `{Environment} (self : Collection) (id : value) : Entity :=
  API_get_entity (Collection__api self) (inl self) id.

(** *** class ActionContainer *)

(** [hasattr(obj, name)] of Python 2: the lookup is made, and whatever it
    raises means no. *)
Definition hasattr {S A} (lookup : ST S A) : ST S bool :=
  fun s =>
    match lookup s with
    | (inr _, s') => (inr true, s')
    | (inl _, s') => (inr false, s')
    end.

(** [ActionContainer.__getattr__], which Python calls when the lookup of
    [attr] has found nothing; [retry] is [getattr(self, attr)], which both
    [hasattr] and the last line make. *)
Definition ActionContainer___getattr__ `{Environment}
    (retry : string -> ST (Owner * Log) Action) (attr : string)
  : ST (Owner * Log) Action :=
  ActionContainer_reload ;;;
  found <- hasattr (retry attr) ;;
  if negb found then raise (AttributeError ("No such action " +:+ attr))
  else retry attr.

(** [getattr(self, attr)] on a container, for a name that is not a member of
    the class: the actions set so far, then [__getattr__].  [depth] is the
    number of nested calls the interpreter still allows. *)
Fixpoint ActionContainer_getattr `{Environment} (depth : nat) (attr : string)
  : ST (Owner * Log) Action :=
  this <- self ;;
  match ActionContainer_attrs (Owner_action this) !! attr with
  | Some a => ret a
  | None =>
      match depth with
      | 0 => raise (RuntimeError "maximum recursion depth exceeded")
      | S depth' => ActionContainer___getattr__ (ActionContainer_getattr depth') attr
      end
  end.

(** [action in container] for a string. *)
Definition ActionContainer___contains__ `{Environment} (action : string)
  : ST (Owner * Log) bool :=
  names <- ActionContainer_all ;;
  ret (existsb (is_str action) names).

(** *** class Action *)

(** [Action.__repr__], with the owner of the container of the action as
    the state.  [self._container._entity] is a lookup on the container,
    which has no slot of that name: it finds an action of that name, or
    nothing.  The format takes its arguments in turn. *)
Definition Action___repr__ `{Environment} (depth : nat) (self : Action)
  : ST (Owner * Log) string :=
  entity <- ActionContainer_getattr depth "_entity" ;;
  method <- lift (py_format (Action__method self)) ;;
  href <- lift (py_format (Action__href entity)) ;;
  name <- lift (py_format (Action__name self)) ;;
  ret ("<Action " +:+ method +:+ " " +:+ href +:+ "#" +:+ name +:+ ">").

(** *** The entities of a collection *)

(** [d[k] = v] for a key that the dict has: the key keeps its place. *)
Fixpoint dict_replace (k : string) (v : value) (d : dict) : dict :=
  match d with
  | [] => []
  | (k', v') :: d' =>
      if String.eqb k k' then (k', v) :: d' else (k', v') :: dict_replace k v d'
  end.

(** [Entity(collection, fragment)] for an element of [_resources].  The
    entity takes the fragment itself as its [_data], so what
    [reload(get=False)] pops from [_data] is gone from the fragment that the
    collection holds: the result is the outcome of the constructor and the
    fragment as it is afterwards.  A fragment without [id] is not touched,
    the entity lets go of it. *)
Definition Entity_of_fragment `{Environment} (collection : Collection)
    (fragment : value) (log : Log) : Result Entity * value * Log :=
  match Entity__load_data (mkEntity collection empty_container fragment VNone None ∅, log) with
  | (r, (this, log')) =>
      (match r with
       | inr _ => inr this
       | inl e => inl e
       end,
       match contains "id" fragment with
       | inr true => Entity__data this
       | _ => fragment
       end,
       log')
  end.

(** The elements of the list [_resources] after a change of some of them.
    [reload] takes this list from [_data], where it is under [resources]:
    it is one list, and the change shows in both places. *)
Definition Collection_set_fragments (fragments : list value) (c : Collection)
  : Collection :=
  Collection_set__resources (VList fragments)
    (Collection_set__data
       (match Collection__data c with
        | VDict d => VDict (dict_replace "resources" (VList fragments) d)
        | data => data
        end) c).

(** When [_resources] is no list its elements are strings, which nothing
    changes. *)
Definition Collection_keep_fragments (resources : value) (fragments : list value)
    (c : Collection) : Collection :=
  match resources with
  | VList _ => Collection_set_fragments fragments c
  | _ => c
  end.

(** [Entity(self, resource)] for the elements of [_resources] in turn, for
    at most [n] of them: the entities built, the elements afterwards, and
    the exception that ended the pass, if any. *)
Fixpoint Collection_loop `{Environment} (n : nat) (self : Collection)
    (pending : list value) (log : Log)
  : list Entity * list value * option Exn * Log :=
  match n, pending with
  | 0, _ | _, [] => ([], pending, None, log)
  | S n', fragment :: rest =>
      match Entity_of_fragment self fragment log with
      | (inr e, fragment', log') =>
          match Collection_loop n' self rest log' with
          | (yielded, rest', raised, log'') =>
              (e :: yielded, fragment' :: rest', raised, log'')
          end
      | (inl x, fragment', log') => ([], fragment' :: rest, Some x, log')
      end
  end.

(** [Collection.all]: [map] goes through the whole of [_resources]; the
    entities hold the collection as it is when the pass begins. *)
Definition Collection_all `{Environment} : ST (Collection * Log) (list Entity) :=
  Collection_reload_if_needed ;;;
  this <- self ;;
  match Collection__resources this with
  | None => raise (AttributeError "_resources")
  | Some resources =>
      items <- lift (iterate resources) ;;
      fun s =>
        match Collection_loop (length items) this items (snd s) with
        | (yielded, items', raised, log') =>
            (match raised with
             | Some x => inl x
             | None => inr yielded
             end,
             (Collection_keep_fragments resources items' (fst s), log'))
        end
  end.

(** [Collection.__iter__], for a loop that asks for at most [n] entities:
    the generator reloads the collection when the loop asks for the first
    one, and builds each entity when the loop comes to it. *)
Definition Collection___iter__ `{Environment} (n : nat) (s : Collection * Log)
  : list Entity * option Exn * (Collection * Log) :=
  match n with
  | 0 => ([], None, s)
  | S _ =>
      match Collection_reload (VBool true) s with
      | (inl x, s') => ([], Some x, s')
      | (inr _, (this, log')) =>
          match Collection__resources this with
          | None => ([], Some (AttributeError "_resources"), (this, log'))
          | Some resources =>
              match iterate resources with
              | inl x => ([], Some x, (this, log'))
              | inr items =>
                  match Collection_loop n this items log' with
                  | (yielded, items', raised, log'') =>
                      (yielded, raised,
                       (Collection_keep_fragments resources items' this, log''))
                  end
              end
          end
      end
  end.

(** [v[position]] for an integer position; the key of a [KeyError] is
    written as text. *)
Definition getitem_at (v : value) (position : Z) : Raised + value :=
  let at_ (l : list value) :=
    match list_index l position with
    | Some i =>
        match l !! i with
        | Some x => inr x
        | None => inl IndexError
        end
    | None => inl IndexError
    end in
  match v with
  | VList l => at_ l
  | VStr s => at_ (map (fun c => VStr (String c "")) (String.list_ascii_of_string s))
  | VDict _ => inl (Raised_Exn (KeyError (pretty position)))
  | _ => inl (Raised_Exn TypeError)
  end.

(** [Collection.__getitem__] for an integer position. *)
Definition Collection___getitem__ `{Environment} (position : Z) (s : Collection * Log)
  : (Raised + Entity) * (Collection * Log) :=
  match Collection_reload_if_needed s with
  | (inl x, s') => (inl (Raised_Exn x), s')
  | (inr _, (this, log')) =>
      match Collection__resources this with
      | None => (inl (Raised_Exn (AttributeError "_resources")), (this, log'))
      | Some resources =>
          match getitem_at resources position with
          | inl x => (inl x, (this, log'))
          | inr fragment =>
              let kept fragment' :=
                match resources with
                | VList l =>
                    match list_index l position with
                    | Some i => Collection_set_fragments (<[i := fragment']> l) this
                    | None => this
                    end
                | _ => this
                end in
              match Entity_of_fragment this fragment log' with
              | (inl x, fragment', log'') =>
                  (inl (Raised_Exn x), (kept fragment', log''))
              | (inr entity, fragment', log'') =>
                  match Entity_reload VNone true (entity, log'') with
                  | (r, (entity', log3)) =>
                      (match r with
                       | inl x => inl (Raised_Exn x)
                       | inr _ => inr entity'
                       end, (kept fragment', log3))
                  end
              end
          end
      end
  end.

(** *** class CollectionsIndex *)

(** The index with its slots and the collections that [_load_data] has set
    on it by name. *)
Record CollectionsIndex : Type := mkCollectionsIndex {
  CollectionsIndex__api : API;
  CollectionsIndex__data : value;
  CollectionsIndex__collections : list Collection;
  CollectionsIndex_attrs : gmap string Collection }.

(** [setattr(self, name, c)]: the name of an attribute is a string, and
    [all] and [all_names] are properties without a setter. *)
Definition CollectionsIndex_setattr (name : value) (c : Collection)
  : ST (CollectionsIndex * Log) unit :=
  match name with
  | VStr n =>
      if mem n ["all"; "all_names"] then raise (AttributeError "can't set attribute")
      else
        update (fun this =>
                  mkCollectionsIndex (CollectionsIndex__api this)
                    (CollectionsIndex__data this) (CollectionsIndex__collections this)
                    (<[n := c]> (CollectionsIndex_attrs this)))
  | _ => raise TypeError
  end.

(** [self._collections.append(c)] *)
Definition CollectionsIndex_append (c : Collection) : ST (CollectionsIndex * Log) unit :=
  update (fun this =>
            mkCollectionsIndex (CollectionsIndex__api this) (CollectionsIndex__data this)
              (CollectionsIndex__collections this ++ [c]) (CollectionsIndex_attrs this)).

(** The body of the loop of [_load_data].  A collection has a string as its
    name in the model; with any other name the constructor goes through and
    [setattr] then refuses the name. *)
Definition CollectionsIndex__load_entry (collection : value)
  : ST (CollectionsIndex * Log) unit :=
  this <- self ;;
  href <- lift (getitem collection "href") ;;
  name <- lift (getitem collection "name") ;;
  description <- lift (getitem collection "description") ;;
  match name with
  | VStr n =>
      let c := Collection___init__ (CollectionsIndex__api this) href n description in
      name' <- lift (getitem collection "name") ;;
      CollectionsIndex_setattr name' c ;;;
      CollectionsIndex_append c
  | _ => raise TypeError
  end.

Definition CollectionsIndex__load_data : ST (CollectionsIndex * Log) unit :=
  this <- self ;;
  items <- lift (iterate (CollectionsIndex__data this)) ;;
  for_each items CollectionsIndex__load_entry.

(** [CollectionsIndex(api, data)]; when [_load_data] raises there is no
    object. *)
Definition CollectionsIndex___init__ (api : API) (data : value)
  : ST Log CollectionsIndex :=
  fun log =>
    match CollectionsIndex__load_data (mkCollectionsIndex api data [] ∅, log) with
    | (inr _, (this, log')) => (inr this, log')
    | (inl e, (_, log')) => (inl e, log')
    end.

Definition CollectionsIndex_all (self : CollectionsIndex) : list Collection :=
  CollectionsIndex__collections self.

Definition CollectionsIndex_all_names (self : CollectionsIndex) : list string :=
  map Collection_name (CollectionsIndex_all self).

(** [collection in index] for a string. *)
Definition CollectionsIndex___contains__ (collection : string) (self : CollectionsIndex)
  : bool :=
  mem collection (CollectionsIndex_all_names self).

(** [index.attr] for a name that is not a member of the class: the class has
    no [__getattr__]. *)
Definition CollectionsIndex_getattr (attr : string) (self : CollectionsIndex)
  : Result Collection :=
  match CollectionsIndex_attrs self !! attr with
  | Some c => inr c
  | None => inl (AttributeError attr)
  end.

(** * The vocabulary of the properties

    Functions and predicates that the statements below are written with:
    what a verb makes of a response, the two filter queries, the effect of
    the loop of [Entity.reload] on the attributes, the actions a snapshot
    declares. *)

(** What a verb makes of the text of a response; [blank_is_null] is the
    tolerance of [post] and [delete] for an empty body. *)
Definition processed `{Environment} (text : string) (blank_is_null : bool)
  : Result value :=
  match loads text with
  | None =>
      if blank_is_null && Nat.eqb (String.length (strip text)) 0 then inr VNone
      else inl (decode_error text)
  | Some data => API__result_processor data
  end.

(** The outcomes other than a raised [APIException]. *)
Definition not_api {A} (r : Result A) : Prop :=
  match r with
  | inl (APIException _) => False
  | _ => True
  end.

(** [quiet proj c]: [c] leaves the log, which [proj] reads off the state, as
    it found it, and does not raise [APIException]. *)
Definition quiet {S A} (proj : S -> Log) (c : ST S A) : Prop :=
  forall s, proj (snd (c s)) = proj s /\ not_api (fst (c s)).

(** The test of [except APIException]. *)
Definition is_api_exn {A} (r : Result A) : bool :=
  match r with
  | inl (APIException _) => true
  | _ => false
  end.

(** The two queries, as the specification names them. *)
Definition sqlfilter_params `{Environment} (params : dict) : dict :=
  [("sqlfilter",
    VStr (String.concat " AND "
            (map (fun item : string * value =>
                    fst item +:+ " = " +:+ repr_str (py_str (snd item))) params)))].

Definition filter_params `{Environment} (params : dict) : dict :=
  [("filter[]",
    VList (map (fun item : string * value =>
                  VStr (fst item +:+ "=" +:+ repr_str (py_str (snd item)))) params))].

Definition sqlfilter_query `{Environment} (c : Collection) (params : dict) : Request :=
  mkRequest GET (Collection__href c) (API__auth (Collection__api c))
    (sqlfilter_params params) None.

Definition filter_query `{Environment} (c : Collection) (params : dict) : Request :=
  mkRequest GET (Collection__href c) (API__auth (Collection__api c))
    (filter_params params) None.

(** What the loop of [reload] does to the attributes for one field, and for
    the fields of a document in the order of the loop; a field that cannot
    be handled stops the loop and leaves the attributes set before it. *)
Definition field_update `{Environment} (api : API) (item : string * value)
  : Result (gmap string AttrVal -> gmap string AttrVal) :=
  let (key, value) := item in
  if mem key Entity_TIME_FIELDS then
    match parse_date value with
    | inr d => inr (fun m => <[key := ATime d]> m)
    | inl x => inl x
    end
  else
    match mapping_get key Entity_COLLECTION_MAPPING with
    | Some target =>
        inr (fun m => <[key := AVal value]>
                        (<[sub_id_suffix key := ARef (API_get_entity api (inr target) value)]> m))
    | None => inr (fun m => <[key := AVal value]> m)
    end.

Arguments field_update : simpl never.

Fixpoint fields_update `{Environment} (api : API) (items : dict)
    (m : gmap string AttrVal) : Result unit * gmap string AttrVal :=
  match items with
  | [] => (inr tt, m)
  | item :: rest =>
      match field_update api item with
      | inr f => fields_update api rest (f m)
      | inl x => (inl x, m)
      end
  end.

(** The entity after the lines of [reload] that follow the GET, run on the
    document [data]. *)
Definition Entity_snapshot `{Environment} (data : value) (e : Entity)
  : Result unit * Entity :=
  match e with
  | mkEntity c a _ h ac m =>
      let api := Collection__api c in
      match getitem data (if negb (API_new_id_behaviour api) then "id" else "href") with
      | inl x => (inl x, mkEntity c a data h ac m)
      | inr h' =>
          match data with
          | VDict d =>
              let (r, m') := fields_update api (dict_remove "actions" d) m in
              (r, mkEntity c a (VDict (dict_remove "actions" d)) h'
                    (Some (fst (dict_pop "actions" (VList []) d))) m')
          | _ => (inl TypeError, mkEntity c a data h ac m)
          end
      end
  end.

Arguments Entity_snapshot : simpl never.

(** Successive calls of [reload], one for each element of [expands], each
    made whatever the outcome of the one before. *)
Fixpoint reloads `{Environment} (expands : list value) (s : Entity * Log)
  : Entity * Log :=
  match expands with
  | [] => s
  | expand :: rest => reloads rest (snd (Entity_reload expand true s))
  end.

(** The name of the identity field of a document. *)
Definition identity_field (api : API) : string :=
  if negb (API_new_id_behaviour api) then "id" else "href".

(** What [API.get] returns or raises for the reply of the server. *)
Definition answer `{Environment} (reply : Reply) : Result value :=
  match reply with
  | Got text => processed text false
  | Failed what => inl (RequestException what)
  end.

(** The [_href] a reload leaves, from the one it finds. *)
Definition resolved `{Environment} (reply : Reply) (api : API) (h : value) : value :=
  match answer reply with
  | inr data =>
      match getitem data (identity_field api) with
      | inr h' => h'
      | inl _ => h
      end
  | inl _ => h
  end.

(** The document that [reload] works on: the one that [get] returns, or
    the one in [_data] when no GET is asked for. *)
Definition reload_document `{Environment} (expand : value) (get : bool)
    (s : Entity * Log) : Result value :=
  if get then
    fst (API_get (Collection__api (Entity_collection (fst s))) (Entity__href (fst s))
           (if truthy expand then [("expand", expand)] else []) (snd s))
  else inr (Entity__data (fst s)).

(** The fields the loop visits after the field [k]. *)
Fixpoint fields_after (k : string) (d : dict) : dict :=
  match d with
  | [] => []
  | (k', _) :: d' => if String.eqb k k' then d' else fields_after k d'
  end.

(** The slot [_actions] of the owner: its latest snapshot of the actions. *)
Definition Owner__actions (o : Owner) : option value :=
  match o with
  | OCollection c => Collection__actions c
  | OEntity e => Entity__actions e
  end.

(** The name and the [Action] that one element of [_actions] declares. *)
Definition action_of (item : value) : option (string * Action) :=
  match getitem item "name", getitem item "method", getitem item "href" with
  | inr (VStr n), inr method, inr href =>
      if negb (is_ascii n) || mem n ["all"; "collection"] then None
      else Some (n, mkAction (VStr n) method href)
  | _, _, _ => None
  end.

(** The action under the name [n] once the elements [items] have been
    declared in turn over the action [prev]: the last declaration of [n],
    and [prev] when there is none. *)
Fixpoint declared (n : string) (items : list value) (prev : option Action)
  : option Action :=
  match items with
  | [] => prev
  | item :: rest =>
      declared n rest
        (match action_of item with
         | Some (n', a) => if String.eqb n' n then Some a else prev
         | None => prev
         end)
  end.

(** [keeps g c]: [c] leaves the part [g] of the state as it found it. *)
Definition keeps {S A X} (g : S -> X) (c : ST S A) : Prop :=
  forall s, g (snd (c s)) = g s.

(** A field that the model of [Entity.reload] handles as the code does: its
    key is plain, and the value of a foreign key is one that [format] takes
    into the address of the entity, a number or a text of ASCII. *)
Definition plain_field (item : string * value) : bool :=
  plain_key (fst item) &&
  match mapping_get (fst item) Entity_COLLECTION_MAPPING, snd item with
  | Some _, VStr s => is_ascii s
  | _, _ => true
  end.

(** A document or a fragment of plain fields. *)
Definition plain_fields (v : value) : bool :=
  match v with
  | VDict d => forallb plain_field d
  | _ => true
  end.

(** A document whose fields are plain, and so are those of the fragments
    under [resources] when it is the document of a collection. *)
Definition plain_document (v : value) : bool :=
  plain_fields v &&
  match v with
  | VDict d =>
      match dict_get "resources" d with
      | Some (VList fragments) => forallb plain_fields fragments
      | _ => true
      end
  | _ => true
  end.

(** The server answers the request [r] after [log] with a plain document,
    if it answers with a document. *)
Definition plain_reply `{Environment} (log : Log) (r : Request) : Prop :=
  forall text data,
    respond log r = Got text -> loads text = Some data -> plain_document data = true.

(** The fragments that the collection has under [_resources] are plain. *)
Definition plain_resources (c : Collection) : bool :=
  match Collection__resources c with
  | Some (VList fragments) => forallb plain_fields fragments
  | _ => true
  end.

(** The text that [Action.__repr__] makes with the action it has found
    under [_entity], or what the format raises. *)
Definition Action_text `{Environment} (self entity : Action) : Result string :=
  match py_format (Action__method self) with
  | inl x => inl x
  | inr method =>
      match py_format (Action__href entity) with
      | inl x => inl x
      | inr href =>
          match py_format (Action__name self) with
          | inl x => inl x
          | inr name => inr ("<Action " +:+ method +:+ " " +:+ href +:+ "#" +:+ name +:+ ">")
          end
      end
  end.

(** The collection after the assignments of [Collection.reload] for the
    document [d]. *)
Definition Collection_snapshot (d : dict) (resources count subcount : value)
    (c : Collection) : Collection :=
  Collection_set__actions (fst (dict_pop "actions" (VList []) d))
    (Collection_set__data (VDict (dict_remove "actions" d))
       (Collection_set__subcount subcount
          (Collection_set__count count
             (Collection_set__resources resources
                (Collection_set__data (VDict d) c))))).

(** The request of [entity.reload()]. *)
Definition entity_request (e : Entity) : Request :=
  mkRequest GET (Entity__href e) (API__auth (Collection__api (Entity_collection e)))
    [] None.

(** The slot [_data] of the owner. *)
Definition Owner__data (o : Owner) : value :=
  match o with
  | OCollection c => Collection__data c
  | OEntity e => Entity__data e
  end.

(** The names that an action can have beside the slot and the members of
    the class of its container: an action of another name would replace the
    slot or the method, which the attributes of the model do not show. *)
Definition plain_name (n : string) : bool :=
  negb (prefix_of "__" n) && negb (mem n ["_obj"; "reload"; "all"; "collection"]).

(** The container of the owner has actions of plain names alone. *)
Definition plain_actions (o : Owner) : bool :=
  forallb plain_name (map fst (map_to_list (ActionContainer_attrs (Owner_action o)))).

(** The names that the latest snapshot of the owner declares. *)
Definition declared_names (o : Owner) : list string :=
  match Owner__actions o with
  | Some actions =>
      match iterate actions with
      | inr items =>
          flat_map (fun item => match action_of item with
                                | Some (n, _) => [n]
                                | None => []
                                end) items
      | inl _ => []
      end
  | None => []
  end.

(** The entity that [Action.__call__] makes of one element of [results]:
    addressed by its [id] under the href of the collection, or else by its
    [href]. *)
Definition result_entity `{Environment} (collection : Collection) (data : dict)
  : option Entity :=
  match dict_get "id" data with
  | Some id =>
      Some (Entity_stub collection
              (VStr (py_str (Collection__href collection) +:+ "/" +:+ py_str id)))
  | None =>
      match dict_get "href" data with
      | Some href => Some (Entity_stub collection href)
      | None => None
      end
  end.

Fixpoint result_entities `{Environment} (collection : Collection) (results : list dict)
  : option (list Entity) :=
  match results with
  | [] => Some []
  | data :: rest =>
      match result_entity collection data with
      | Some e =>
          match result_entities collection rest with
          | Some es => Some (e :: es)
          | None => None
          end
      | None => None
      end
  end.

(** The request of [Collection.reload]. *)
Definition collection_request (expand : value) (c : Collection) : Request :=
  mkRequest GET (Collection__href c) (API__auth (Collection__api c))
    (if truthy expand then [("expand", VStr "resources")] else []) None.

(** What two entities built from one fragment have in common when the
    second is built after the first: all but the actions, which the first
    has taken out of the fragment. *)
Definition rebuilt (first second : Entity) : Prop :=
  Entity__href second = Entity__href first /\
  Entity__data second = Entity__data first /\
  Entity_attrs second = Entity_attrs first /\
  Entity__actions second =
    if is_None (Entity__data first) then None else Some (VList []).

(** The request of the first load of the owner. *)
Definition owner_request (o : Owner) : Request :=
  match o with
  | OCollection c => collection_request (VBool false) c
  | OEntity e => entity_request e
  end.

(** The index has collections of plain names alone: a name that starts with
    an underscore would replace a slot of the index, which the attributes
    of the model do not show. *)
Definition plain_collections (index : CollectionsIndex) : bool :=
  forallb (fun n => negb (prefix_of "_" n)) (CollectionsIndex_all_names index).

(** The collection that the index builds from an entry of the root
    document, or what the entry makes [_load_data] raise. *)
Definition entry_collection (api : API) (entry : value) : Result Collection :=
  match getitem entry "href" with
  | inl x => inl x
  | inr href =>
      match getitem entry "name" with
      | inl x => inl x
      | inr name =>
          match getitem entry "description" with
          | inl x => inl x
          | inr description =>
              match name with
              | VStr n =>
                  if mem n ["all"; "all_names"]
                  then inl (AttributeError "can't set attribute")
                  else inr (Collection___init__ api href n description)
              | _ => inl TypeError
              end
          end
      end
  end.

(** What the loop of [_load_data] keeps true: the names of the list are the
    names that are set, and a collection that is set is in the list under
    its name. *)
Definition index_ok (index : CollectionsIndex) : Prop :=
  (forall name, mem name (CollectionsIndex_all_names index) = true <->
                is_Some (CollectionsIndex_attrs index !! name)) /\
  (forall name c, CollectionsIndex_attrs index !! name = Some c ->
                  Collection_name c = name /\
                  Collection__api c = CollectionsIndex__api index /\
                  Collection__data c = VNone /\
                  In c (CollectionsIndex_all index)).

(** The entries of the root document that give a collection of a plain
    name. *)
Definition good_entry (api : API) (entry : value) : bool :=
  match entry_collection api entry with
  | inr c => negb (prefix_of "_" (Collection_name c))
  | inl _ => false
  end.

(** * Environments and objects for concrete runs

    A decoder given by the table of the texts it accepts, which rejects
    every blank text, and a server given by a function of the log and the
    request. *)

Definition table_loads (table : list (string * value)) (s : string) : option value :=
  if Nat.eqb (String.length (strip s)) 0 then None else dict_get s table.

Definition scripted (server : Log -> Request -> Reply)
    (table : list (string * value)) : Environment :=
  {| respond := server;
     loads := table_loads table;
     loads_blank := fun s blank =>
       @eq_ind_r nat 0
         (fun n => (if Nat.eqb n 0 then None else dict_get s table) = None)
         eq_refl (String.length (strip s)) blank;
     py_repr := fun _ => "<repr>";
     iso8601_valid := fun _ => true |}.

Definition example_api : API := mkAPI "https://host/api" ("admin", "smartvm") "1.0".

Definition envelope_env : Environment :=
  scripted (fun _ _ => Got "E")
    [("E", VDict [("error", VDict [("klass", VStr "Foo"); ("message", VStr "bar")])])].

(** A server that answers a POST with a blank text and everything else with
    a text that is no JSON. *)
Definition blank_env : Environment :=
  scripted (fun _ r => match verb r with POST => Got "  " | _ => Got "<html>" end) [].

Definition empty_env : Environment := scripted (fun _ _ => Got "") [].

(** Texts with a character from 128 on: the word [Caf] with an e acute
    after it, a page with that letter, and a no-break space. *)
Definition cafe : string := "Caf" +:+ String (ascii_of_N 233) "".

Definition accented_html : string := "<html>" +:+ String (ascii_of_N 233) "".

Definition nbsp : string := String (ascii_of_N 160) "".

Definition accented_env : Environment :=
  scripted (fun _ _ => Got "E")
    [("E", VDict [("error", VDict [("klass", VStr "Foo"); ("message", VStr cafe)])])].

Definition accented_html_env : Environment := scripted (fun _ _ => Got accented_html) [].

Definition nbsp_env : Environment := scripted (fun _ _ => Got nbsp) [].

Definition vms : Collection :=
  Collection___init__ example_api (VStr "https://host/api/vms") "vms" VNone.

Definition vms_document (name : string) : value :=
  VDict [("name", VStr name); ("count", VInt 2); ("subcount", VInt 2);
         ("resources", VList [VDict [("href", VStr "https://host/api/vms/1")];
                              VDict [("href", VStr "https://host/api/vms/2")]]);
         ("actions", VList [])].

Definition renamed_env : Environment :=
  scripted (fun _ _ => Got "hosts") [("hosts", vms_document "hosts")].

Definition vms_env : Environment :=
  scripted (fun _ _ => Got "vms") [("vms", vms_document "vms")].

Definition vm (n : string) : Entity :=
  Entity_stub vms (VStr ("https://host/api/vms/" +:+ n)).

Definition stop_action : Action :=
  mkAction (VStr "stop") (VStr "post") (VStr "https://host/api/vms").

Definition vms_at (version : string) : Collection :=
  Collection___init__ (mkAPI "https://host/api" ("admin", "smartvm") version)
    (VStr "https://host/api/vms") "vms" VNone.

(** A server that rejects the [sqlfilter] query with an error envelope and
    answers every other request with the collection document. *)
Definition dialect_env : Environment :=
  scripted
    (fun _ r => match params r with
                | [("sqlfilter", _)] => Got "E"
                | _ => Got "vms"
                end)
    [("E", VDict [("error", VDict [("klass", VStr "Foo"); ("message", VStr "bar")])]);
     ("vms", vms_document "vms")].

Definition stable_vm_env : Environment :=
  scripted (fun _ _ => Got "vm")
    [("vm", VDict [("id", VStr "https://host/api/vms/1"); ("name", VStr "vm1");
                   ("actions", VList [])])].

Definition zoned_vm_env : Environment :=
  scripted (fun _ _ => Got "vm")
    [("vm", VDict [("id", VStr "https://host/api/vms/1"); ("zone_id", VInt 7);
                   ("name", VStr "vm1")])].

(** A document with a foreign key and a field of the shorter name.  CPython
    2.7 iterates the dict with the keys [id], [host_id] and [host] in the
    order [host_id], [host], [id]. *)
Definition hosted_vm : value :=
  VDict [("host_id", VInt 3); ("host", VStr "esx1");
         ("id", VStr "https://host/api/vms/1")].

Definition hosted_vm_env : Environment :=
  scripted (fun _ _ => Got "vm") [("vm", hosted_vm)].

(** A virtual machine that is first seen with the actions [start] and
    [stop], and that the server then reports with [start] alone. *)
Definition vm_action (name : string) : value :=
  VDict [("name", VStr name); ("method", VStr "post");
         ("href", VStr "https://host/api/vms/1")].

Definition running_vm : value :=
  VDict [("id", VStr "https://host/api/vms/1"); ("name", VStr "vm1");
         ("actions", VList [vm_action "start"; vm_action "stop"])].

Definition stopped_vm_env : Environment :=
  scripted (fun _ _ => Got "vm")
    [("vm", VDict [("id", VStr "https://host/api/vms/1"); ("name", VStr "vm1");
                   ("actions", VList [vm_action "start"])])].

(** The entity built from [running_vm], after [action.reload()]. *)
Definition first_snapshot : Owner * Log :=
  match @Entity___init__ stopped_vm_env vms running_vm [] with
  | (inr e, log) => snd (@ActionContainer_reload stopped_vm_env (OEntity e, log))
  | (inl _, log) => (OCollection vms, log)
  end.

(** The same entity after [reload()]. *)
Definition second_snapshot : Owner * Log :=
  match first_snapshot with
  | (OEntity e, log) =>
      let s := snd (@Entity_reload stopped_vm_env VNone true (e, log)) in
      (OEntity (fst s), snd s)
  | s => s
  end.

(** The collection of the virtual machines with its snapshot. *)
Definition loaded_vms : Collection :=
  fst (snd (@Collection_reload vms_env (VBool false) (vms, []))).

(** A server that answers a query with the collection document and every
    other request with the document of a virtual machine. *)
Definition catalogue_env : Environment :=
  scripted
    (fun _ r => match params r with
                | [] => Got "vm"
                | _ => Got "vms"
                end)
    [("vms", vms_document "vms");
     ("vm", VDict [("id", VStr "https://host/api/vms/1"); ("name", VStr "vm1");
                   ("actions", VList [])])].

(** A server whose virtual machine declares an action with the name
    [_entity]. *)
Definition entity_action_env : Environment :=
  scripted (fun _ _ => Got "vm")
    [("vm", VDict [("id", VStr "https://host/api/vms/1"); ("name", VStr "vm1");
                   ("actions", VList [vm_action "_entity"])])].

(** A server whose document of the virtual machine has no [id]. *)
Definition nameless_vm_env : Environment :=
  scripted (fun _ _ => Got "vm") [("vm", VDict [("name", VStr "vm1")])].

(** A virtual machine that has not been loaded, as the owner of its
    container. *)
Definition fresh_vm : Owner * Log := (OEntity (vm "1"), []).

(** A server that answers an action with two results, the first with an
    [id] and an [href], the second with an [href] alone. *)
Definition results_env : Environment :=
  scripted (fun _ _ => Got "done")
    [("done",
      VDict [("results",
              VList [VDict [("id", VInt 7); ("href", VStr "https://host/api/vms/seven")];
                     VDict [("href", VStr "https://host/api/vms/8")]])])].

(** A server whose collection document has the virtual machine in full. *)
Definition expanded_env : Environment :=
  scripted (fun _ _ => Got "vms")
    [("vms",
      VDict [("name", VStr "vms"); ("count", VInt 1); ("subcount", VInt 1);
             ("resources", VList [running_vm])])].

(** A server whose user has never logged on. *)
Definition user_env : Environment :=
  scripted (fun _ _ => Got "user")
    [("user", VDict [("id", VStr "https://host/api/users/1"); ("lastlogon", VNone);
                     ("name", VStr "admin")])].

(** The collections of a root document: one of them comes twice, under two
    hrefs. *)
Definition root_collections : value :=
  VList [VDict [("name", VStr "vms"); ("href", VStr "https://host/api/vms");
                ("description", VStr "Virtual Machines")];
         VDict [("name", VStr "hosts"); ("href", VStr "https://host/api/hosts");
                ("description", VStr "Hosts")];
         VDict [("name", VStr "vms"); ("href", VStr "https://host/api/v2/vms");
                ("description", VStr "Virtual Machines")]].

(** * Properties *)

(** ** Running the state transformers *)

Ltac run :=
  unfold bind, ret, raise, lift, call, update, self; simpl.

(** The reply of a server that is given by a table is a plain document. *)
Ltac settle_reply :=
  let text := fresh "text" in
  let data := fresh "data" in
  let Hreply := fresh "Hreply" in
  let Hloads := fresh "Hloads" in
  intros text data Hreply Hloads;
  vm_compute in Hreply; try discriminate Hreply; injection Hreply as <-;
  vm_compute in Hloads; try discriminate Hloads; injection Hloads as <-;
  reflexivity.

(** ** Strings *)

Lemma prefix_of_app (a b : string) : prefix_of a (a +:+ b) = true.
Proof.
  induction a as [|c a IH]; simpl; [reflexivity|].
  rewrite IH, Ascii.eqb_refl. reflexivity.
Qed.

Lemma occurs_in_app_l (a b : string) : occurs_in a (a +:+ b) = true.
Proof.
  destruct a as [|c a].
  - destruct b; reflexivity.
  - change (occurs_in (String c a) (String c a +:+ b))
      with (prefix_of (String c a) (String c a +:+ b) || occurs_in (String c a) (a +:+ b)).
    now rewrite prefix_of_app.
Qed.

Lemma occurs_in_refl (a : string) : occurs_in a a = true.
Proof.
  assert (Hp : prefix_of a a = true).
  { induction a as [|c a IH]; simpl; [reflexivity|]. now rewrite IH, Ascii.eqb_refl. }
  destruct a; simpl in *; [reflexivity|]. now rewrite Hp.
Qed.

Lemma occurs_in_app_r (p a b : string) :
  occurs_in p b = true -> occurs_in p (a +:+ b) = true.
Proof.
  intros Hb. induction a as [|c a IH]; simpl; [exact Hb|].
  rewrite IH. apply orb_true_r.
Qed.

(** ** The three verbs *)

Section Verbs.
Context `{Environment}.
Variables (api : API) (url : value) (log : Log).

Lemma API_get_run (get_params : dict) :
  let r := mkRequest GET url (API__auth api) get_params None in
  API_get api url get_params log =
    (match respond log r with
     | Got text => processed text false
     | Failed what => inl (RequestException what)
     end, log ++ [r]).
Proof.
  unfold API_get, send, processed. run.
  destruct (respond log _) as [text|what]; [|reflexivity].
  destruct (loads text) as [data|]; reflexivity.
Qed.

Lemma API_post_run (payload : dict) :
  let r := mkRequest POST url (API__auth api) [] (Some payload) in
  API_post api url payload log =
    (match respond log r with
     | Got text => processed text true
     | Failed what => inl (RequestException what)
     end, log ++ [r]).
Proof.
  unfold API_post, send, processed. run.
  destruct (respond log _) as [text|what]; [|reflexivity].
  destruct (loads text) as [data|]; [reflexivity|].
  simpl. destruct (Nat.eqb _ 0); reflexivity.
Qed.

Lemma API_delete_run (payload : dict) :
  let r := mkRequest DELETE url (API__auth api) [] (Some payload) in
  API_delete api url payload log =
    (match respond log r with
     | Got text => processed text true
     | Failed what => inl (RequestException what)
     end, log ++ [r]).
Proof.
  unfold API_delete, send, processed. run.
  destruct (respond log _) as [text|what]; [|reflexivity].
  destruct (loads text) as [data|]; [reflexivity|].
  simpl. destruct (Nat.eqb _ 0); reflexivity.
Qed.

End Verbs.

Lemma dict_get_mem (k : string) (d : dict) (v : value) :
  dict_get k d = Some v -> mem k (keys d) = true.
Proof.
  induction d as [|[k' v'] d IH]; simpl; [discriminate|].
  destruct (String.eqb k k'); [reflexivity|]. exact IH.
Qed.

Lemma result_processor_envelope `{Environment} (d e : dict) (klass message : value) :
  dict_get "error" d = Some (VDict e) ->
  dict_get "klass" e = Some klass ->
  dict_get "message" e = Some message ->
  API__result_processor (VDict d) =
    match py_format klass with
    | inl x => inl x
    | inr k =>
        match py_format message with
        | inl x => inl x
        | inr m => inl (APIException (k +:+ ": " +:+ m))
        end
    end.
Proof.
  intros He Hk Hm. unfold API__result_processor.
  rewrite (dict_get_mem _ _ _ He). simpl. rewrite He. simpl. now rewrite Hk, Hm.
Qed.

Lemma decode_error_ascii `{Environment} (text : string) :
  decode_error text =
    if is_ascii text then APIException ("JSONDecodeError: " +:+ text)
    else UnicodeEncodeError.
Proof. unfold decode_error, py_format. destruct (is_ascii text); reflexivity. Qed.

(** C4. Whatever [get], [post] or [delete] decodes goes through
    [_result_processor].  A decoded object with an [error] key whose value
    has the strings [klass] and [message] makes the call raise
    [APIException] with the message [klass: message], which contains both
    strings, when the codec [ascii] encodes the two; when one of them has a
    character from 128 on, the format of the message raises
    [UnicodeEncodeError] and no [APIException] comes. *)
Theorem error_envelope_raises `{Environment} (api : API) (url : value)
    (get_params payload : dict) (log : Log) (text : string) (data : value) :
  loads text = Some data ->
  (respond log (mkRequest GET url (API__auth api) get_params None) = Got text ->
   fst (API_get api url get_params log) = API__result_processor data) /\
  (respond log (mkRequest POST url (API__auth api) [] (Some payload)) = Got text ->
   fst (API_post api url payload log) = API__result_processor data) /\
  (respond log (mkRequest DELETE url (API__auth api) [] (Some payload)) = Got text ->
   fst (API_delete api url payload log) = API__result_processor data) /\
  (forall (d e : dict) (klass message : string),
     data = VDict d ->
     dict_get "error" d = Some (VDict e) ->
     dict_get "klass" e = Some (VStr klass) ->
     dict_get "message" e = Some (VStr message) ->
     (is_ascii klass = true -> is_ascii message = true ->
      API__result_processor data = inl (APIException (klass +:+ ": " +:+ message)) /\
      occurs_in klass (klass +:+ ": " +:+ message) = true /\
      occurs_in message (klass +:+ ": " +:+ message) = true) /\
     (is_ascii klass && is_ascii message = false ->
      API__result_processor data = inl UnicodeEncodeError)).
Proof.
  intros Hdata. split; [|split; [|split]].
  - intros Hr. rewrite API_get_run. simpl. rewrite Hr. unfold processed. now rewrite Hdata.
  - intros Hr. rewrite API_post_run. simpl. rewrite Hr. unfold processed. now rewrite Hdata.
  - intros Hr. rewrite API_delete_run. simpl. rewrite Hr. unfold processed. now rewrite Hdata.
  - intros d e klass message -> He Hk Hm.
    rewrite (result_processor_envelope d e (VStr klass) (VStr message) He Hk Hm).
    unfold py_format. split.
    + intros -> ->. split; [reflexivity|]. split.
      * apply occurs_in_app_l.
      * apply occurs_in_app_r, occurs_in_app_r, occurs_in_refl.
    + intros Hbad. destruct (is_ascii klass); [|reflexivity].
      simpl in Hbad. now rewrite Hbad.
Qed.

Lemma error_envelope_raises_witness :
  fst (@API_get accented_env example_api (VStr "https://host/api/vms") [] []) =
    inl UnicodeEncodeError /\
  fst (@API_post accented_env example_api (VStr "https://host/api/vms") [] []) =
    inl UnicodeEncodeError /\
  fst (@API_delete accented_env example_api (VStr "https://host/api/vms") [] []) =
    inl UnicodeEncodeError /\
  fst (@API_get envelope_env example_api (VStr "https://host/api/vms") [] []) =
    inl (APIException "Foo: bar").
Proof.
  destruct (@error_envelope_raises accented_env example_api (VStr "https://host/api/vms")
              [] [] [] "E" _ eq_refl) as (Hget & Hpost & Hdelete & Henv).
  destruct (Henv _ _ "Foo" cafe eq_refl eq_refl eq_refl eq_refl) as (_ & Hraise).
  rewrite (Hget eq_refl), (Hpost eq_refl), (Hdelete eq_refl), (Hraise eq_refl).
  split; [reflexivity|]. split; [reflexivity|]. split; [reflexivity|].
  destruct (@error_envelope_raises envelope_env example_api (VStr "https://host/api/vms")
              [] [] [] "E" _ eq_refl) as (Hget' & _ & _ & Henv').
  destruct (Henv' _ _ "Foo" "bar" eq_refl eq_refl eq_refl eq_refl) as (Hascii & _).
  destruct (Hascii eq_refl eq_refl) as (Hraise' & _).
  now rewrite (Hget' eq_refl), Hraise'.
Defined.

(** C5. [post] and [delete]: a response whose text is empty or blank gives
    [None] and no exception; a response whose text is not blank and does not
    decode raises [APIException] with the text in its message when the codec
    [ascii] encodes the text, and [UnicodeEncodeError], from the format of
    the message, when the text has a character from 128 on.  One request is
    sent in every case. *)
Theorem post_delete_empty_body `{Environment} (api : API) (url : value)
    (payload : dict) (log : Log) (text : string) :
  let post := mkRequest POST url (API__auth api) [] (Some payload) in
  let delete := mkRequest DELETE url (API__auth api) [] (Some payload) in
  (respond log post = Got text ->
   (String.length (strip text) = 0 ->
    API_post api url payload log = (inr VNone, log ++ [post])) /\
   (String.length (strip text) <> 0 -> loads text = None ->
    API_post api url payload log =
      (inl (if is_ascii text then APIException ("JSONDecodeError: " +:+ text)
            else UnicodeEncodeError), log ++ [post]))) /\
  (respond log delete = Got text ->
   (String.length (strip text) = 0 ->
    API_delete api url payload log = (inr VNone, log ++ [delete])) /\
   (String.length (strip text) <> 0 -> loads text = None ->
    API_delete api url payload log =
      (inl (if is_ascii text then APIException ("JSONDecodeError: " +:+ text)
            else UnicodeEncodeError), log ++ [delete]))).
Proof.
  intros post delete. split; intros Hr; split.
  - intros Hblank. rewrite API_post_run. simpl. fold post. rewrite Hr. unfold processed.
    rewrite (loads_blank _ Hblank), Hblank. reflexivity.
  - intros Hblank Hloads. rewrite API_post_run. simpl. fold post. rewrite Hr.
    unfold processed. rewrite Hloads, decode_error_ascii.
    destruct (Nat.eqb_spec (String.length (strip text)) 0); [contradiction|reflexivity].
  - intros Hblank. rewrite API_delete_run. simpl. fold delete. rewrite Hr. unfold processed.
    rewrite (loads_blank _ Hblank), Hblank. reflexivity.
  - intros Hblank Hloads. rewrite API_delete_run. simpl. fold delete. rewrite Hr.
    unfold processed. rewrite Hloads, decode_error_ascii.
    destruct (Nat.eqb_spec (String.length (strip text)) 0); [contradiction|reflexivity].
Qed.

Lemma post_delete_empty_body_witness :
  @API_post accented_html_env example_api (VStr "https://host/api/vms")
    [("action", VStr "stop")] [] =
    (inl UnicodeEncodeError,
     [mkRequest POST (VStr "https://host/api/vms") ("admin", "smartvm") []
        (Some [("action", VStr "stop")])]) /\
  @API_post blank_env example_api (VStr "https://host/api/vms") [("action", VStr "stop")] [] =
    (inr VNone,
     [mkRequest POST (VStr "https://host/api/vms") ("admin", "smartvm") []
        (Some [("action", VStr "stop")])]) /\
  @API_delete blank_env example_api (VStr "https://host/api/vms") [("action", VStr "stop")] [] =
    (inl (APIException "JSONDecodeError: <html>"),
     [mkRequest DELETE (VStr "https://host/api/vms") ("admin", "smartvm") []
        (Some [("action", VStr "stop")])]).
Proof.
  split; [|split].
  - destruct (@post_delete_empty_body accented_html_env example_api
                (VStr "https://host/api/vms") [("action", VStr "stop")] [] accented_html)
      as ((_ & Hraise) & _); [reflexivity|].
    apply Hraise; [discriminate|reflexivity].
  - destruct (@post_delete_empty_body blank_env example_api (VStr "https://host/api/vms")
                [("action", VStr "stop")] [] "  ") as ((Hnull & _) & _); [reflexivity|].
    apply Hnull. reflexivity.
  - destruct (@post_delete_empty_body blank_env example_api (VStr "https://host/api/vms")
                [("action", VStr "stop")] [] "<html>") as (_ & (_ & Hraise)); [reflexivity|].
    apply Hraise; [discriminate|reflexivity].
Defined.

(** C10. [get] has no tolerance for an empty body: a response that does not
    decode, and a response whose text is empty or blank is such a response,
    never gives [None]; it raises [APIException] with the text in its
    message when the codec [ascii] encodes the text, and
    [UnicodeEncodeError], from the format of the message, when the text has
    a character from 128 on. *)
Theorem get_empty_body_is_error `{Environment} (api : API) (url : value)
    (get_params : dict) (log : Log) (text : string) :
  let get := mkRequest GET url (API__auth api) get_params None in
  respond log get = Got text ->
  (loads text = None ->
   API_get api url get_params log =
     (inl (if is_ascii text then APIException ("JSONDecodeError: " +:+ text)
           else UnicodeEncodeError), log ++ [get])) /\
  (String.length (strip text) = 0 ->
   API_get api url get_params log =
     (inl (if is_ascii text then APIException ("JSONDecodeError: " +:+ text)
           else UnicodeEncodeError), log ++ [get])).
Proof.
  intros get Hr.
  assert (Hnone : loads text = None ->
            API_get api url get_params log =
              (inl (if is_ascii text then APIException ("JSONDecodeError: " +:+ text)
                    else UnicodeEncodeError), log ++ [get])).
  { intros Hloads. rewrite API_get_run. simpl. fold get. rewrite Hr. unfold processed.
    now rewrite Hloads, decode_error_ascii. }
  split; [exact Hnone|].
  intros Hblank. apply Hnone, loads_blank, Hblank.
Qed.

Lemma get_empty_body_is_error_witness :
  @API_get accented_html_env example_api (VStr "https://host/api/vms") [] [] =
    (inl UnicodeEncodeError,
     [mkRequest GET (VStr "https://host/api/vms") ("admin", "smartvm") [] None]) /\
  @API_get nbsp_env example_api (VStr "https://host/api/vms") [] [] =
    (inl UnicodeEncodeError,
     [mkRequest GET (VStr "https://host/api/vms") ("admin", "smartvm") [] None]) /\
  @API_get empty_env example_api (VStr "https://host/api/vms") [] [] =
    (inl (APIException "JSONDecodeError: "),
     [mkRequest GET (VStr "https://host/api/vms") ("admin", "smartvm") [] None]).
Proof.
  split; [|split].
  - destruct (@get_empty_body_is_error accented_html_env example_api
                (VStr "https://host/api/vms") [] [] accented_html eq_refl) as (Hnone & _).
    apply Hnone. reflexivity.
  - destruct (@get_empty_body_is_error nbsp_env example_api (VStr "https://host/api/vms")
                [] [] nbsp eq_refl) as (_ & Hblank).
    apply Hblank. reflexivity.
  - destruct (@get_empty_body_is_error empty_env example_api (VStr "https://host/api/vms")
                [] [] "" eq_refl) as (_ & Hblank).
    apply Hblank. reflexivity.
Defined.

(** ** Computations that send nothing

    Only the three verbs of [API] fail to be [quiet]. *)

Section Quiet.
Context {S : Type} (proj : S -> Log).

Lemma quiet_ret {A} (a : A) : quiet proj (ret a).
Proof. intros s. split; [reflexivity|exact I]. Qed.

Lemma quiet_lift {A} (r : Result A) : not_api r -> quiet proj (lift r).
Proof. intros Hr s. split; [reflexivity|exact Hr]. Qed.

Lemma quiet_raise {A} (e : Exn) :
  not_api (inl e : Result A) -> quiet proj (raise e : ST S A).
Proof. intros He s. split; [reflexivity|exact He]. Qed.

Lemma quiet_bind {A B} (c : ST S A) (k : A -> ST S B) :
  quiet proj c -> (forall a, quiet proj (k a)) -> quiet proj (bind c k).
Proof.
  intros Hc Hk s. unfold bind. specialize (Hc s).
  destruct (c s) as [[e|a] s']; simpl in Hc.
  - exact Hc.
  - destruct (Hk a s') as [Hlog Hres]. split; [|exact Hres].
    rewrite Hlog. apply Hc.
Qed.

Lemma quiet_for_each {A} (l : list A) (body : A -> ST S unit) :
  (forall x, quiet proj (body x)) -> quiet proj (for_each l body).
Proof.
  intros Hbody. induction l as [|x l IH]; simpl.
  - apply quiet_ret.
  - apply quiet_bind; [apply Hbody|intros _; exact IH].
Qed.

Lemma quiet_collect {A B} (f : A -> ST S B) (l : list A) :
  (forall x, quiet proj (f x)) -> quiet proj (collect f l).
Proof.
  intros Hf. induction l as [|x l IH]; simpl.
  - apply quiet_ret.
  - apply quiet_bind; [apply Hf|intros y].
    apply quiet_bind; [exact IH|intros ys; apply quiet_ret].
Qed.

(** After a computation, a quiet one adds nothing to the log. *)
Lemma bind_quiet_log {A B} (c : ST S A) (k : A -> ST S B) (s : S) :
  (forall a, quiet proj (k a)) -> proj (snd (bind c k s)) = proj (snd (c s)).
Proof.
  intros Hk. unfold bind. destruct (c s) as [[e|a] s']; [reflexivity|].
  apply Hk.
Qed.

(** ... and raises [APIException] only if the computation before it did. *)
Lemma bind_quiet_api {A B} (c : ST S A) (k : A -> ST S B) (s : S) (msg : string) :
  (forall a, quiet proj (k a)) ->
  fst (bind c k s) = inl (APIException msg) <-> fst (c s) = inl (APIException msg).
Proof.
  intros Hk. unfold bind. destruct (c s) as [[e|a] s']; simpl.
  { split; intros Heq; injection Heq as ->; reflexivity. }
  destruct (Hk a s') as [_ Hres]. split; intros Heq.
  - rewrite Heq in Hres. destruct Hres.
  - discriminate.
Qed.

End Quiet.

Lemma quiet_self {S} : quiet snd (@self S).
Proof. intros s. split; [reflexivity|exact I]. Qed.

Lemma quiet_update {S} (f : S -> S) : quiet snd (update f).
Proof. intros s. split; [reflexivity|exact I]. Qed.

Lemma not_api_getitem (v : value) (k : string) : not_api (getitem v k).
Proof. destruct v; simpl; try exact I. destruct (dict_get k d); exact I. Qed.

Lemma not_api_contains (k : string) (v : value) : not_api (contains k v).
Proof. destruct v; exact I. Qed.

Lemma not_api_iterate (v : value) : not_api (iterate v).
Proof. destruct v; exact I. Qed.

Lemma not_api_iteritems (v : value) : not_api (iteritems v).
Proof. destruct v; exact I. Qed.

Lemma not_api_pop (v : value) (k : string) (default : value) : not_api (pop v k default).
Proof. destruct v; exact I. Qed.

Lemma not_api_pop_required (v : value) (k : string) : not_api (pop_required v k).
Proof. destruct v; simpl; try exact I. destruct (dict_get k d); exact I. Qed.

Lemma not_api_parse_date `{Environment} (v : value) : not_api (parse_date v).
Proof. destruct v; simpl; try exact I. destruct (iso8601_valid s); exact I. Qed.

Create HintDb quiet discriminated.
#[export] Hint Resolve quiet_ret quiet_self quiet_update not_api_getitem
  not_api_contains not_api_iterate not_api_iteritems not_api_pop
  not_api_pop_required not_api_parse_date : quiet.

Ltac quiet_step :=
  first
    [ apply quiet_ret | apply quiet_self | apply quiet_update
    | apply quiet_raise; exact I
    | apply quiet_lift; solve [auto with quiet | exact I]
    | apply quiet_for_each; intros ?
    | apply quiet_collect; intros ?
    | apply quiet_bind; [|intros ?] ].

Section QuietMethods.
Context `{Environment}.

Lemma quiet_Entity_reload_field (item : string * value) :
  quiet snd (Entity_reload_field item).
Proof.
  unfold Entity_reload_field. destruct item as [key v].
  destruct (mem key Entity_TIME_FIELDS); [repeat quiet_step|].
  destruct (mapping_get key Entity_COLLECTION_MAPPING); repeat quiet_step.
Qed.

Lemma quiet_Entity_reload_offline (expand : value) :
  quiet snd (Entity_reload expand false).
Proof.
  unfold Entity_reload. repeat quiet_step. apply quiet_Entity_reload_field.
Qed.

Lemma quiet_Entity__load_data : quiet snd Entity__load_data.
Proof.
  unfold Entity__load_data.
  apply quiet_bind; [quiet_step|intros this].
  apply quiet_bind; [quiet_step|intros has_id].
  destruct has_id; [apply quiet_Entity_reload_offline|].
  apply quiet_bind; [quiet_step|intros has_href].
  destruct has_href; repeat quiet_step.
Qed.

Lemma quiet_Entity___init__ (collection : Collection) (data : value) :
  quiet id (Entity___init__ collection data).
Proof.
  intros log. unfold Entity___init__.
  destruct (quiet_Entity__load_data
              (mkEntity collection empty_container data VNone None ∅, log)) as [Hlog Hres].
  destruct (Entity__load_data _) as [[e|[]] [this log']]; simpl in *; auto.
Qed.

Lemma quiet_SearchResult___init__ (collection : Collection) (data : value) :
  quiet id (SearchResult___init__ collection data).
Proof.
  unfold SearchResult___init__. repeat quiet_step. apply quiet_Entity___init__.
Qed.

Lemma quiet_Action_process_result (collection : Collection) (data : value) :
  quiet id (Action_process_result collection data).
Proof.
  unfold Action_process_result.
  apply quiet_bind; [quiet_step|intros has_id].
  destruct has_id.
  - apply quiet_bind; [quiet_step|intros id]. apply quiet_Entity___init__.
  - apply quiet_bind; [quiet_step|intros has_href]. destruct has_href.
    + apply quiet_bind; [quiet_step|intros href]. apply quiet_Entity___init__.
    + quiet_step.
Qed.

End QuietMethods.

(** ** Collection.reload *)

Lemma is_str_spec (k : string) (v : value) : is_str k v = true <-> v = VStr k.
Proof.
  destruct v; simpl; try (split; [discriminate|discriminate]).
  rewrite String.eqb_eq. split; [intros ->; reflexivity|intros [= ->]; reflexivity].
Qed.

Lemma dict_get_remove_ne (k k' : string) (d : dict) :
  k <> k' -> dict_get k (dict_remove k' d) = dict_get k d.
Proof.
  intros Hne. induction d as [|[k0 v0] d IH]; simpl; [reflexivity|].
  destruct (String.eqb_spec k' k0) as [->|Hk0]; simpl.
  - rewrite IH. destruct (String.eqb_spec k k0); [contradiction|reflexivity].
  - rewrite IH. reflexivity.
Qed.

Lemma result_processor_plain `{Environment} (d : dict) :
  mem "error" (keys d) = false -> API__result_processor (VDict d) = inr (VDict d).
Proof. intros Hd. unfold API__result_processor. now rewrite Hd. Qed.

(** C9. [Collection.reload] on a collection document (one with [resources],
    [count], [subcount] and [name], and no [error]): [ValueError] is raised
    when the [name] of the document is not the name of the collection, and
    the call returns when it is. *)
Theorem collection_reload_name_check `{Environment} (c : Collection) (expand : value)
    (log : Log) (text : string) (d : dict) (resources count subcount name : value) :
  let kwargs := if truthy expand then [("expand", VStr "resources")] else [] in
  respond log (mkRequest GET (Collection__href c) (API__auth (Collection__api c))
                 kwargs None) = Got text ->
  loads text = Some (VDict d) ->
  mem "error" (keys d) = false ->
  dict_get "resources" d = Some resources ->
  dict_get "count" d = Some count ->
  dict_get "subcount" d = Some subcount ->
  dict_get "name" d = Some name ->
  (name <> VStr (Collection_name c) ->
   fst (Collection_reload expand (c, log)) = inl (ValueError "Name mishap!")) /\
  (name = VStr (Collection_name c) ->
   fst (Collection_reload expand (c, log)) = inr tt).
Proof.
  intros kwargs Hr Hloads Herr Hres Hcount Hsub Hname.
  assert (Hrun : fst (Collection_reload expand (c, log)) =
                 if negb (is_str (Collection_name c) name)
                 then inl (ValueError "Name mishap!") else inr tt).
  { unfold Collection_reload. fold kwargs. run. rewrite API_get_run. simpl. rewrite Hr.
    unfold processed. rewrite Hloads, (result_processor_plain d Herr). simpl.
    rewrite Hres. simpl. rewrite Hcount. simpl. rewrite Hsub. simpl.
    rewrite dict_get_remove_ne by discriminate. rewrite Hname. simpl.
    destruct (is_str (Collection_name c) name); reflexivity. }
  rewrite Hrun. split; intros Hn.
  - destruct (is_str (Collection_name c) name) eqn:Heq; [|reflexivity].
    apply is_str_spec in Heq. contradiction.
  - apply is_str_spec in Hn. now rewrite Hn.
Qed.

Lemma collection_reload_name_check_witness :
  fst (@Collection_reload renamed_env (VBool false) (vms, [])) =
    inl (ValueError "Name mishap!") /\
  fst (@Collection_reload vms_env (VBool false) (vms, [])) = inr tt.
Proof.
  split.
  - apply (@collection_reload_name_check renamed_env vms (VBool false) [] "hosts"
             _ _ _ _ (VStr "hosts") eq_refl eq_refl eq_refl eq_refl eq_refl eq_refl eq_refl).
    discriminate.
  - apply (@collection_reload_name_check vms_env vms (VBool false) [] "vms"
             _ _ _ _ (VStr "vms") eq_refl eq_refl eq_refl eq_refl eq_refl eq_refl eq_refl).
    reflexivity.
Defined.

(** ** Action.__call__ *)

Lemma quiet_Action_results `{Environment} (collection : Collection) (result : value) :
  quiet id
    (if is_None result then ret (Returned VNone)
     else
       has_results <- lift (contains "results" result) ;;
       if has_results : bool then
         results <- lift (getitem result "results") ;;
         items <- lift (iterate results) ;;
         processed <- collect (Action_process_result collection) items ;;
         ret (Results processed)
       else ret (Returned result)).
Proof.
  destruct (is_None result); [quiet_step|].
  apply quiet_bind; [quiet_step|intros has_results].
  destruct has_results; [|quiet_step].
  apply quiet_bind; [quiet_step|intros results].
  apply quiet_bind; [quiet_step|intros items].
  apply quiet_bind; [|intros processed; quiet_step].
  apply quiet_collect. intros x. apply quiet_Action_process_result.
Qed.

(** C8. The request of an action call.  Positional arguments go into the
    body as the list [resources], an entity as the dict with its [href] and
    any other argument as it is; with no positional argument the keyword
    arguments go in as the dict [resource].  The request is a POST when the
    method of the action is [post], a DELETE when it is [delete]; with any
    other method the call raises [NotImplementedError] and sends nothing. *)
Theorem action_call_request `{Environment} (a : Action) (owner : Owner)
    (args : list Arg) (kwargs : dict) (log : Log) :
  let api := Collection__api (ActionContainer_collection owner) in
  let resources :=
    map (fun res => match res with
                    | ArgEntity e => VDict [("href", Entity__href e)]
                    | ArgValue v => v
                    end) args in
  let body :=
    [("action", Action__name a)] ++
    match args, kwargs with
    | _ :: _, _ => [("resources", VList resources)]
    | [], _ :: _ => [("resource", VDict kwargs)]
    | [], [] => []
    end in
  (Action__method a = VStr "post" ->
   snd (Action___call__ a owner args kwargs log) =
     log ++ [mkRequest POST (Action__href a) (API__auth api) [] (Some body)]) /\
  (Action__method a = VStr "delete" ->
   snd (Action___call__ a owner args kwargs log) =
     log ++ [mkRequest DELETE (Action__href a) (API__auth api) [] (Some body)]) /\
  (Action__method a <> VStr "post" -> Action__method a <> VStr "delete" ->
   Action___call__ a owner args kwargs log = (inl NotImplementedError, log)).
Proof.
  intros api resources body.
  assert (Hbody : Action_query_dict a args kwargs = body).
  { unfold Action_query_dict, Action_resources, body, resources, Entity__ref_repr.
    destruct args; destruct kwargs; reflexivity. }
  unfold Action___call__. rewrite Hbody. fold api. repeat split.
  - intros Hm. rewrite Hm. simpl is_str. cbv iota.
    change (snd ?x) with (id (snd x)).
    rewrite (bind_quiet_log id) by (intros result; apply quiet_Action_results).
    unfold id. now rewrite API_post_run.
  - intros Hm. rewrite Hm. simpl is_str. cbv iota.
    change (snd ?x) with (id (snd x)).
    rewrite (bind_quiet_log id) by (intros result; apply quiet_Action_results).
    unfold id. now rewrite API_delete_run.
  - intros Hpost Hdelete.
    destruct (is_str "post" (Action__method a)) eqn:Ep.
    { apply is_str_spec in Ep. contradiction. }
    destruct (is_str "delete" (Action__method a)) eqn:Ed.
    { apply is_str_spec in Ed. contradiction. }
    reflexivity.
Qed.

Lemma action_call_request_witness :
  snd (@Action___call__ blank_env stop_action (OCollection vms)
         [ArgEntity (vm "1"); ArgEntity (vm "2")] [] []) =
    [mkRequest POST (VStr "https://host/api/vms") ("admin", "smartvm") []
       (Some [("action", VStr "stop");
              ("resources", VList [VDict [("href", VStr "https://host/api/vms/1")];
                                   VDict [("href", VStr "https://host/api/vms/2")]])])] /\
  snd (@Action___call__ blank_env stop_action (OCollection vms)
         [] [("name", VStr "test")] []) =
    [mkRequest POST (VStr "https://host/api/vms") ("admin", "smartvm") []
       (Some [("action", VStr "stop"); ("resource", VDict [("name", VStr "test")])])] /\
  @Action___call__ blank_env (mkAction (VStr "stop") (VStr "put") (VStr "https://host/api/vms"))
    (OCollection vms) [] [("name", VStr "test")] [] = (inl NotImplementedError, []).
Proof.
  split; [|split].
  - apply (@action_call_request blank_env stop_action (OCollection vms)
             [ArgEntity (vm "1"); ArgEntity (vm "2")] [] []). reflexivity.
  - apply (@action_call_request blank_env stop_action (OCollection vms)
             [] [("name", VStr "test")] []). reflexivity.
  - apply (@action_call_request blank_env
             (mkAction (VStr "stop") (VStr "put") (VStr "https://host/api/vms"))
             (OCollection vms) [] [("name", VStr "test")] []); discriminate.
Defined.

(** ** Collection.find_by *)

Lemma is_api_exn_not_api {A} (r : Result A) : not_api r -> is_api_exn r = false.
Proof. destruct r as [[]|]; simpl; intros Hr; solve [reflexivity|destruct Hr]. Qed.

Section FindBy.
Context `{Environment}.
Variables (c : Collection) (params : dict) (log : Log).

Lemma find_by_sqlfilter_run (log' : Log) :
  snd (Collection__find_by_sqlfilter c params log') =
    log' ++ [sqlfilter_query c params] /\
  is_api_exn (fst (Collection__find_by_sqlfilter c params log')) =
    is_api_exn (fst (API_get (Collection__api c) (Collection__href c)
                       (sqlfilter_params params) log')).
Proof.
  unfold Collection__find_by_sqlfilter. split.
  - change (snd ?x) with (id (snd x)).
    rewrite (bind_quiet_log id) by (intros data; apply quiet_SearchResult___init__).
    unfold id. now rewrite API_get_run.
  - unfold bind. simpl.
    destruct (API_get _ _ _ log') as [[e|data] log'']; simpl; [reflexivity|].
    apply is_api_exn_not_api, quiet_SearchResult___init__.
Qed.

Lemma find_by_filter_run (log' : Log) :
  snd (Collection__find_by_filter c params log') = log' ++ [filter_query c params].
Proof.
  unfold Collection__find_by_filter.
  change (snd ?x) with (id (snd x)).
  rewrite (bind_quiet_log id) by (intros data; apply quiet_SearchResult___init__).
  unfold id. rewrite API_get_run. simpl. unfold filter_query, filter_params.
  now rewrite map_map.
Qed.

End FindBy.

(** C1, as the code has it.  With the version [2.0.0-pre] the [sqlfilter]
    query is sent first; the [filter[]] query follows, once, exactly when
    the first attempt raised [APIException], which is when [API.get] did (an
    error envelope or a body that does not decode), and then its outcome is
    the outcome of [find_by].  Any other version in the 1.1 series or at
    least 2.0.0 sends the [filter[]] query alone, and every other version
    the [sqlfilter] query alone.  The [sqlfilter] text joins the terms
    [key = repr(str(value))] with [ AND ]; [filter[]] is the list of the
    terms [key=repr(str(value))]. *)
Theorem find_by_dialect `{Environment} (c : Collection) (params : dict) (log : Log) :
  let version := API_version (Collection__api c) in
  let first := Collection__find_by_sqlfilter c params log in
  (LooseVersion.eq version "2.0.0-pre" = true ->
   snd first = log ++ [sqlfilter_query c params] /\
   is_api_exn (fst first) =
     is_api_exn (fst (API_get (Collection__api c) (Collection__href c)
                        (sqlfilter_params params) log)) /\
   (is_api_exn (fst first) = false -> Collection_find_by c params log = first) /\
   (is_api_exn (fst first) = true ->
    Collection_find_by c params log =
      Collection__find_by_filter c params (log ++ [sqlfilter_query c params]) /\
    snd (Collection_find_by c params log) =
      log ++ [sqlfilter_query c params; filter_query c params])) /\
  (LooseVersion.eq version "2.0.0-pre" = false ->
   LooseVersion.is_in_series version "1.1" || LooseVersion.ge version "2.0.0" = true ->
   snd (Collection_find_by c params log) = log ++ [filter_query c params]) /\
  (LooseVersion.eq version "2.0.0-pre" = false ->
   LooseVersion.is_in_series version "1.1" || LooseVersion.ge version "2.0.0" = false ->
   snd (Collection_find_by c params log) = log ++ [sqlfilter_query c params]).
Proof.
  intros version first.
  destruct (find_by_sqlfilter_run c params log) as [Hlog Hapi].
  unfold Collection_find_by. fold version. split; [|split].
  - intros Hpre. rewrite Hpre. unfold catch_APIException.
    fold first. fold first in Hlog.
    split; [exact Hlog|]. split; [exact Hapi|].
    destruct first as [[e|result] log']; simpl in Hlog; simpl; split.
    + intros Hno. destruct e; solve [reflexivity|discriminate Hno].
    + intros Hyes. destruct e; try discriminate Hyes.
      rewrite Hlog. split; [reflexivity|].
      rewrite find_by_filter_run, <- app_assoc. reflexivity.
    + reflexivity.
    + discriminate.
  - intros Hpre Hnew. rewrite Hpre, Hnew. apply find_by_filter_run.
  - intros Hpre Hold. rewrite Hpre, Hold. exact Hlog.
Qed.

Lemma find_by_dialect_witness :
  snd (@Collection_find_by dialect_env (vms_at "2.0.0-pre") [("name", VStr "x")] []) =
    [mkRequest GET (VStr "https://host/api/vms") ("admin", "smartvm")
       [("sqlfilter", VStr "name = 'x'")] None;
     mkRequest GET (VStr "https://host/api/vms") ("admin", "smartvm")
       [("filter[]", VList [VStr "name='x'"])] None] /\
  snd (@Collection_find_by dialect_env (vms_at "1.1") [("name", VStr "x")] []) =
    [mkRequest GET (VStr "https://host/api/vms") ("admin", "smartvm")
       [("filter[]", VList [VStr "name='x'"])] None] /\
  snd (@Collection_find_by dialect_env (vms_at "1.0")
         [("name", VStr "x"); ("vendor", VStr "redhat")] []) =
    [mkRequest GET (VStr "https://host/api/vms") ("admin", "smartvm")
       [("sqlfilter", VStr "name = 'x' AND vendor = 'redhat'")] None].
Proof.
  split; [|split].
  - destruct (@find_by_dialect dialect_env (vms_at "2.0.0-pre") [("name", VStr "x")] [])
      as (Hpre & _ & _).
    destruct (Hpre eq_refl) as (_ & _ & _ & Hfallback).
    destruct (Hfallback eq_refl) as [_ Hlog]. exact Hlog.
  - destruct (@find_by_dialect dialect_env (vms_at "1.1") [("name", VStr "x")] [])
      as (_ & Hnew & _).
    exact (Hnew eq_refl eq_refl).
  - destruct (@find_by_dialect dialect_env (vms_at "1.0")
                [("name", VStr "x"); ("vendor", VStr "redhat")] []) as (_ & _ & Hold).
    exact (Hold eq_refl eq_refl).
Defined.

(** C1 as the specification states it fails twice over.  At version
    [2.0.0-pre], with a server that accepts every query, the one request
    sent is the [sqlfilter] query, not the [filter[]] query; and the term of
    a [filter[]] query carries the value in quotes, [name='x']. *)
Lemma find_by_pre_sends_sqlfilter_first :
  LooseVersion.eq (API_version (Collection__api (vms_at "2.0.0-pre"))) "2.0.0-pre" = true /\
  @Collection_find_by vms_env (vms_at "2.0.0-pre") [("name", VStr "x")] [] =
    (inr (mkSearchResult (vms_at "2.0.0-pre") (VInt 2) (VInt 2) (VStr "vms")
            [Entity_stub (vms_at "2.0.0-pre") (VStr "https://host/api/vms/1");
             Entity_stub (vms_at "2.0.0-pre") (VStr "https://host/api/vms/2")]),
     [mkRequest GET (VStr "https://host/api/vms") ("admin", "smartvm")
        [("sqlfilter", VStr "name = 'x'")] None]) /\
  snd (@Collection_find_by vms_env (vms_at "1.1") [("name", VStr "x")] []) =
    [mkRequest GET (VStr "https://host/api/vms") ("admin", "smartvm")
       [("filter[]", VList [VStr "name='x'"])] None].
Proof.
  split; [reflexivity|]. split; vm_compute; reflexivity.
Qed.

(** ** Entity.reload, step by step *)

Section ReloadRun.
Context `{Environment}.

Lemma Entity_reload_field_run (item : string * value) (c : Collection)
    (a : ActionContainer) (d h : value) (ac : option value)
    (m : gmap string AttrVal) (log : Log) :
  Entity_reload_field item (mkEntity c a d h ac m, log) =
    match field_update (Collection__api c) item with
    | inr f => (inr tt, (mkEntity c a d h ac (f m), log))
    | inl x => (inl x, (mkEntity c a d h ac m, log))
    end.
Proof.
  unfold Entity_reload_field, field_update. destruct item as [key v].
  destruct (mem key Entity_TIME_FIELDS).
  - run. destruct (parse_date v); reflexivity.
  - destruct (mapping_get key Entity_COLLECTION_MAPPING); reflexivity.
Qed.

Lemma Entity_reload_loop_run (items : dict) (c : Collection)
    (a : ActionContainer) (d h : value) (ac : option value)
    (m : gmap string AttrVal) (log : Log) :
  for_each items Entity_reload_field (mkEntity c a d h ac m, log) =
    (fst (fields_update (Collection__api c) items m),
     (mkEntity c a d h ac (snd (fields_update (Collection__api c) items m)), log)).
Proof.
  revert m. induction items as [|item rest IH]; intros m; simpl; [reflexivity|].
  unfold bind. rewrite Entity_reload_field_run.
  destruct (field_update (Collection__api c) item) as [x|f]; [reflexivity|].
  apply IH.
Qed.

Lemma Entity_reload_offline_run (expand : value) (e : Entity) (log : Log) :
  Entity_reload expand false (e, log) =
    (fst (Entity_snapshot (Entity__data e) e), (snd (Entity_snapshot (Entity__data e) e), log)).
Proof.
  destruct e as [c a d h ac m]. unfold Entity_reload, Entity_snapshot. run.
  destruct (getitem d _) as [x|h'] eqn:Hget; [reflexivity|].
  destruct d as [| | | |l|dd]; try discriminate Hget. simpl.
  rewrite Entity_reload_loop_run. simpl.
  destruct (fields_update _ _ m); reflexivity.
Qed.

Lemma Entity_reload_run (expand : value) (e : Entity) (log : Log) :
  Entity_reload expand true (e, log) =
    match API_get (Collection__api (Entity_collection e)) (Entity__href e)
            (if truthy expand then [("expand", expand)] else []) log with
    | (inl x, log') => (inl x, (e, log'))
    | (inr data, log') =>
        (fst (Entity_snapshot data e), (snd (Entity_snapshot data e), log'))
    end.
Proof.
  destruct e as [c a d h ac m]. unfold Entity_reload, Entity_snapshot. run.
  destruct (API_get _ _ _ log) as [[x|data] log']; [reflexivity|]. simpl.
  destruct (getitem data _) as [x|h'] eqn:Hget; [reflexivity|].
  destruct data as [| | | |l|dd]; try discriminate Hget. simpl.
  rewrite Entity_reload_loop_run. simpl.
  destruct (fields_update _ _ m); reflexivity.
Qed.

End ReloadRun.

(** ** Identity across reloads *)

Lemma result_processor_inr `{Environment} (data data' : value) :
  API__result_processor data = inr data' -> data' = data.
Proof.
  unfold API__result_processor. destruct data; try congruence.
  destruct (mem "error" (keys d)); [|congruence].
  destruct (getitem _ "error"); [discriminate|].
  destruct (getitem _ "klass") as [x|klass]; [discriminate|].
  destruct (getitem _ "message") as [x|message]; [discriminate|].
  destruct (py_format klass); [discriminate|].
  destruct (py_format message); discriminate.
Qed.

Section Identity.
Context `{Environment}.
Variable reply : Reply.
Hypothesis same_reply : forall log r, respond log r = reply.

Lemma Entity_snapshot_href (data : value) (e : Entity) :
  Entity_collection (snd (Entity_snapshot data e)) = Entity_collection e /\
  Entity__href (snd (Entity_snapshot data e)) =
    match getitem data (identity_field (Collection__api (Entity_collection e))) with
    | inr h' => h'
    | inl _ => Entity__href e
    end.
Proof.
  destruct e as [c a d h ac m]. unfold Entity_snapshot, identity_field. simpl.
  destruct (getitem data _) as [x|h'] eqn:Hget; [split; reflexivity|].
  destruct data as [| | | |l|dd]; try discriminate Hget.
  destruct (fields_update _ _ m). split; reflexivity.
Qed.

Lemma Entity_reload_href (expand : value) (e : Entity) (log : Log) :
  Entity_collection (fst (snd (Entity_reload expand true (e, log)))) = Entity_collection e /\
  Entity__href (fst (snd (Entity_reload expand true (e, log)))) =
    resolved reply (Collection__api (Entity_collection e)) (Entity__href e).
Proof.
  rewrite Entity_reload_run, API_get_run. simpl. rewrite same_reply.
  unfold resolved, answer.
  destruct (match reply with Got text => _ | Failed what => _ end) as [x|data]; simpl.
  - split; reflexivity.
  - apply Entity_snapshot_href.
Qed.

Lemma resolved_idempotent (api : API) (h : value) :
  resolved reply api (resolved reply api h) = resolved reply api h.
Proof.
  unfold resolved. destruct (answer reply) as [x|data]; [reflexivity|].
  destruct (getitem data (identity_field api)); reflexivity.
Qed.

Lemma reloads_href (expands : list value) (e : Entity) (log : Log) :
  Entity__href e =
    resolved reply (Collection__api (Entity_collection e)) (Entity__href e) ->
  Entity__href (fst (reloads expands (e, log))) = Entity__href e.
Proof.
  revert e log. induction expands as [|expand rest IH]; intros e log Hfix; [reflexivity|].
  simpl. destruct (Entity_reload_href expand e log) as [Hc Hh].
  destruct (Entity_reload expand true (e, log)) as [r [e' log']]. simpl in *.
  rewrite IH.
  - rewrite Hh. symmetry. exact Hfix.
  - rewrite Hc, Hh. symmetry. apply resolved_idempotent.
Qed.

End Identity.

(** C3. When the server gives the same reply to every request, a document
    of plain fields if it is a document, the [_href] an entity has after one
    [reload] is the one it has after any number of further reloads; and
    after a reload that returns, it is the [id] of the document for a
    version before 2.0.0 and its [href] from 2.0.0 on. *)
Theorem entity_identity_stable `{Environment} (reply : Reply) (e : Entity)
    (expand : value) (expands : list value) (log : Log) :
  (forall log' r, respond log' r = reply) ->
  (forall text data, reply = Got text -> loads text = Some data ->
                     plain_fields data = true) ->
  let once := Entity_reload expand true (e, log) in
  Entity__href (fst (reloads expands (snd once))) = Entity__href (fst (snd once)) /\
  (fst once = inr tt ->
   exists text data,
     reply = Got text /\ loads text = Some data /\
     getitem data
       (if LooseVersion.ge (API_version (Collection__api (Entity_collection e))) "2.0.0"
        then "href" else "id") = inr (Entity__href (fst (snd once)))).
Proof.
  intros Hsame _ once. split.
  - destruct (Entity_reload_href reply Hsame expand e log) as [Hc Hh]. fold once in Hc, Hh.
    destruct (snd once) as [e' log'] eqn:Hs. simpl in *.
    apply (reloads_href reply Hsame). rewrite Hc, Hh. symmetry. apply resolved_idempotent.
  - unfold once. rewrite Entity_reload_run, API_get_run. simpl. rewrite Hsame.
    destruct reply as [text|what]; [|discriminate]. unfold processed.
    destruct (loads text) as [data|] eqn:Hloads; [|discriminate].
    destruct (API__result_processor data) as [x|data'] eqn:Hproc; [discriminate|].
    apply result_processor_inr in Hproc as ->.
    simpl. intros Hok. exists text, data. split; [reflexivity|]. split; [exact Hloads|].
    destruct e as [c a d h ac m]. unfold Entity_snapshot in *. simpl in *.
    unfold API_new_id_behaviour in *.
    destruct (LooseVersion.ge (API_version (Collection__api c)) "2.0.0"); simpl in *.
    + destruct (getitem data "href") as [x|h'] eqn:Hget; [discriminate|].
      destruct data; try discriminate Hget. destruct (fields_update _ _ m). reflexivity.
    + destruct (getitem data "id") as [x|h'] eqn:Hget; [discriminate|].
      destruct data; try discriminate Hget. destruct (fields_update _ _ m). reflexivity.
Qed.

Lemma entity_identity_stable_witness :
  Entity__href
    (fst (@reloads stable_vm_env [VNone; VStr "tags"]
            (snd (@Entity_reload stable_vm_env VNone true (vm "1", []))))) =
  Entity__href (fst (snd (@Entity_reload stable_vm_env VNone true (vm "1", [])))) /\
  getitem (VDict [("id", VStr "https://host/api/vms/1"); ("name", VStr "vm1");
                  ("actions", VList [])]) "id" =
    inr (Entity__href (fst (snd (@Entity_reload stable_vm_env VNone true (vm "1", []))))).
Proof.
  destruct (@entity_identity_stable stable_vm_env (Got "vm") (vm "1") VNone
              [VNone; VStr "tags"] [] (fun _ _ => eq_refl)) as [Hstable Hid].
  { intros text data Htext Hdata. injection Htext as <-. injection Hdata as <-.
    reflexivity. }
  split; [exact Hstable|].
  destruct (Hid eq_refl) as (text & data & Htext & Hdata & Hget).
  injection Htext as <-. injection Hdata as <-. exact Hget.
Defined.

(** ** The attributes a reload sets *)

Section Fields.
Context `{Environment}.
Variable api : API.

Lemma mapping_get_In (key target : string) (mapping : list (string * string)) :
  mapping_get key mapping = Some target -> In (key, target) mapping.
Proof.
  induction mapping as [|[k t] mapping IH]; simpl; [discriminate|].
  destruct (String.eqb_spec key k) as [->|_].
  - intros [= ->]. now left.
  - intros Hk. right. now apply IH.
Qed.

Lemma foreign_key_names (key target : string) :
  mapping_get key Entity_COLLECTION_MAPPING = Some target ->
  In (key, target) Entity_COLLECTION_MAPPING.
Proof. apply mapping_get_In. Qed.

Lemma foreign_key_In (key target : string) :
  mapping_get key Entity_COLLECTION_MAPPING = Some target ->
  In key (map fst Entity_COLLECTION_MAPPING).
Proof.
  intros Hk. apply foreign_key_names in Hk.
  apply (in_map fst) in Hk. exact Hk.
Qed.

Lemma foreign_key_not_time (key target : string) :
  mapping_get key Entity_COLLECTION_MAPPING = Some target ->
  mem key Entity_TIME_FIELDS = false.
Proof.
  intros Hk. apply foreign_key_In in Hk.
  assert (Hall : forallb (fun k => negb (mem k Entity_TIME_FIELDS))
                   (map fst Entity_COLLECTION_MAPPING) = true) by reflexivity.
  rewrite forallb_forall in Hall. apply Hall in Hk.
  now destruct (mem key Entity_TIME_FIELDS).
Qed.

(** The name a foreign key loses its suffix to is no foreign key, and comes
    from that foreign key only. *)
Lemma foreign_key_suffix (key target key' target' : string) :
  mapping_get key Entity_COLLECTION_MAPPING = Some target ->
  mapping_get key' Entity_COLLECTION_MAPPING = Some target' ->
  sub_id_suffix key' <> key /\ (sub_id_suffix key' = sub_id_suffix key -> key' = key).
Proof.
  intros Hk Hk'. apply foreign_key_In in Hk, Hk'.
  assert (Hall : forallb (fun k =>
                   forallb (fun k' =>
                     negb (String.eqb (sub_id_suffix k') k) &&
                     (negb (String.eqb (sub_id_suffix k') (sub_id_suffix k))
                      || String.eqb k' k))
                     (map fst Entity_COLLECTION_MAPPING))
                   (map fst Entity_COLLECTION_MAPPING) = true) by reflexivity.
  rewrite forallb_forall in Hall. specialize (Hall key Hk).
  rewrite forallb_forall in Hall. specialize (Hall key' Hk').
  apply andb_true_iff in Hall as [Hno Hinj]. split.
  - intros Heq. rewrite Heq, String.eqb_refl in Hno. discriminate.
  - intros Heq. rewrite Heq, String.eqb_refl in Hinj. simpl in Hinj.
    now apply String.eqb_eq.
Qed.

Lemma field_update_foreign_key (key target : string) (v : value) :
  mapping_get key Entity_COLLECTION_MAPPING = Some target ->
  field_update api (key, v) =
    inr (fun m => <[key := AVal v]>
                    (<[sub_id_suffix key := ARef (API_get_entity api (inr target) v)]> m)).
Proof.
  intros Hk. unfold field_update. now rewrite (foreign_key_not_time _ _ Hk), Hk.
Qed.

(** A field writes its own name, and a foreign key the name without the
    suffix as well; nothing else is touched and nothing is removed. *)
Lemma field_update_spec (key : string) (v : value)
    (f : gmap string AttrVal -> gmap string AttrVal) (m : gmap string AttrVal) :
  field_update api (key, v) = inr f ->
  is_Some (f m !! key) /\
  (forall k, is_Some (m !! k) -> is_Some (f m !! k)) /\
  (forall a, key <> a ->
     (forall target, mapping_get key Entity_COLLECTION_MAPPING = Some target ->
                     sub_id_suffix key <> a) ->
     f m !! a = m !! a).
Proof.
  unfold field_update. destruct (mem key Entity_TIME_FIELDS).
  - destruct (parse_date v) as [x|d]; [discriminate|]. intros [= <-].
    split; [rewrite lookup_insert_eq; eauto|]. split.
    + intros k Hk. rewrite lookup_insert_is_Some.
      destruct (decide (key = k)); [left|right]; auto.
    + intros a Ha _. now rewrite lookup_insert_ne.
  - destruct (mapping_get key Entity_COLLECTION_MAPPING) as [target|]; intros [= <-].
    + split; [rewrite lookup_insert_eq; eauto|]. split.
      * intros k Hk. rewrite !lookup_insert_is_Some.
        destruct (decide (key = k)); [left; assumption|right; split; [assumption|]].
        destruct (decide (sub_id_suffix key = k)); [left|right]; auto.
      * intros a Ha Hsub. rewrite lookup_insert_ne by assumption.
        rewrite lookup_insert_ne; [reflexivity|]. now apply (Hsub target).
    + split; [rewrite lookup_insert_eq; eauto|]. split.
      * intros k Hk. rewrite lookup_insert_is_Some.
        destruct (decide (key = k)); [left|right]; auto.
      * intros a Ha _. now rewrite lookup_insert_ne.
Qed.

Lemma mem_In (k : string) (l : list string) : mem k l = true <-> In k l.
Proof.
  induction l as [|k' l IH]; simpl; [split; [discriminate|tauto]|].
  rewrite orb_true_iff, IH, String.eqb_eq. split; intros [Hk|Hk]; auto.
Qed.

Lemma fields_update_kept (items : dict) (m : gmap string AttrVal) (k : string) :
  is_Some (m !! k) -> is_Some (snd (fields_update api items m) !! k).
Proof.
  revert m. induction items as [|[key v] rest IH]; intros m Hk; simpl; [exact Hk|].
  destruct (field_update api (key, v)) as [x|f] eqn:Hf; [exact Hk|].
  apply IH. destruct (field_update_spec key v f m Hf) as (_ & Hkept & _).
  now apply Hkept.
Qed.

(** After a loop that ran to its end every field of the document is an
    attribute. *)
Lemma fields_update_present (items : dict) (m : gmap string AttrVal) (k : string) :
  fst (fields_update api items m) = inr tt ->
  mem k (keys items) = true ->
  is_Some (snd (fields_update api items m) !! k).
Proof.
  revert m. induction items as [|[key v] rest IH]; intros m Hok Hk; simpl in *;
    [discriminate|].
  destruct (field_update api (key, v)) as [x|f] eqn:Hf; [discriminate|].
  destruct (String.eqb_spec k key) as [->|Hne].
  - apply fields_update_kept.
    destruct (field_update_spec key v f m Hf) as (Hown & _ & _). exact Hown.
  - apply IH; [assumption|exact Hk].
Qed.

(** Fields that do not write the attribute [a] leave it as it is. *)
Lemma fields_update_untouched (items : dict) (m : gmap string AttrVal) (a : string) :
  (forall key, In key (keys items) ->
     key <> a /\
     (forall target, mapping_get key Entity_COLLECTION_MAPPING = Some target ->
                     sub_id_suffix key <> a)) ->
  snd (fields_update api items m) !! a = m !! a.
Proof.
  revert m. induction items as [|[key v] rest IH]; intros m Hitems; simpl; [reflexivity|].
  destruct (field_update api (key, v)) as [x|f] eqn:Hf; [reflexivity|].
  rewrite IH.
  - destruct (Hitems key) as [Hne Hsub]; [now left|].
    destruct (field_update_spec key v f m Hf) as (_ & _ & Hother).
    now apply Hother.
  - intros key' Hin. apply Hitems. now right.
Qed.

End Fields.

(** ** Lazy loading *)

Lemma mem_keys_remove (k k' : string) (d : dict) :
  mem k (keys d) = true -> k <> k' -> mem k (keys (dict_remove k' d)) = true.
Proof.
  intros Hk Hne. induction d as [|[k0 v0] d IH]; simpl in *; [discriminate|].
  destruct (String.eqb_spec k' k0) as [->|Hk0].
  - destruct (String.eqb_spec k k0); [contradiction|]. now apply IH.
  - simpl. destruct (String.eqb_spec k k0); [reflexivity|]. now apply IH.
Qed.

(** A reload that returns has found a dict, keeps it without [actions] in
    [_data], and has run the loop over its fields to the end. *)
Lemma Entity_snapshot_ok `{Environment} (data : value) (e : Entity) :
  fst (Entity_snapshot data e) = inr tt ->
  exists d,
    data = VDict d /\
    Entity__data (snd (Entity_snapshot data e)) = VDict (dict_remove "actions" d) /\
    Entity__actions (snd (Entity_snapshot data e)) =
      Some (fst (dict_pop "actions" (VList []) d)) /\
    fst (fields_update (Collection__api (Entity_collection e))
           (dict_remove "actions" d) (Entity_attrs e)) = inr tt /\
    Entity_attrs (snd (Entity_snapshot data e)) =
      snd (fields_update (Collection__api (Entity_collection e))
             (dict_remove "actions" d) (Entity_attrs e)).
Proof.
  destruct e as [c a d0 h ac m]. unfold Entity_snapshot. simpl.
  destruct (getitem data _) as [x|h'] eqn:Hget; [discriminate|].
  destruct data as [| | | |l|d]; try discriminate Hget.
  destruct (fields_update _ _ m) as [r m'] eqn:Hloop. simpl.
  intros ->. exists d. rewrite Hloop. repeat split.
Qed.

Lemma Entity___getattr___run `{Environment} {A} (retry : string -> ST (Entity * Log) A)
    (attr : string) (s : Entity * Log) :
  Entity___getattr__ retry attr s =
    if is_None (Entity__data (fst s)) then
      match Entity_reload VNone true s with
      | (inl x, s') => (inl x, s')
      | (inr _, s') => retry attr s'
      end
    else (inl (AttributeError ("No such attribute " +:+ attr)), s).
Proof.
  unfold Entity___getattr__. run. destruct (is_None _); [|reflexivity].
  destruct (Entity_reload VNone true s) as [[x|[]] s']; reflexivity.
Qed.

Lemma Entity_getattr_run `{Environment} (depth : nat) (attr : string) (s : Entity * Log) :
  Entity_getattr depth attr s =
    match Entity_attrs (fst s) !! attr with
    | Some v => (inr v, s)
    | None =>
        match depth with
        | 0 => (inl (RuntimeError "maximum recursion depth exceeded"), s)
        | S depth' => Entity___getattr__ (Entity_getattr depth') attr s
        end
    end.
Proof.
  destruct depth; simpl; unfold bind at 1, self; simpl;
    destruct (Entity_attrs (fst s) !! attr); reflexivity.
Qed.

Arguments Entity_getattr : simpl never.

(** C6. An entity built from a dict with the only key [href] has no
    attribute from a document, and a reload of it sends one GET to the href.
    Looking up an attribute of a plain name on it, when the server answers
    with a document of plain fields if it answers with one, sends that GET
    and runs that one [reload]; when the reload raises, so does the lookup;
    when it returns, every field of the document is an attribute, the list
    [actions] apart, which is kept in [_actions], and the lookup gives the
    attribute of that name or raises [AttributeError] when there is none. *)
Theorem lazy_stub `{Environment} (c : Collection) (h : value) (attr : string)
    (depth : nat) (log : Log) :
  let stub := Entity_stub c h in
  let request := mkRequest GET h (API__auth (Collection__api c)) [] None in
  let reloaded := Entity_reload VNone true (stub, log) in
  Entity___init__ c (VDict [("href", h)]) log = (inr stub, log) /\
  Entity_attrs stub = ∅ /\
  snd (snd reloaded) = log ++ [request] /\
  (plain_key attr = true ->
   plain_reply log request ->
   match fst reloaded with
   | inl x => Entity_getattr (S (S depth)) attr (stub, log) = (inl x, snd reloaded)
   | inr _ =>
       Entity_getattr (S (S depth)) attr (stub, log) =
         (match Entity_attrs (fst (snd reloaded)) !! attr with
          | Some v => inr v
          | None => inl (AttributeError ("No such attribute " +:+ attr))
          end, snd reloaded) /\
       exists text d,
         respond log request = Got text /\ loads text = Some (VDict d) /\
         (forall k, mem k (keys d) = true -> k <> "actions" ->
                    is_Some (Entity_attrs (fst (snd reloaded)) !! k)) /\
         Entity__actions (fst (snd reloaded)) =
           Some (match dict_get "actions" d with Some v => v | None => VList [] end)
   end).
Proof.
  intros stub request reloaded.
  split; [reflexivity|]. split; [reflexivity|].
  assert (Hget : Entity_getattr (S (S depth)) attr (stub, log) =
                 match reloaded with
                 | (inl x, s) => (inl x, s)
                 | (inr _, s) => Entity_getattr (S depth) attr s
                 end).
  { rewrite Entity_getattr_run.
    replace (Entity_attrs (fst (stub, log)) !! attr) with (@None AttrVal)
      by (symmetry; apply lookup_empty).
    rewrite Entity___getattr___run.
    change (is_None (Entity__data (fst (stub, log)))) with true. cbv iota.
    fold reloaded. destruct reloaded as [[x|[]] s]; reflexivity. }
  rewrite Hget. unfold reloaded. rewrite Entity_reload_run, API_get_run. simpl.
  fold request. split; [destruct (respond log request); [destruct (processed _ _)|]; reflexivity|].
  intros _ _.
  destruct (respond log request) as [text|what] eqn:Hr; [|reflexivity].
  unfold processed. destruct (loads text) as [data|] eqn:Hloads; [|reflexivity].
  destruct (API__result_processor data) as [x|data'] eqn:Hproc; [reflexivity|].
  apply result_processor_inr in Hproc. subst data'. simpl.
  destruct (fst (Entity_snapshot data stub)) as [x|[]] eqn:Hsnap; [reflexivity|].
  destruct (Entity_snapshot_ok data stub Hsnap) as (d & -> & Hdata & Hacts & Hloop & Hattrs).
  split.
  - rewrite Entity_getattr_run. cbn [fst snd].
    destruct (Entity_attrs (snd (Entity_snapshot (VDict d) stub)) !! attr); [reflexivity|].
    rewrite Entity___getattr___run. cbn [fst snd]. now rewrite Hdata.
  - exists text, d. split; [reflexivity|]. split; [exact Hloads|]. split; [|exact Hacts].
    intros k Hk Hne. rewrite Hattrs. apply fields_update_present; [exact Hloop|].
    now apply mem_keys_remove.
Qed.

Lemma lazy_stub_witness :
  @Entity_getattr stable_vm_env 2 "name" (vm "1", []) =
    (inr (AVal (VStr "vm1")),
     snd (@Entity_reload stable_vm_env VNone true (vm "1", []))) /\
  @Entity_getattr stable_vm_env 2 "power_state" (vm "1", []) =
    (inl (AttributeError "No such attribute power_state"),
     snd (@Entity_reload stable_vm_env VNone true (vm "1", []))) /\
  snd (snd (@Entity_reload stable_vm_env VNone true (vm "1", []))) =
    [mkRequest GET (VStr "https://host/api/vms/1") ("admin", "smartvm") [] None].
Proof.
  change (vm "1") with (Entity_stub vms (VStr "https://host/api/vms/1")).
  split; [|split].
  - destruct (@lazy_stub stable_vm_env vms (VStr "https://host/api/vms/1") "name" 0 [])
      as (_ & _ & _ & Hget).
    specialize (Hget eq_refl ltac:(settle_reply)).
    cbv zeta in Hget.
    match type of Hget with
    | match ?r with _ => _ end =>
        assert (Hok : r = inr tt) by (vm_compute; reflexivity); rewrite Hok in Hget
    end.
    destruct Hget as [Hget _]. etransitivity; [exact Hget|]. vm_compute. reflexivity.
  - destruct (@lazy_stub stable_vm_env vms (VStr "https://host/api/vms/1") "power_state" 0 [])
      as (_ & _ & _ & Hget).
    specialize (Hget eq_refl ltac:(settle_reply)).
    cbv zeta in Hget.
    match type of Hget with
    | match ?r with _ => _ end =>
        assert (Hok : r = inr tt) by (vm_compute; reflexivity); rewrite Hok in Hget
    end.
    destruct Hget as [Hget _]. etransitivity; [exact Hget|]. vm_compute. reflexivity.
  - destruct (@lazy_stub stable_vm_env vms (VStr "https://host/api/vms/1") "name" 0 [])
      as (_ & _ & Hlog & _).
    exact Hlog.
Defined.

(** ** Foreign keys *)

Lemma mem_false_In (k : string) (l : list string) : mem k l = false -> ~ In k l.
Proof.
  intros Hk Hin. apply mem_In in Hin. rewrite Hin in Hk. discriminate.
Qed.

(** The name a foreign key loses its suffix to is the name of a field that
    the loop takes as it is, and it is not [actions]. *)
Lemma foreign_key_suffix_plain (key target : string) :
  mapping_get key Entity_COLLECTION_MAPPING = Some target ->
  mem (sub_id_suffix key) Entity_TIME_FIELDS = false /\
  mapping_get (sub_id_suffix key) Entity_COLLECTION_MAPPING = None /\
  key <> "actions" /\ sub_id_suffix key <> "actions".
Proof.
  intros Hk. apply foreign_key_In in Hk.
  assert (Hall : forallb (fun k =>
                   negb (mem (sub_id_suffix k) Entity_TIME_FIELDS) &&
                   negb (mem (sub_id_suffix k) (map fst Entity_COLLECTION_MAPPING)) &&
                   negb (String.eqb k "actions") &&
                   negb (String.eqb (sub_id_suffix k) "actions"))
                   (map fst Entity_COLLECTION_MAPPING) = true) by reflexivity.
  rewrite forallb_forall in Hall. specialize (Hall key Hk).
  apply andb_true_iff in Hall as [Hall Hsuffix].
  apply andb_true_iff in Hall as [Hall Hkey].
  apply andb_true_iff in Hall as [Htime Hfk].
  apply negb_true_iff in Htime, Hfk, Hkey, Hsuffix.
  split; [exact Htime|]. split; [|split].
  - destruct (mapping_get (sub_id_suffix key) Entity_COLLECTION_MAPPING) as [t|] eqn:Hm;
      [|reflexivity].
    apply foreign_key_In, mem_In in Hm. rewrite Hm in Hfk. discriminate.
  - now apply String.eqb_neq.
  - now apply String.eqb_neq.
Qed.

(** The attribute of a name that the loop takes as it is, after the loop
    over fields none of which is a foreign key of that name with a suffix:
    the field of the name, or what the attribute was. *)
Lemma fields_update_raw `{Environment} (api : API) (items : dict)
    (m : gmap string AttrVal) (a : string) :
  nodup_keys (keys items) = true ->
  mem a Entity_TIME_FIELDS = false ->
  mapping_get a Entity_COLLECTION_MAPPING = None ->
  (forall k target, In k (keys items) ->
     mapping_get k Entity_COLLECTION_MAPPING = Some target -> sub_id_suffix k <> a) ->
  fst (fields_update api items m) = inr tt ->
  snd (fields_update api items m) !! a =
    match dict_get a items with
    | Some w => Some (AVal w)
    | None => m !! a
    end.
Proof.
  intros Hnodup Htime Hfk. revert m Hnodup.
  induction items as [|[k0 v0] rest IH]; intros m Hnodup Hsuffix Hok;
    simpl in Hnodup, Hok |- *; [reflexivity|].
  apply andb_true_iff in Hnodup as [Hfresh Hnodup].
  destruct (field_update api (k0, v0)) as [x|f] eqn:Hf; [discriminate|].
  destruct (String.eqb_spec a k0) as [<-|Hne].
  - apply negb_true_iff, mem_false_In in Hfresh.
    rewrite fields_update_untouched.
    + unfold field_update in Hf. rewrite Htime, Hfk in Hf. injection Hf as <-.
      apply lookup_insert_eq.
    + intros k' Hin. split; [intros ->; contradiction|].
      intros target' Hfk'. apply (Hsuffix k' target'); [now right|exact Hfk'].
  - rewrite IH; [|exact Hnodup|intros k target Hin; apply Hsuffix; now right|exact Hok].
    destruct (dict_get a rest); [reflexivity|].
    destruct (field_update_spec api k0 v0 f m Hf) as (_ & _ & Hother).
    apply Hother; [congruence|].
    intros target Hfk0. apply (Hsuffix k0 target); [now left|exact Hfk0].
Qed.

Lemma fields_update_foreign_key `{Environment} (api : API) (items : dict)
    (m : gmap string AttrVal) (key target : string) (v : value) :
  nodup_keys (keys items) = true ->
  dict_get key items = Some v ->
  mapping_get key Entity_COLLECTION_MAPPING = Some target ->
  fst (fields_update api items m) = inr tt ->
  snd (fields_update api items m) !! key = Some (AVal v) /\
  snd (fields_update api items m) !! sub_id_suffix key =
    match dict_get (sub_id_suffix key) (fields_after key items) with
    | Some w => Some (AVal w)
    | None => Some (ARef (API_get_entity api (inr target) v))
    end.
Proof.
  intros Hnodup Hget Hfk. revert m Hnodup Hget.
  induction items as [|[k0 v0] rest IH]; intros m Hnodup Hget Hok;
    simpl in *; [discriminate|].
  apply andb_true_iff in Hnodup as [Hfresh Hnodup].
  destruct (String.eqb_spec key k0) as [<-|Hne].
  - injection Hget as ->. rewrite (field_update_foreign_key api key target v Hfk) in *.
    apply negb_true_iff, mem_false_In in Hfresh.
    destruct (foreign_key_suffix key target key target Hfk Hfk) as [Hsub _].
    destruct (foreign_key_suffix_plain key target Hfk) as (Htime & Hraw & _).
    split.
    + rewrite fields_update_untouched; [apply lookup_insert_eq|].
      intros k' Hin. split; [intros ->; contradiction|].
      intros target' Hfk'.
      now destruct (foreign_key_suffix key target k' target' Hfk Hfk').
    + rewrite fields_update_raw; [|exact Hnodup|exact Htime|exact Hraw| |exact Hok].
      * destruct (dict_get (sub_id_suffix key) rest); [reflexivity|].
        rewrite lookup_insert_ne; [apply lookup_insert_eq|].
        intros Heq. apply Hsub. now symmetry.
      * intros k' target' Hin Hfk' Heq.
        destruct (foreign_key_suffix key target k' target' Hfk Hfk') as [_ Hinj].
        apply Hinj in Heq. subst k'. contradiction.
  - destruct (field_update api (k0, v0)) as [x|f]; [discriminate|].
    now apply IH.
Qed.

Lemma mem_keys_removed (k k0 : string) (d : dict) :
  mem k0 (keys (dict_remove k d)) = true -> mem k0 (keys d) = true.
Proof.
  induction d as [|[k1 v1] d IH]; simpl; [discriminate|].
  destruct (String.eqb k k1).
  - intros Hmem. rewrite (IH Hmem). apply orb_true_r.
  - simpl. destruct (String.eqb k0 k1); [reflexivity|exact IH].
Qed.

Lemma nodup_keys_remove (k : string) (d : dict) :
  nodup_keys (keys d) = true -> nodup_keys (keys (dict_remove k d)) = true.
Proof.
  induction d as [|[k0 v0] d IH]; simpl; [reflexivity|].
  intros Hd. apply andb_true_iff in Hd as [Hfresh Hd].
  destruct (String.eqb k k0); [now apply IH|]. simpl.
  rewrite (IH Hd), andb_true_r. apply negb_true_iff.
  apply negb_true_iff in Hfresh.
  destruct (mem k0 (keys (dict_remove k d))) eqn:Hmem; [|reflexivity].
  apply mem_keys_removed in Hmem. congruence.
Qed.

Lemma fields_after_remove (key k a : string) (d : dict) :
  key <> k -> a <> k ->
  dict_get a (fields_after key (dict_remove k d)) = dict_get a (fields_after key d).
Proof.
  intros Hkey Ha. induction d as [|[k0 v0] d IH]; simpl; [reflexivity|].
  destruct (String.eqb_spec k k0) as [<-|Hk].
  - destruct (String.eqb_spec key k); [contradiction|exact IH].
  - simpl. destruct (String.eqb key k0); [|exact IH].
    now apply dict_get_remove_ne.
Qed.

(** C7, as the code has it.  After a reload that returns, on a document of
    plain fields, a field with the name of a foreign key and the value [v]
    is an attribute with the value [v].  The attribute named by the key
    without [_id] is the stub that [get_entity] builds for [v] in the
    collection the key is mapped to when the loop visits no field of that
    shorter name after the key, and the raw value of that field when it
    does: the statement of the specification fails there. *)
Theorem foreign_key_reference `{Environment} (e e' : Entity) (expand : value)
    (get : bool) (log log' : Log) (d : dict) (key target : string) (v : value) :
  Entity_reload expand get (e, log) = (inr tt, (e', log')) ->
  reload_document expand get (e, log) = inr (VDict d) ->
  plain_fields (VDict d) = true ->
  dict_ok d = true ->
  mapping_get key Entity_COLLECTION_MAPPING = Some target ->
  dict_get key d = Some v ->
  let api := Collection__api (Entity_collection e) in
  let target_href := API__entry_point api +:+ "/" +:+ target in
  Entity_attrs e' !! key = Some (AVal v) /\
  Entity_attrs e' !! sub_id_suffix key =
    match dict_get (sub_id_suffix key) (fields_after key d) with
    | Some w => Some (AVal w)
    | None =>
        Some (ARef (Entity_stub
                      (Collection___init__ api (VStr target_href) target VNone)
                      (VStr (target_href +:+ "/" +:+ py_str v))))
    end.
Proof.
  intros Hreload Hdoc _ Hok Hfk Hget api target_href.
  assert (Hsnap : Entity_snapshot (VDict d) e = (inr tt, e')).
  { unfold reload_document in Hdoc. simpl in Hdoc. destruct get.
    - rewrite Entity_reload_run in Hreload.
      destruct (API_get _ _ _ log) as [[x|data] log1]; [discriminate|].
      simpl in Hdoc. injection Hdoc as ->. injection Hreload as Hr He _.
      destruct (Entity_snapshot (VDict d) e) as [r0 e0]; simpl in Hr, He.
      now rewrite Hr, He.
    - rewrite Entity_reload_offline_run in Hreload.
      injection Hdoc as Hdoc. rewrite Hdoc in Hreload. injection Hreload as Hr He _.
      destruct (Entity_snapshot (VDict d) e) as [r0 e0]; simpl in Hr, He.
      now rewrite Hr, He. }
  destruct (Entity_snapshot_ok (VDict d) e) as (d0 & Hd & _ & _ & Hloop & Hattrs);
    [now rewrite Hsnap|].
  injection Hd as <-. rewrite Hsnap in Hattrs. simpl in Hattrs. rewrite Hattrs.
  destruct (foreign_key_suffix_plain key target Hfk) as (_ & _ & Hkey & Hsuffix).
  rewrite <- (fields_after_remove key "actions" (sub_id_suffix key) d Hkey Hsuffix).
  apply (fields_update_foreign_key api (dict_remove "actions" d) (Entity_attrs e)
           key target v).
  - apply nodup_keys_remove, Hok.
  - now rewrite dict_get_remove_ne.
  - exact Hfk.
  - exact Hloop.
Qed.

(** The document with the fields [host_id] and [host], in that order of the
    loop, leaves the raw [host] where the specification has the stub; the
    document with [zone_id] alone gives the stub. *)
Lemma foreign_key_reference_witness :
  Entity_attrs (fst (snd (@Entity_reload hosted_vm_env VNone true (vm "1", []))))
    !! "host_id" = Some (AVal (VInt 3)) /\
  Entity_attrs (fst (snd (@Entity_reload hosted_vm_env VNone true (vm "1", []))))
    !! "host" = Some (AVal (VStr "esx1")) /\
  Entity_attrs (fst (snd (@Entity_reload zoned_vm_env VNone true (vm "1", []))))
    !! "zone_id" = Some (AVal (VInt 7)) /\
  Entity_attrs (fst (snd (@Entity_reload zoned_vm_env VNone true (vm "1", []))))
    !! "zone" =
    Some (ARef (Entity_stub
                  (Collection___init__ example_api (VStr "https://host/api/zones")
                     "zones" VNone)
                  (VStr "https://host/api/zones/7"))).
Proof.
  destruct (@foreign_key_reference hosted_vm_env (vm "1")
              (fst (snd (@Entity_reload hosted_vm_env VNone true (vm "1", []))))
              VNone true []
              (snd (snd (@Entity_reload hosted_vm_env VNone true (vm "1", []))))
              [("host_id", VInt 3); ("host", VStr "esx1");
               ("id", VStr "https://host/api/vms/1")]
              "host_id" "hosts" (VInt 3)) as [Hid Hhost];
    [vm_compute; reflexivity..|].
  split; [exact Hid|]. split; [exact Hhost|].
  apply (@foreign_key_reference zoned_vm_env (vm "1")
           (fst (snd (@Entity_reload zoned_vm_env VNone true (vm "1", []))))
           VNone true []
           (snd (snd (@Entity_reload zoned_vm_env VNone true (vm "1", []))))
           [("id", VStr "https://host/api/vms/1"); ("zone_id", VInt 7);
            ("name", VStr "vm1")]
           "zone_id" "zones" (VInt 7));
    vm_compute; reflexivity.
Defined.

(** The entity that is built from that document: the loop sets [host] to
    the stub and then to the raw field. *)
Lemma foreign_key_shadowed :
  exists e,
    @Entity___init__ empty_env vms hosted_vm [] = (inr e, []) /\
    Entity__data e = hosted_vm /\
    Entity_attrs e !! "host_id" = Some (AVal (VInt 3)) /\
    Entity_attrs e !! "host" = Some (AVal (VStr "esx1")) /\
    Entity_attrs e !! "host" <>
      Some (ARef (Entity_stub
                    (Collection___init__ example_api (VStr "https://host/api/hosts")
                       "hosts" VNone)
                    (VStr "https://host/api/hosts/3"))).
Proof.
  eexists. split; [vm_compute; reflexivity|].
  split; [reflexivity|]. split; [vm_compute; reflexivity|].
  split; [vm_compute; reflexivity|]. vm_compute. discriminate.
Qed.

(** ** ActionContainer.reload *)

Section Keeps.
Context {S X : Type} (g : S -> X).

Lemma keeps_ret {A} (a : A) : keeps g (ret a).
Proof. intros s. reflexivity. Qed.

Lemma keeps_raise {A} (e : Exn) : keeps g (raise e : ST S A).
Proof. intros s. reflexivity. Qed.

Lemma keeps_lift {A} (r : Result A) : keeps g (lift r).
Proof. intros s. reflexivity. Qed.

Lemma keeps_bind {A B} (c : ST S A) (k : A -> ST S B) :
  keeps g c -> (forall a, keeps g (k a)) -> keeps g (bind c k).
Proof.
  intros Hc Hk s. unfold bind. specialize (Hc s).
  destruct (c s) as [[e|a] s']; simpl in Hc; [exact Hc|].
  rewrite Hk. exact Hc.
Qed.

Lemma keeps_for_each {A} (l : list A) (body : A -> ST S unit) :
  (forall x, keeps g (body x)) -> keeps g (for_each l body).
Proof.
  intros Hbody. induction l as [|x l IH]; simpl.
  - apply keeps_ret.
  - apply keeps_bind; [apply Hbody|intros _; exact IH].
Qed.

End Keeps.

Lemma keeps_self {S X} (g : S -> X) : keeps (fun s => g (fst s)) (@self S).
Proof. intros s. reflexivity. Qed.

Lemma keeps_call {S A X} (g : S -> X) (c : ST Log A) :
  keeps (fun s : S * Log => g (fst s)) (call c).
Proof. intros s. unfold call. destruct (c (snd s)). reflexivity. Qed.

Lemma keeps_update {S X} (g : S -> X) (f : S -> S) :
  (forall x, g (f x) = g x) -> keeps (fun s : S * Log => g (fst s)) (update f).
Proof. intros Hf s. apply Hf. Qed.

Ltac keeps_step :=
  first
    [ apply keeps_ret | apply keeps_raise | apply keeps_lift | apply keeps_self
    | apply keeps_call
    | apply keeps_update; intros x; destruct x; reflexivity
    | apply keeps_for_each; intros ?
    | apply keeps_bind; [|intros ?] ].

Section Container.
Context `{Environment}.

Lemma keeps_Collection_reload (expand : value) :
  keeps (fun s => Collection_action (fst s)) (Collection_reload expand).
Proof.
  unfold Collection_reload. repeat keeps_step.
  destruct (negb _); keeps_step.
Qed.

Lemma keeps_Entity_reload (expand : value) (get : bool) :
  keeps (fun s => Entity_action (fst s)) (Entity_reload expand get).
Proof.
  unfold Entity_reload. keeps_step.
  - destruct get; repeat keeps_step.
  - repeat keeps_step. unfold Entity_reload_field. destruct x as [key v].
    destruct (mem key Entity_TIME_FIELDS); [repeat keeps_step|].
    destruct (mapping_get key Entity_COLLECTION_MAPPING); repeat keeps_step.
Qed.

Lemma keeps_reload_if_needed :
  keeps (fun s => Owner_action (fst s))
    (on_owner Collection_reload_if_needed Entity_reload_if_needed).
Proof.
  intros [[c|e] log]; unfold on_owner; simpl.
  - pose proof (keeps_Collection_reload (VBool false) (c, log)) as Hk.
    unfold Collection_reload_if_needed. run.
    destruct (is_None (Collection__data c)); [|reflexivity].
    destruct (Collection_reload _ (c, log)) as [r [c' log']]. exact Hk.
  - pose proof (keeps_Entity_reload VNone true (e, log)) as Hk.
    unfold Entity_reload_if_needed. run.
    destruct (is_None (Entity__data e)); [|reflexivity].
    destruct (Entity_reload _ _ (e, log)) as [r [e' log']]. exact Hk.
Qed.

Lemma get__actions_spec (o o' : Owner) (log log' : Log) (actions : value) :
  on_owner Collection_get__actions Entity_get__actions (o, log) =
    (inr actions, (o', log')) ->
  Owner_action o' = Owner_action o /\ Owner__actions o' = Some actions.
Proof.
  destruct o as [c|e]; unfold on_owner; simpl.
  - unfold Collection_get__actions. run.
    destruct (Collection__actions c) as [a|] eqn:Ha; [|discriminate].
    intros [= <- <- <-]. split; [reflexivity|exact Ha].
  - unfold Entity_get__actions. run.
    destruct (Entity__actions e) as [a|] eqn:Ha.
    { intros [= <- <- <-]. split; [reflexivity|exact Ha]. }
    rewrite Entity___getattr___run. simpl.
    destruct (is_None (Entity__data e)); [|discriminate].
    pose proof (keeps_Entity_reload VNone true (e, log)) as Hk.
    destruct (Entity_reload VNone true (e, log)) as [[x|[]] [e1 log1]]; [discriminate|].
    simpl in Hk. run.
    destruct (Entity__actions e1) as [a|] eqn:Ha1; [|discriminate].
    intros [= <- <- <-]. split; [exact Hk|exact Ha1].
Qed.

(** One turn of the loop of [ActionContainer.reload]. *)
Lemma declare_run (item : value) (o : Owner) (log : Log) :
  (name <- lift (getitem item "name") ;;
   name' <- lift (getitem item "name") ;;
   method <- lift (getitem item "method") ;;
   href <- lift (getitem item "href") ;;
   ActionContainer_setattr name (mkAction name' method href)) (o, log) =
  match action_of item with
  | Some (n, a) =>
      (inr tt,
       (Owner_set_action
          (mkActionContainer (<[n := a]> (ActionContainer_attrs (Owner_action o)))) o,
        log))
  | None =>
      (match getitem item "name", getitem item "method", getitem item "href" with
       | inl x, _, _ => inl x
       | inr _, inl x, _ => inl x
       | inr _, inr _, inl x => inl x
       | inr (VStr n), inr _, inr _ =>
           inl (if is_ascii n then AttributeError "can't set attribute"
                else UnicodeEncodeError)
       | inr _, inr _, inr _ => inl TypeError
       end, (o, log))
  end.
Proof.
  unfold action_of, ActionContainer_setattr. run.
  destruct (getitem item "name") as [x|name]; [reflexivity|]. simpl.
  destruct (getitem item "method") as [x|method]; [destruct name; reflexivity|]. simpl.
  destruct (getitem item "href") as [x|href]; [destruct name; reflexivity|]. simpl.
  destruct name as [| | |n| |]; try reflexivity.
  change ((n =? "all")%string || ((n =? "collection")%string || false))
    with (mem n ["all"; "collection"]).
  destruct (is_ascii n); [|reflexivity]. cbn [negb orb].
  destruct (mem n ["all"; "collection"]); reflexivity.
Qed.

Lemma Owner_set_action_spec (a : ActionContainer) (o : Owner) :
  Owner_action (Owner_set_action a o) = a /\
  Owner__actions (Owner_set_action a o) = Owner__actions o.
Proof. destruct o as [c|e]; [|destruct e]; split; reflexivity. Qed.

Lemma declare_loop (items : list value) (o o' : Owner) (log log' : Log) :
  for_each items
    (fun action =>
       name <- lift (getitem action "name") ;;
       name' <- lift (getitem action "name") ;;
       method <- lift (getitem action "method") ;;
       href <- lift (getitem action "href") ;;
       ActionContainer_setattr name (mkAction name' method href)) (o, log) =
    (inr tt, (o', log')) ->
  Owner__actions o' = Owner__actions o /\
  (forall item, In item items -> exists n a, action_of item = Some (n, a)) /\
  (forall n, ActionContainer_attrs (Owner_action o') !! n =
             declared n items (ActionContainer_attrs (Owner_action o) !! n)).
Proof.
  revert o log. induction items as [|item rest IH]; intros o log; simpl.
  - intros [= <- <-]. split; [reflexivity|]. split; [intros item []|reflexivity].
  - unfold bind at 1. rewrite declare_run.
    destruct (action_of item) as [[n a]|] eqn:Hitem.
    + intros Hrest. apply IH in Hrest as (Hactions & Hall & Hattrs).
      destruct (Owner_set_action_spec
                  (mkActionContainer (<[n := a]> (ActionContainer_attrs (Owner_action o)))) o)
        as [Hset Hkeep].
      rewrite Hset in Hattrs. rewrite Hkeep in Hactions. simpl in Hattrs.
      split; [exact Hactions|]. split.
      * intros item' [<-|Hin]; [eauto|auto].
      * intros n'. rewrite Hattrs. f_equal.
        destruct (String.eqb_spec n n') as [->|Hne].
        -- apply lookup_insert_eq.
        -- now apply lookup_insert_ne.
    + destruct (getitem item "name") as [x|name]; [discriminate|].
      destruct (getitem item "method") as [x|?]; [destruct name; discriminate|].
      destruct (getitem item "href") as [x|?]; destruct name; discriminate.
Qed.

End Container.

Lemma action_of_inv (item : value) (n : string) (a : Action) :
  action_of item = Some (n, a) ->
  getitem item "name" = inr (VStr n) /\
  mem n ["all"; "collection"] = false /\
  exists method href,
    getitem item "method" = inr method /\ getitem item "href" = inr href /\
    a = mkAction (VStr n) method href.
Proof.
  unfold action_of.
  destruct (getitem item "name") as [x|name]; [discriminate|].
  destruct name as [| | |n0| |]; try discriminate.
  destruct (getitem item "method") as [x|method]; [discriminate|].
  destruct (getitem item "href") as [x|href]; [discriminate|].
  destruct (is_ascii n0); [|discriminate]. cbn [negb orb].
  destruct (mem n0 ["all"; "collection"]) eqn:Hmem; [discriminate|].
  intros [= <- <-]. split; [reflexivity|]. split; [exact Hmem|]. eauto.
Qed.

Lemma declared_absent (n : string) (items : list value) (prev : option Action) :
  (forall item a, In item items -> action_of item <> Some (n, a)) ->
  declared n items prev = prev.
Proof.
  revert prev. induction items as [|item rest IH]; intros prev Habsent; simpl;
    [reflexivity|].
  rewrite IH by (intros item' a Hin; apply Habsent; now right).
  destruct (action_of item) as [[n' a]|] eqn:Hitem; [|reflexivity].
  destruct (String.eqb_spec n' n) as [->|Hne]; [|reflexivity].
  exfalso. apply (Habsent item a); [now left|exact Hitem].
Qed.

Lemma declares_dec (n : string) (items : list value) :
  (exists item a, In item items /\ action_of item = Some (n, a)) \/
  (forall item a, In item items -> action_of item <> Some (n, a)).
Proof.
  induction items as [|item rest [(item' & a & Hin & Hitem)|Hnone]].
  - right. intros item a [].
  - left. exists item', a. split; [now right|exact Hitem].
  - destruct (action_of item) as [[n' a]|] eqn:Hitem.
    + destruct (String.eqb_spec n' n) as [->|Hne].
      * left. exists item, a. split; [now left|exact Hitem].
      * right. intros item' a' [<-|Hin]; [congruence|now apply Hnone].
    + right. intros item' a' [<-|Hin]; [congruence|now apply Hnone].
Qed.

Lemma declared_present (n : string) (items : list value) (prev : option Action) :
  (exists item a, In item items /\ action_of item = Some (n, a)) ->
  exists item a, In item items /\ action_of item = Some (n, a) /\
                 declared n items prev = Some a.
Proof.
  revert prev. induction items as [|item rest IH]; intros prev (item0 & a0 & Hin & H0);
    [destruct Hin|]. simpl.
  destruct (declares_dec n rest) as [Hlater|Hnone].
  - destruct (IH (match action_of item with
                  | Some (n', a) => if String.eqb n' n then Some a else prev
                  | None => prev
                  end) Hlater) as (item1 & a1 & Hin1 & H1 & Hd).
    exists item1, a1. split; [now right|]. split; assumption.
  - destruct Hin as [<-|Hin]; [|exfalso; apply (Hnone item0 a0 Hin H0)].
    rewrite declared_absent by exact Hnone.
    exists item, a0. split; [now left|]. split; [exact H0|].
    now rewrite H0, String.eqb_refl.
Qed.

Lemma get__actions_set `{Environment} (o : Owner) (log : Log) (actions : value) :
  Owner__actions o = Some actions ->
  on_owner Collection_get__actions Entity_get__actions (o, log) =
    (inr actions, (o, log)).
Proof.
  destruct o as [c|e]; unfold on_owner; simpl; intros Hactions.
  - unfold Collection_get__actions. run. now rewrite Hactions.
  - unfold Entity_get__actions. run. now rewrite Hactions.
Qed.

Lemma ActionContainer_reload_inv `{Environment} (o o' : Owner) (log log' : Log) :
  ActionContainer_reload (o, log) = (inr tt, (o', log')) ->
  exists actions items,
    Owner__actions o' = Some actions /\
    iterate actions = inr items /\
    (forall item, In item items -> exists n a, action_of item = Some (n, a)) /\
    (forall n, ActionContainer_attrs (Owner_action o') !! n =
               declared n items (ActionContainer_attrs (Owner_action o) !! n)).
Proof.
  unfold ActionContainer_reload. unfold bind at 1.
  pose proof (keeps_reload_if_needed (o, log)) as Hkeep.
  destruct (on_owner Collection_reload_if_needed Entity_reload_if_needed (o, log))
    as [[x|[]] [o1 log1]]; [discriminate|]. simpl in Hkeep.
  unfold bind at 1.
  destruct (on_owner Collection_get__actions Entity_get__actions (o1, log1))
    as [[x|actions] [o2 log2]] eqn:Hget; [discriminate|].
  apply get__actions_spec in Hget as [Hcontainer Hactions].
  unfold bind at 1, lift at 1.
  destruct (iterate actions) as [x|items] eqn:Hitems; [discriminate|].
  intros Hloop. apply declare_loop in Hloop as (Hsame & Hall & Hattrs).
  rewrite Hcontainer, Hkeep in Hattrs.
  exists actions, items. split; [now rewrite Hsame|]. auto.
Qed.

Lemma collect_names {S} (items : list value) (s : S) :
  (forall item, In item items -> exists n a, action_of item = Some (n, a)) ->
  collect (fun a => lift (getitem a "name")) items s =
    (inr (map VStr (flat_map (fun item => match action_of item with
                                          | Some (n, _) => [n]
                                          | None => []
                                          end) items)), s).
Proof.
  induction items as [|item rest IH]; intros Hall; simpl; [reflexivity|].
  destruct (Hall item) as (n & a & Hitem); [now left|].
  unfold bind at 1, lift at 1. rewrite Hitem.
  apply action_of_inv in Hitem as (-> & _).
  unfold bind at 1. rewrite IH by (intros item' Hin; apply Hall; now right).
  reflexivity.
Qed.

Lemma ActionContainer_all_run `{Environment} (o o' : Owner) (log log' : Log) :
  ActionContainer_reload (o, log) = (inr tt, (o', log')) ->
  ActionContainer_all (o, log) = (inr (map VStr (declared_names o')), (o', log')).
Proof.
  intros Hreload.
  destruct (ActionContainer_reload_inv _ _ _ _ Hreload)
    as (actions & items & Hactions & Hitems & Hall & _).
  unfold ActionContainer_all. unfold bind at 1. rewrite Hreload.
  unfold bind at 1. rewrite (get__actions_set o' log' actions Hactions).
  unfold bind at 1, lift at 1. rewrite Hitems.
  rewrite (collect_names items (o', log') Hall).
  unfold declared_names. now rewrite Hactions, Hitems.
Qed.

Lemma mem_declared_names (n : string) (items : list value) :
  mem n (flat_map (fun item => match action_of item with
                               | Some (n, _) => [n]
                               | None => []
                               end) items) = true ->
  exists item a, In item items /\ action_of item = Some (n, a).
Proof.
  induction items as [|item rest IH]; simpl; [discriminate|].
  destruct (action_of item) as [[n' a]|] eqn:Hitem; simpl.
  - destruct (String.eqb_spec n n') as [->|Hne]; simpl.
    + intros _. exists item, a. auto.
    + intros Hin. destruct (IH Hin) as (item' & a' & Hin' & Hitem').
      exists item', a'. auto.
  - intros Hin. destruct (IH Hin) as (item' & a' & Hin' & Hitem').
    exists item', a'. auto.
Qed.

Lemma mem_app (k : string) (l1 l2 : list string) :
  mem k (l1 ++ l2) = mem k l1 || mem k l2.
Proof.
  induction l1 as [|k' l1 IH]; simpl; [reflexivity|].
  now rewrite IH, orb_assoc.
Qed.

Lemma declared_names_mem (n : string) (items : list value) :
  (exists item a, In item items /\ action_of item = Some (n, a)) ->
  mem n (flat_map (fun item => match action_of item with
                               | Some (n, _) => [n]
                               | None => []
                               end) items) = true.
Proof.
  intros (item & a & Hin & Hitem). induction items as [|first rest IH]; [destruct Hin|].
  simpl. rewrite mem_app. destruct Hin as [->|Hin].
  - rewrite Hitem. simpl. now rewrite String.eqb_refl.
  - rewrite (IH Hin). apply orb_true_r.
Qed.

(** C2, as the code has it.  After an [ActionContainer.reload] that returns,
    the container has, under every name that the latest [_actions] of the
    owner declares, the [Action] of the last declaration of that name; under
    every other name it has what it had before the call, so the actions of
    an earlier snapshot stay.  The names that [all] lists are those that the
    latest [_actions] declares, in their order.  The document of the owner
    and the names of the actions are plain. *)
Theorem action_container_merges `{Environment} (o o' : Owner) (log log' : Log) :
  ActionContainer_reload (o, log) = (inr tt, (o', log')) ->
  plain_reply log (owner_request o) ->
  plain_actions o' = true ->
  exists actions items,
    Owner__actions o' = Some actions /\
    iterate actions = inr items /\
    (forall n, ActionContainer_attrs (Owner_action o') !! n =
               declared n items (ActionContainer_attrs (Owner_action o) !! n)) /\
    (forall item, In item items ->
       exists n a, action_of item = Some (n, a) /\
                   exists item' a', In item' items /\ action_of item' = Some (n, a') /\
                                    ActionContainer_attrs (Owner_action o') !! n = Some a') /\
    (forall n, (forall item a, In item items -> action_of item <> Some (n, a)) ->
               ActionContainer_attrs (Owner_action o') !! n =
                 ActionContainer_attrs (Owner_action o) !! n) /\
    ActionContainer_all (o, log) = (inr (map VStr (declared_names o')), (o', log')) /\
    (forall n, mem n (declared_names o') = true <->
               exists item a, In item items /\ action_of item = Some (n, a)).
Proof.
  intros Hreload _ _.
  destruct (ActionContainer_reload_inv _ _ _ _ Hreload)
    as (actions & items & Hactions & Hitems & Hall & Hattrs).
  exists actions, items. split; [exact Hactions|]. split; [exact Hitems|].
  split; [exact Hattrs|]. split; [|split; [|split]].
  - intros item Hin. destruct (Hall item Hin) as (n & a & Hitem).
    exists n, a. split; [exact Hitem|].
    destruct (declared_present n items (ActionContainer_attrs (Owner_action o) !! n))
      as (item' & a' & Hin' & Hitem' & Hd); [eauto|].
    exists item', a'. rewrite Hattrs. auto.
  - intros n Habsent. rewrite Hattrs. now apply declared_absent.
  - now apply ActionContainer_all_run.
  - intros n. unfold declared_names. rewrite Hactions, Hitems. split.
    + apply mem_declared_names.
    + apply declared_names_mem.
Qed.

Lemma action_container_merges_witness :
  ActionContainer_attrs
    (Owner_action (fst (snd (@ActionContainer_reload stopped_vm_env second_snapshot))))
    !! "stop" =
  ActionContainer_attrs (Owner_action (fst second_snapshot)) !! "stop" /\
  @ActionContainer_all stopped_vm_env second_snapshot =
    (inr [VStr "start"], snd (@ActionContainer_reload stopped_vm_env second_snapshot)).
Proof.
  destruct (@action_container_merges stopped_vm_env (fst second_snapshot)
              (fst (snd (@ActionContainer_reload stopped_vm_env second_snapshot)))
              (snd second_snapshot)
              (snd (snd (@ActionContainer_reload stopped_vm_env second_snapshot))))
    as (actions & items & Hactions & Hitems & _ & _ & Hstale & Hall & _);
    [vm_compute; reflexivity|settle_reply|vm_compute; reflexivity|].
  vm_compute in Hactions. injection Hactions as <-.
  vm_compute in Hitems. injection Hitems as <-.
  split; [|exact Hall].
  apply Hstale. intros item a [<-|[]]. vm_compute. discriminate.
Defined.

(** C2 as the specification states it fails: after the reload of the entity
    and of its container the latest snapshot declares [start] alone, which
    is what [all] lists, and the container still has the [Action] that the
    first snapshot declared under [stop]. *)
Lemma stale_action_stays :
  fst (@ActionContainer_reload stopped_vm_env second_snapshot) = inr tt /\
  Owner__actions (fst (snd (@ActionContainer_reload stopped_vm_env second_snapshot))) =
    Some (VList [vm_action "start"]) /\
  fst (@ActionContainer_all stopped_vm_env second_snapshot) = inr [VStr "start"] /\
  ActionContainer_attrs
    (Owner_action (fst (snd (@ActionContainer_reload stopped_vm_env second_snapshot))))
    !! "stop" =
    Some (mkAction (VStr "stop") (VStr "post") (VStr "https://host/api/vms/1")).
Proof.
  repeat split; vm_compute; reflexivity.
Qed.

(** * Further properties

    Properties of the methods that the statements above leave out, and of
    the outcomes they do not speak of.  As in the model of [Entity], what is
    set on an object by a name that comes from a document is kept apart
    from the slots and the members of its class: a document whose fields
    or actions have such names is outside of these properties. *)

(** ** The verbs and the error envelope *)

(** X1. A decoded body that is no dict, or a dict without the key [error],
    is what [get], [post] and [delete] return, and each of them has sent
    one request. *)
Theorem verbs_return_body `{Environment} (api : API) (url : value)
    (get_params payload : dict) (log : Log) (text : string) (data : value) :
  loads text = Some data ->
  (forall d, data = VDict d -> mem "error" (keys d) = false) ->
  let get := mkRequest GET url (API__auth api) get_params None in
  let post := mkRequest POST url (API__auth api) [] (Some payload) in
  let delete := mkRequest DELETE url (API__auth api) [] (Some payload) in
  (respond log get = Got text ->
   API_get api url get_params log = (inr data, log ++ [get])) /\
  (respond log post = Got text ->
   API_post api url payload log = (inr data, log ++ [post])) /\
  (respond log delete = Got text ->
   API_delete api url payload log = (inr data, log ++ [delete])).
Proof.
  intros Hloads Hplain get post delete.
  assert (Hproc : API__result_processor data = inr data).
  { destruct data; try reflexivity. apply result_processor_plain. now apply Hplain. }
  repeat split; intros Hr.
  - rewrite API_get_run. simpl. fold get. rewrite Hr. unfold processed.
    now rewrite Hloads, Hproc.
  - rewrite API_post_run. simpl. fold post. rewrite Hr. unfold processed.
    now rewrite Hloads, Hproc.
  - rewrite API_delete_run. simpl. fold delete. rewrite Hr. unfold processed.
    now rewrite Hloads, Hproc.
Qed.

Lemma verbs_return_body_witness :
  @API_get vms_env example_api (VStr "https://host/api/vms") [] [] =
    (inr (vms_document "vms"),
     [mkRequest GET (VStr "https://host/api/vms") ("admin", "smartvm") [] None]).
Proof.
  destruct (@verbs_return_body vms_env example_api (VStr "https://host/api/vms") [] [] []
              "vms" (vms_document "vms") eq_refl) as (Hget & _ & _).
  - intros d [= <-]. reflexivity.
  - apply Hget. reflexivity.
Defined.

(** X2. An error envelope whose [error] is no dict makes [get] raise
    [TypeError], not [APIException]; at version [2.0.0-pre] [find_by] then
    stops after the [sqlfilter] query, since its fallback is for
    [APIException] alone. *)
Theorem malformed_envelope_stops_find_by `{Environment} (c : Collection)
    (params : dict) (log : Log) (text : string) (d : dict) (err : value) :
  respond log (sqlfilter_query c params) = Got text ->
  loads text = Some (VDict d) ->
  dict_get "error" d = Some err ->
  (forall e, err <> VDict e) ->
  API_get (Collection__api c) (Collection__href c) (sqlfilter_params params) log =
    (inl TypeError, log ++ [sqlfilter_query c params]) /\
  (LooseVersion.eq (API_version (Collection__api c)) "2.0.0-pre" = true ->
   Collection_find_by c params log = (inl TypeError, log ++ [sqlfilter_query c params])).
Proof.
  intros Hr Hloads Herr Hnodict.
  assert (Hget : API_get (Collection__api c) (Collection__href c)
                   (sqlfilter_params params) log =
                 (inl TypeError, log ++ [sqlfilter_query c params])).
  { rewrite API_get_run. simpl. fold (sqlfilter_query c params). rewrite Hr.
    unfold processed. rewrite Hloads. unfold API__result_processor.
    rewrite (dict_get_mem _ _ _ Herr). simpl. rewrite Herr.
    destruct err; try reflexivity. now destruct (Hnodict d0). }
  split; [exact Hget|].
  intros Hpre. unfold Collection_find_by. rewrite Hpre.
  unfold catch_APIException, Collection__find_by_sqlfilter, bind.
  fold (sqlfilter_params params). now rewrite Hget.
Qed.

Lemma malformed_envelope_stops_find_by_witness :
  @Collection_find_by
    (scripted (fun _ _ => Got "E") [("E", VDict [("error", VStr "boom")])])
    (vms_at "2.0.0-pre") [("name", VStr "x")] [] =
  (inl TypeError,
   [mkRequest GET (VStr "https://host/api/vms") ("admin", "smartvm")
      [("sqlfilter", VStr "name = 'x'")] None]).
Proof.
  destruct (@malformed_envelope_stops_find_by
              (scripted (fun _ _ => Got "E") [("E", VDict [("error", VStr "boom")])])
              (vms_at "2.0.0-pre") [("name", VStr "x")] [] "E"
              [("error", VStr "boom")] (VStr "boom") eq_refl eq_refl eq_refl)
    as [_ Hfind].
  - discriminate.
  - exact (Hfind eq_refl).
Defined.

(** ** Building and loading entities *)

(** X3. [Entity(collection, data)] sends nothing, whatever the data; a dict
    with neither [id] nor [href] raises [ValueError], and [None], a number
    or a boolean raises [TypeError]. *)
Theorem entity_init_sends_nothing `{Environment} (c : Collection) (data : value)
    (log : Log) :
  snd (Entity___init__ c data log) = log /\
  (forall d, data = VDict d -> mem "id" (keys d) = false ->
             mem "href" (keys d) = false ->
             fst (Entity___init__ c data log) =
               inl (ValueError ("Malformed data: " +:+ py_repr data))) /\
  (data = VNone \/ (exists z, data = VInt z) \/ (exists b, data = VBool b) ->
   fst (Entity___init__ c data log) = inl TypeError).
Proof.
  split; [apply (quiet_Entity___init__ c data log)|]. split.
  - intros d -> Hid Hhref. unfold Entity___init__, Entity__load_data. run.
    now rewrite Hid, Hhref.
  - intros [->|[[z ->]|[b ->]]]; reflexivity.
Qed.

Lemma entity_init_sends_nothing_witness :
  @Entity___init__ empty_env vms (VDict [("name", VStr "vm1")]) [] =
    (inl (ValueError "Malformed data: <repr>"), []).
Proof.
  destruct (@entity_init_sends_nothing empty_env vms (VDict [("name", VStr "vm1")]) [])
    as (Hlog & Hbad & _).
  specialize (Hbad _ eq_refl eq_refl eq_refl).
  destruct (@Entity___init__ empty_env vms (VDict [("name", VStr "vm1")]) []) as [r log].
  simpl in Hlog, Hbad. now rewrite Hlog, Hbad.
Defined.

(** X4. A fragment with an [id] is loaded on the spot, and its identity is
    read under the key of the version: from 2.0.0 on a fragment with [id]
    and no [href] raises [KeyError], and an entity that is built from a
    fragment of plain fields has the value of that key as its [_href] and
    the fragment without [actions] as its data. *)
Theorem entity_init_identity_key `{Environment} (c : Collection) (d : dict) (log : Log) :
  mem "id" (keys d) = true ->
  let key := if API_new_id_behaviour (Collection__api c) then "href" else "id" in
  (dict_get key d = None ->
   fst (Entity___init__ c (VDict d) log) = inl (KeyError key)) /\
  (plain_fields (VDict d) = true ->
   forall e, fst (Entity___init__ c (VDict d) log) = inr e ->
             dict_get key d = Some (Entity__href e) /\
             Entity__data e = VDict (dict_remove "actions" d)).
Proof.
  intros Hid key.
  assert (Hrun : Entity___init__ c (VDict d) log =
                 (match Entity_snapshot (VDict d)
                          (mkEntity c empty_container (VDict d) VNone None ∅) with
                  | (inr _, e) => inr e
                  | (inl x, _) => inl x
                  end, log)).
  { unfold Entity___init__, Entity__load_data. unfold bind at 1, self at 1. simpl fst.
    unfold bind at 1, lift at 1. simpl contains. rewrite Hid.
    rewrite Entity_reload_offline_run. simpl Entity__data.
    destruct (Entity_snapshot _ _) as [[x|[]] e]; reflexivity. }
  rewrite Hrun. unfold Entity_snapshot. simpl.
  replace (if negb (API_new_id_behaviour (Collection__api c)) then "id" else "href")
    with key by (unfold key; now destruct (API_new_id_behaviour _)).
  destruct (dict_get key d) as [h|] eqn:Hkey; simpl.
  - split; [discriminate|]. intros _.
    destruct (fields_update _ _ _) as [[x|[]] m]; simpl; [discriminate|].
    intros e [= <-]. split; reflexivity.
  - split; [reflexivity|discriminate].
Qed.

Lemma entity_init_identity_key_witness :
  fst (@Entity___init__ empty_env (vms_at "2.0.0")
         (VDict [("id", VInt 12); ("name", VStr "vm1")]) []) = inl (KeyError "href") /\
  exists e,
    fst (@Entity___init__ empty_env (vms_at "1.0")
           (VDict [("id", VInt 12); ("name", VStr "vm1")]) []) = inr e /\
    Entity__href e = VInt 12.
Proof.
  split.
  - apply (@entity_init_identity_key empty_env (vms_at "2.0.0")
             [("id", VInt 12); ("name", VStr "vm1")] []); reflexivity.
  - destruct (@entity_init_identity_key empty_env (vms_at "1.0")
                [("id", VInt 12); ("name", VStr "vm1")] [] eq_refl) as [_ Hbuilt].
    specialize (Hbuilt eq_refl).
    destruct (fst (@Entity___init__ empty_env (vms_at "1.0")
                     (VDict [("id", VInt 12); ("name", VStr "vm1")]) []))
      as [x|e] eqn:Hinit; [vm_compute in Hinit; discriminate Hinit|].
    exists e. split; [reflexivity|].
    destruct (Hbuilt e eq_refl) as [Hkey _].
    change (Some (VInt 12) = Some (Entity__href e)) in Hkey. now injection Hkey.
Defined.

Lemma Entity_reload_if_needed_run `{Environment} (s : Entity * Log) :
  Entity_reload_if_needed s =
    if is_None (Entity__data (fst s)) then Entity_reload VNone true s else (inr tt, s).
Proof.
  unfold Entity_reload_if_needed. run. destruct s as [e log]. simpl.
  destruct (is_None (Entity__data e)); reflexivity.
Qed.

Lemma Entity_reload_log `{Environment} (expand : value) (e : Entity) (log : Log) :
  snd (snd (Entity_reload expand true (e, log))) =
    log ++ [mkRequest GET (Entity__href e) (API__auth (Collection__api (Entity_collection e)))
              (if truthy expand then [("expand", expand)] else []) None].
Proof.
  rewrite Entity_reload_run, API_get_run. simpl.
  destruct (respond log _) as [text|what]; [|reflexivity].
  destruct (processed text false); reflexivity.
Qed.

Lemma Entity_snapshot_keeps_data `{Environment} (data : value) (e : Entity) :
  data <> VNone -> is_None (Entity__data (snd (Entity_snapshot data e))) = false.
Proof.
  intros Hdata. destruct e as [c a d h ac m]. unfold Entity_snapshot.
  destruct (getitem data _) as [x|h'] eqn:Hget.
  - simpl. destruct data; solve [reflexivity|contradiction].
  - destruct data; try discriminate Hget.
    destruct (fields_update _ _ m). reflexivity.
Qed.

(** X5. [reload_if_needed] fetches once: on an entity without data it is a
    [reload], which sends one GET to the href; on an entity with data it
    does nothing; and after a call that returned, on a document of plain
    fields, every further call does nothing. *)
Theorem entity_reload_if_needed_once `{Environment} (e e' : Entity) (log log' : Log) :
  Entity_reload_if_needed (e, log) = (inr tt, (e', log')) ->
  (plain_reply log (entity_request e) ->
   forall log2, Entity_reload_if_needed (e', log2) = (inr tt, (e', log2))) /\
  (Entity__data e <> VNone -> e' = e /\ log' = log) /\
  (Entity__data e = VNone ->
   log' = log ++ [mkRequest GET (Entity__href e)
                    (API__auth (Collection__api (Entity_collection e))) [] None]).
Proof.
  rewrite Entity_reload_if_needed_run. simpl.
  destruct (is_None (Entity__data e)) eqn:Hnone.
  - intros Hreload. split; [|split].
    + intros _ log2. rewrite Entity_reload_if_needed_run. simpl.
      rewrite Entity_reload_run in Hreload.
      destruct (API_get _ _ _ log) as [[x|data] log1]; [discriminate|].
      injection Hreload as Hok <- _.
      destruct (Entity_snapshot_ok data e Hok) as (d & -> & _).
      now rewrite Entity_snapshot_keeps_data.
    + intros Hdata. destruct (Entity__data e); solve [discriminate|contradiction].
    + intros Hdata. pose proof (Entity_reload_log VNone e log) as Hlog.
      rewrite Hreload in Hlog. exact Hlog.
  - intros [= <- <-]. split; [|split].
    + intros _ log2. rewrite Entity_reload_if_needed_run. simpl. now rewrite Hnone.
    + intros _. split; reflexivity.
    + intros Hdata. rewrite Hdata in Hnone. discriminate.
Qed.

Lemma entity_reload_if_needed_once_witness :
  snd (snd (@Entity_reload_if_needed stable_vm_env (vm "1", []))) =
    [mkRequest GET (VStr "https://host/api/vms/1") ("admin", "smartvm") [] None] /\
  @Entity_reload_if_needed stable_vm_env
    (snd (@Entity_reload_if_needed stable_vm_env (vm "1", []))) =
  (inr tt, snd (@Entity_reload_if_needed stable_vm_env (vm "1", []))).
Proof.
  destruct (@entity_reload_if_needed_once stable_vm_env (vm "1")
              (fst (snd (@Entity_reload_if_needed stable_vm_env (vm "1", []))))
              []
              (snd (snd (@Entity_reload_if_needed stable_vm_env (vm "1", [])))))
    as (Hagain & _ & Hlog); [vm_compute; reflexivity|].
  split; [apply Hlog; reflexivity|].
  etransitivity; [|apply Hagain; settle_reply]. reflexivity.
Defined.

(** X6. A reload that fails after the GET has returned a document of plain
    fields leaves the entity with that document as its data, so the failure
    is final: [reload_if_needed] does nothing from then on, and the lookup
    of an attribute of a plain name that is not set raises [AttributeError]
    and sends nothing. *)
Theorem failed_reload_is_not_retried `{Environment} (e e' : Entity) (expand : value)
    (log log' : Log) (x : Exn) (data : value) :
  Entity_reload expand true (e, log) = (inl x, (e', log')) ->
  fst (API_get (Collection__api (Entity_collection e)) (Entity__href e)
         (if truthy expand then [("expand", expand)] else []) log) = inr data ->
  data <> VNone ->
  plain_fields data = true ->
  (forall log2, Entity_reload_if_needed (e', log2) = (inr tt, (e', log2))) /\
  (forall depth attr log2,
     plain_key attr = true ->
     Entity_attrs e' !! attr = None ->
     Entity_getattr (S depth) attr (e', log2) =
       (inl (AttributeError ("No such attribute " +:+ attr)), (e', log2))).
Proof.
  intros Hreload Hget Hdata _. rewrite Entity_reload_run in Hreload.
  destruct (API_get _ _ _ log) as [[y|data'] log1]; [discriminate|].
  simpl in Hget. injection Hget as ->. injection Hreload as _ <- _.
  pose proof (Entity_snapshot_keeps_data data e Hdata) as Hkept. split.
  - intros log2. rewrite Entity_reload_if_needed_run. simpl. now rewrite Hkept.
  - intros depth attr log2 _ Hattr. rewrite Entity_getattr_run. simpl fst. rewrite Hattr.
    rewrite Entity___getattr___run. simpl fst. now rewrite Hkept.
Qed.

Lemma failed_reload_is_not_retried_witness :
  @Entity_reload nameless_vm_env VNone true (vm "1", []) =
    (inl (KeyError "id"),
     snd (@Entity_reload nameless_vm_env VNone true (vm "1", []))) /\
  @Entity_getattr nameless_vm_env 1 "name"
    (snd (@Entity_reload nameless_vm_env VNone true (vm "1", []))) =
  (inl (AttributeError "No such attribute name"),
   snd (@Entity_reload nameless_vm_env VNone true (vm "1", []))).
Proof.
  split; [vm_compute; reflexivity|].
  destruct (@failed_reload_is_not_retried nameless_vm_env (vm "1")
              (fst (snd (@Entity_reload nameless_vm_env VNone true (vm "1", []))))
              VNone []
              (snd (snd (@Entity_reload nameless_vm_env VNone true (vm "1", []))))
              (KeyError "id") (VDict [("name", VStr "vm1")]))
    as [_ Hattr];
    [vm_compute; reflexivity|vm_compute; reflexivity|discriminate|reflexivity|].
  etransitivity; [|apply (Hattr 0 "name"); vm_compute; reflexivity].
  reflexivity.
Defined.

(** ** The snapshot of a collection *)

Lemma Collection_reload_run `{Environment} (c : Collection) (expand : value)
    (log : Log) (text : string) (d : dict) (resources count subcount name : value) :
  let request :=
    mkRequest GET (Collection__href c) (API__auth (Collection__api c))
      (if truthy expand then [("expand", VStr "resources")] else []) None in
  respond log request = Got text ->
  loads text = Some (VDict d) ->
  mem "error" (keys d) = false ->
  dict_get "resources" d = Some resources ->
  dict_get "count" d = Some count ->
  dict_get "subcount" d = Some subcount ->
  dict_get "name" d = Some name ->
  Collection_reload expand (c, log) =
    (if negb (is_str (Collection_name c) name)
     then inl (ValueError "Name mishap!") else inr tt,
     (Collection_snapshot d resources count subcount c, log ++ [request])).
Proof.
  intros request Hr Hloads Herr Hres Hcount Hsub Hname.
  unfold Collection_reload.
  set (kwargs := if truthy expand then [("expand", VStr "resources")] else []) in *.
  run. rewrite API_get_run. simpl.
  change (respond log _) with (respond log request). rewrite Hr.
  unfold processed. rewrite Hloads, (result_processor_plain d Herr). simpl.
  rewrite Hres. simpl. rewrite Hcount. simpl. rewrite Hsub. simpl.
  rewrite dict_get_remove_ne by discriminate. rewrite Hname. simpl.
  destruct (is_str (Collection_name c) name); reflexivity.
Qed.

Lemma Collection_reload_if_needed_run `{Environment} (s : Collection * Log) :
  Collection_reload_if_needed s =
    if is_None (Collection__data (fst s)) then Collection_reload (VBool false) s
    else (inr tt, s).
Proof.
  unfold Collection_reload_if_needed. run. destruct s as [c log]. simpl.
  destruct (is_None (Collection__data c)); reflexivity.
Qed.

Lemma Collection_count_run `{Environment} (s : Collection * Log) :
  Collection_count s =
    match Collection_reload_if_needed s with
    | (inl x, s') => (inl x, s')
    | (inr _, s') =>
        (match Collection__count (fst s') with
         | Some v => inr v
         | None => inl (AttributeError "_count")
         end, s')
    end.
Proof.
  unfold Collection_count. run.
  destruct (Collection_reload_if_needed s) as [[x|[]] s']; [reflexivity|].
  destruct (Collection__count (fst s')); reflexivity.
Qed.

Lemma Collection_subcount_run `{Environment} (s : Collection * Log) :
  Collection_subcount s =
    match Collection_reload_if_needed s with
    | (inl x, s') => (inl x, s')
    | (inr _, s') =>
        (match Collection__subcount (fst s') with
         | Some v => inr v
         | None => inl (AttributeError "_subcount")
         end, s')
    end.
Proof.
  unfold Collection_subcount. run.
  destruct (Collection_reload_if_needed s) as [[x|[]] s']; [reflexivity|].
  destruct (Collection__subcount (fst s')); reflexivity.
Qed.

(** X7. [count] on a collection without a snapshot sends one GET with no
    parameter and gives the [count] of the document; from then on [count],
    [subcount] and [len] answer from the snapshot and send nothing. *)
Theorem collection_count_is_cached `{Environment} (c : Collection) (log : Log)
    (text : string) (d : dict) (resources count subcount : value) :
  let request :=
    mkRequest GET (Collection__href c) (API__auth (Collection__api c)) [] None in
  Collection__data c = VNone ->
  respond log request = Got text ->
  loads text = Some (VDict d) ->
  mem "error" (keys d) = false ->
  dict_get "resources" d = Some resources ->
  dict_get "count" d = Some count ->
  dict_get "subcount" d = Some subcount ->
  dict_get "name" d = Some (VStr (Collection_name c)) ->
  exists c',
    Collection_count (c, log) = (inr count, (c', log ++ [request])) /\
    forall log2,
      Collection_count (c', log2) = (inr count, (c', log2)) /\
      Collection_subcount (c', log2) = (inr subcount, (c', log2)) /\
      Collection___len__ (c', log2) = (inr subcount, (c', log2)).
Proof.
  intros request Hnone Hr Hloads Herr Hres Hcount Hsub Hname.
  exists (Collection_snapshot d resources count subcount c).
  pose proof (Collection_reload_run c (VBool false) log text d resources count subcount
                (VStr (Collection_name c)) Hr Hloads Herr Hres Hcount Hsub Hname) as Hrun.
  simpl in Hrun. rewrite String.eqb_refl in Hrun. simpl in Hrun. split.
  - rewrite Collection_count_run, Collection_reload_if_needed_run. simpl fst.
    rewrite Hnone. simpl is_None. cbv iota. fold request in Hrun. rewrite Hrun. reflexivity.
  - intros log2. unfold Collection___len__.
    rewrite Collection_count_run, Collection_subcount_run,
      Collection_reload_if_needed_run.
    repeat split.
Qed.

Lemma collection_count_is_cached_witness :
  exists c',
    @Collection_count vms_env (vms, []) =
      (inr (VInt 2),
       (c', [mkRequest GET (VStr "https://host/api/vms") ("admin", "smartvm") [] None])) /\
    @Collection___len__ vms_env (c', []) = (inr (VInt 2), (c', [])).
Proof.
  destruct (@collection_count_is_cached vms_env vms [] "vms" _ _ (VInt 2) (VInt 2)
              eq_refl eq_refl eq_refl eq_refl eq_refl eq_refl eq_refl eq_refl)
    as (c' & Hfirst & Hnext).
  exists c'. split; [exact Hfirst|apply Hnext].
Defined.

(** X8. The consistency error does not undo the snapshot: after a reload
    that raised [ValueError] for the name, the collection holds the document
    of the other name, [reload_if_needed] does nothing, and [count] and
    [subcount] give the numbers of that document without a request. *)
Theorem name_mishap_keeps_snapshot `{Environment} (c : Collection) (expand : value)
    (log : Log) (text : string) (d : dict) (resources count subcount name : value) :
  let request :=
    mkRequest GET (Collection__href c) (API__auth (Collection__api c))
      (if truthy expand then [("expand", VStr "resources")] else []) None in
  respond log request = Got text ->
  loads text = Some (VDict d) ->
  mem "error" (keys d) = false ->
  dict_get "resources" d = Some resources ->
  dict_get "count" d = Some count ->
  dict_get "subcount" d = Some subcount ->
  dict_get "name" d = Some name ->
  name <> VStr (Collection_name c) ->
  exists c',
    Collection_reload expand (c, log) =
      (inl (ValueError "Name mishap!"), (c', log ++ [request])) /\
    Collection__resources c' = Some resources /\
    forall log2,
      Collection_reload_if_needed (c', log2) = (inr tt, (c', log2)) /\
      Collection_count (c', log2) = (inr count, (c', log2)) /\
      Collection_subcount (c', log2) = (inr subcount, (c', log2)).
Proof.
  intros request Hr Hloads Herr Hres Hcount Hsub Hname Hne.
  exists (Collection_snapshot d resources count subcount c).
  rewrite (Collection_reload_run c expand log text d resources count subcount name
             Hr Hloads Herr Hres Hcount Hsub Hname).
  destruct (is_str (Collection_name c) name) eqn:Hsame.
  { apply is_str_spec in Hsame. contradiction. }
  split; [reflexivity|]. split; [reflexivity|].
  intros log2.
  rewrite Collection_count_run, Collection_subcount_run, Collection_reload_if_needed_run.
  repeat split.
Qed.

Lemma name_mishap_keeps_snapshot_witness :
  exists c',
    @Collection_reload renamed_env (VBool false) (vms, []) =
      (inl (ValueError "Name mishap!"),
       (c', [mkRequest GET (VStr "https://host/api/vms") ("admin", "smartvm") [] None])) /\
    @Collection_count renamed_env (c', []) = (inr (VInt 2), (c', [])).
Proof.
  destruct (@name_mishap_keeps_snapshot renamed_env vms (VBool false) [] "hosts"
              _ _ (VInt 2) (VInt 2) (VStr "hosts")
              eq_refl eq_refl eq_refl eq_refl eq_refl eq_refl eq_refl)
    as (c' & Hreload & _ & Hnext); [discriminate|].
  exists c'. split; [exact Hreload|apply Hnext].
Defined.

(** ** Search results *)

Lemma list_index_spec {A} (l : list A) (position : Z) :
  let n := Z.of_nat (length l) in
  list_index l position =
    if ((- n <=? position) && (position <? n))%Z
    then Some (Z.to_nat (position mod n)) else None.
Proof.
  intros n. unfold list_index. fold n.
  destruct (Z.leb_spec 0 position), (Z.ltb_spec position n),
    (Z.leb_spec (- n) position), (Z.ltb_spec position 0); simpl;
    try reflexivity; try (exfalso; unfold n in *; lia).
  - now rewrite Z.mod_small by lia.
  - f_equal. f_equal. symmetry.
    rewrite <- (Z.mod_add position 1 n) by lia.
    replace (position + 1 * n)%Z with (n + position)%Z by lia.
    apply Z.mod_small. lia.
Qed.

(** X9. [result[position]] on a search result: a position outside of
    [-len(resources) .. len(resources) - 1] raises [IndexError] and sends
    nothing; a position inside reloads the entity at that place, counted
    from the end when negative, with one GET to its href, keeps it in the
    list and gives it back. *)
Theorem search_result_getitem `{Environment} (sr : SearchResult) (position : Z)
    (log : Log) :
  let resources := SearchResult_resources sr in
  let n := Z.of_nat (length resources) in
  ((position < - n \/ n <= position)%Z ->
   SearchResult___getitem__ position (sr, log) = (inl IndexError, (sr, log))) /\
  ((- n <= position < n)%Z ->
   exists entity,
     resources !! Z.to_nat (position mod n) = Some entity /\
     let reloaded := Entity_reload VNone true (entity, log) in
     SearchResult___getitem__ position (sr, log) =
       (match fst reloaded with
        | inr _ => inr (fst (snd reloaded))
        | inl e => inl (Raised_Exn e)
        end,
        (SearchResult_set_resources
           (<[Z.to_nat (position mod n) := fst (snd reloaded)]> resources) sr,
         log ++ [entity_request entity]))).
Proof.
  intros resources n. unfold SearchResult___getitem__. simpl fst. simpl snd.
  fold resources. rewrite list_index_spec. fold n. split.
  - intros Hout.
    destruct (Z.leb_spec (- n) position), (Z.ltb_spec position n); simpl;
      try reflexivity. lia.
  - intros Hin.
    destruct (Z.leb_spec (- n) position), (Z.ltb_spec position n); simpl; try lia.
    assert (Hlt : Z.to_nat (position mod n) < length resources).
    { pose proof (Z.mod_pos_bound position n). unfold n in *. lia. }
    destruct (lookup_lt_is_Some_2 resources _ Hlt) as [entity Hentity].
    exists entity. split; [exact Hentity|]. rewrite Hentity.
    pose proof (Entity_reload_log VNone entity log) as Hlog.
    destruct (Entity_reload VNone true (entity, log)) as [r [entity' log']].
    simpl in *. now rewrite Hlog.
Qed.

Lemma search_result_getitem_witness :
  exists sr, fst (@Collection_find_by vms_env vms [("name", VStr "x")] []) = inr sr /\
    @SearchResult___getitem__ vms_env 2 (sr, []) = (inl IndexError, (sr, [])) /\
    snd (snd (@SearchResult___getitem__ stable_vm_env (-1) (sr, []))) =
      [mkRequest GET (VStr "https://host/api/vms/2") ("admin", "smartvm") [] None].
Proof.
  eexists. split; [vm_compute; reflexivity|]. split.
  - apply @search_result_getitem. right. simpl. lia.
  - vm_compute. reflexivity.
Defined.

(** X10. With a server of plain documents, [Collection.get] sends the query
    of [find_by] and, when there is a match, one GET for the first entity,
    which it reloads and returns; with no match it raises [Exception] with
    the text [No such object!] after the query alone; what [find_by] raises
    goes through. *)
Theorem collection_get_first_match `{Environment} (c : Collection) (params : dict)
    (log : Log) :
  (forall log0 r, plain_reply log0 r) ->
  match Collection_find_by c params log with
  | (inl e, log') => Collection_get c params log = (inl (Raised_Exn e), log')
  | (inr result, log') =>
      match SearchResult_resources result with
      | [] => Collection_get c params log = (inl (Exception "No such object!"), log')
      | first :: _ =>
          let reloaded := Entity_reload VNone true (first, log') in
          Collection_get c params log =
            (match fst reloaded with
             | inr _ => inr (fst (snd reloaded))
             | inl e => inl (Raised_Exn e)
             end, log' ++ [entity_request first])
      end
  end.
Proof.
  intros _. unfold Collection_get.
  destruct (Collection_find_by c params log) as [[e|result] log']; [reflexivity|].
  unfold SearchResult___getitem__. simpl fst. simpl snd.
  destruct (SearchResult_resources result) as [|first rest]; [reflexivity|].
  change (list_index (first :: rest) 0) with (Some 0).
  cbv beta iota.
  change ((first :: rest) !! 0) with (Some first). cbv beta iota.
  pose proof (Entity_reload_log VNone first log') as Hlog.
  destruct (Entity_reload VNone true (first, log')) as [r [first' log'']].
  simpl in Hlog. subst log''. now destruct r.
Qed.

Lemma collection_get_first_match_witness :
  exists e,
    @Collection_get catalogue_env vms [("name", VStr "vm1")] [] =
      (inr e,
       [mkRequest GET (VStr "https://host/api/vms") ("admin", "smartvm")
          [("sqlfilter", VStr "name = 'vm1'")] None;
        mkRequest GET (VStr "https://host/api/vms/1") ("admin", "smartvm") [] None]) /\
    Entity_attrs e !! "name" = Some (AVal (VStr "vm1")).
Proof.
  assert (Hplain : forall log0 r, @plain_reply catalogue_env log0 r).
  { intros log0 r text data Hreply Hloads. simpl in Hreply.
    destruct (params r); injection Hreply as <-;
      vm_compute in Hloads; injection Hloads as <-; reflexivity. }
  pose proof (@collection_get_first_match catalogue_env vms [("name", VStr "vm1")] []
                Hplain) as Hget.
  destruct (@Collection_find_by catalogue_env vms [("name", VStr "vm1")] [])
    as [[x|result] log'] eqn:Hfind; [vm_compute in Hfind; discriminate Hfind|].
  vm_compute in Hfind. injection Hfind as <- <-.
  cbv zeta in Hget. cbn [SearchResult_resources] in Hget. rewrite Hget.
  eexists. split; vm_compute; reflexivity.
Defined.

Lemma SearchResult_loop_spec `{Environment} (n : nat) (pending : list Entity)
    (log : Log) :
  match SearchResult_loop n pending log with
  | (yielded, resources', raised, log') =>
      log' = log ++ map entity_request
               (firstn (length yielded + match raised with Some _ => 1 | None => 0 end)
                  pending) /\
      (raised = None -> length yielded = min n (length pending)) /\
      yielded = firstn (length yielded) resources' /\
      length resources' = length pending
  end.
Proof.
  revert pending log.
  induction n as [|n IH]; intros pending log.
  - simpl. rewrite app_nil_r. destruct pending; repeat split.
  - destruct pending as [|resource rest].
    { simpl. rewrite app_nil_r. repeat split. }
    simpl SearchResult_loop.
    pose proof (Entity_reload_log VNone resource log) as Hlog.
    destruct (Entity_reload VNone true (resource, log)) as [[e|[]] [resource' log']];
      simpl in Hlog.
    + simpl. rewrite Hlog. repeat split. discriminate.
    + specialize (IH rest log').
      destruct (SearchResult_loop n rest log') as [[[yielded rest'] raised] log''].
      simpl in *. destruct IH as (IHlog & IHlen & IHyield & IHrest).
      rewrite IHlog, Hlog, <- app_assoc. repeat split.
      * intros Hnone. now rewrite IHlen.
      * now rewrite <- IHyield.
      * now rewrite IHrest.
Qed.

(** X11. A loop over a search result reloads the entities in turn, one GET
    each, and stops at the first reload that raises or when it has got the
    [n] entities it asks for; the entities it gets are the reloaded ones,
    which stay in [resources]. *)
Theorem search_result_loop `{Environment} (n : nat) (sr : SearchResult) (log : Log) :
  let run := SearchResult___iter__ n (sr, log) in
  let yielded := fst (fst run) in
  let raised := snd (fst run) in
  let resources' := SearchResult_resources (fst (snd run)) in
  let attempted := length yielded + match raised with Some _ => 1 | None => 0 end in
  snd (snd run) =
    log ++ map entity_request (firstn attempted (SearchResult_resources sr)) /\
  (raised = None -> length yielded = min n (length (SearchResult_resources sr))) /\
  yielded = firstn (length yielded) resources' /\
  length resources' = length (SearchResult_resources sr).
Proof.
  unfold SearchResult___iter__. simpl fst. simpl snd.
  pose proof (SearchResult_loop_spec n (SearchResult_resources sr) log) as Hloop.
  destruct (SearchResult_loop n (SearchResult_resources sr) log)
    as [[[yielded resources'] raised] log'].
  exact Hloop.
Qed.

(** ** The actions of a container *)

Lemma Collection_reload_ok `{Environment} (expand : value) (c c' : Collection)
    (log log' : Log) :
  Collection_reload expand (c, log) = (inr tt, (c', log')) ->
  is_None (Collection__data c') = false.
Proof.
  unfold Collection_reload. run.
  destruct (API_get _ _ _ log) as [[x|data] log1]; [discriminate|]. simpl.
  destruct data as [| | | |l|d]; try discriminate. simpl.
  destruct (dict_get "resources" d); [|discriminate]. simpl.
  destruct (dict_get "count" d); [|discriminate]. simpl.
  destruct (dict_get "subcount" d); [|discriminate]. simpl.
  destruct (dict_get "name" (dict_remove "actions" d)); [|discriminate]. simpl.
  destruct (negb _); [discriminate|]. intros [= <- <-]. reflexivity.
Qed.

Lemma Entity_reload_ok `{Environment} (expand : value) (e e' : Entity)
    (log log' : Log) :
  Entity_reload expand true (e, log) = (inr tt, (e', log')) ->
  is_None (Entity__data e') = false.
Proof.
  rewrite Entity_reload_run.
  destruct (API_get _ _ _ log) as [[x|data] log1]; [discriminate|].
  intros [= Hok <- <-].
  destruct (Entity_snapshot_ok data e Hok) as (d & _ & Hdata & _).
  now rewrite Hdata.
Qed.

Section Reloaded.
Context `{Environment}.

Lemma reload_if_needed_loaded (o o' : Owner) (log log' : Log) :
  on_owner Collection_reload_if_needed Entity_reload_if_needed (o, log) =
    (inr tt, (o', log')) ->
  is_None (Owner__data o') = false.
Proof.
  destruct o as [c|e]; unfold on_owner; simpl.
  - rewrite Collection_reload_if_needed_run. simpl.
    destruct (is_None (Collection__data c)) eqn:Hdata.
    + destruct (Collection_reload (VBool false) (c, log)) as [r [c' log1]] eqn:Hreload.
      intros [= -> <- <-]. simpl. exact (Collection_reload_ok _ _ _ _ _ Hreload).
    + intros [= <- <-]. exact Hdata.
  - rewrite Entity_reload_if_needed_run. simpl.
    destruct (is_None (Entity__data e)) eqn:Hdata.
    + destruct (Entity_reload VNone true (e, log)) as [r [e' log1]] eqn:Hreload.
      intros [= -> <- <-]. simpl. exact (Entity_reload_ok _ _ _ _ _ Hreload).
    + intros [= <- <-]. exact Hdata.
Qed.

Lemma reload_if_needed_noop (o : Owner) (log : Log) :
  is_None (Owner__data o) = false ->
  on_owner Collection_reload_if_needed Entity_reload_if_needed (o, log) =
    (inr tt, (o, log)).
Proof.
  destruct o as [c|e]; unfold on_owner; simpl; intros Hdata.
  - rewrite Collection_reload_if_needed_run. simpl. now rewrite Hdata.
  - rewrite Entity_reload_if_needed_run. simpl. now rewrite Hdata.
Qed.

Lemma get__actions_loaded (o o' : Owner) (log log' : Log) (actions : value) :
  is_None (Owner__data o) = false ->
  on_owner Collection_get__actions Entity_get__actions (o, log) =
    (inr actions, (o', log')) ->
  o' = o /\ log' = log /\ Owner__actions o = Some actions.
Proof.
  destruct o as [c|e]; unfold on_owner; simpl; intros Hdata.
  - unfold Collection_get__actions. run.
    destruct (Collection__actions c) as [a|]; [|discriminate].
    intros [= <- <- <-]. auto.
  - unfold Entity_get__actions. run.
    destruct (Entity__actions e) as [a|].
    { intros [= <- <- <-]. auto. }
    rewrite Entity___getattr___run. simpl. rewrite Hdata. discriminate.
Qed.

Lemma Owner_set_action_keeps (a : ActionContainer) (o : Owner) :
  Owner__data (Owner_set_action a o) = Owner__data o.
Proof. destruct o as [c|e]; [|destruct e]; reflexivity. Qed.

Lemma Owner_set_action_twice (a b : ActionContainer) (o : Owner) :
  Owner_set_action a (Owner_set_action b o) = Owner_set_action a o.
Proof. destruct o as [c|e]; [|destruct e]; reflexivity. Qed.

Lemma Owner_set_action_same (o : Owner) :
  Owner_set_action (Owner_action o) o = o.
Proof. destruct o as [c|e]; [destruct c|destruct e]; reflexivity. Qed.

(** The loop of [ActionContainer.reload] changes the container alone. *)
Lemma declare_loop_owner (items : list value) (o o' : Owner) (log log' : Log) :
  for_each items
    (fun action =>
       name <- lift (getitem action "name") ;;
       name' <- lift (getitem action "name") ;;
       method <- lift (getitem action "method") ;;
       href <- lift (getitem action "href") ;;
       ActionContainer_setattr name (mkAction name' method href)) (o, log) =
    (inr tt, (o', log')) ->
  log' = log /\ o' = Owner_set_action (Owner_action o') o.
Proof.
  revert o. induction items as [|item rest IH]; intros o; simpl.
  - intros [= <- <-]. split; [reflexivity|]. symmetry. apply Owner_set_action_same.
  - unfold bind at 1. rewrite declare_run.
    destruct (action_of item) as [[n a]|].
    + intros Hrest. apply IH in Hrest as [-> Ho']. split; [reflexivity|].
      rewrite Ho' at 1. apply Owner_set_action_twice.
    + destruct (getitem item "name") as [x|name]; [discriminate|].
      destruct (getitem item "method") as [x|?]; [destruct name; discriminate|].
      destruct (getitem item "href") as [x|?]; destruct name; discriminate.
Qed.

(** The loop goes through when every element declares an action. *)
Lemma declare_loop_total (items : list value) (o : Owner) (log : Log) :
  (forall item, In item items -> exists n a, action_of item = Some (n, a)) ->
  exists o',
    for_each items
      (fun action =>
         name <- lift (getitem action "name") ;;
         name' <- lift (getitem action "name") ;;
         method <- lift (getitem action "method") ;;
         href <- lift (getitem action "href") ;;
         ActionContainer_setattr name (mkAction name' method href)) (o, log) =
      (inr tt, (o', log)).
Proof.
  revert o. induction items as [|item rest IH]; intros o Hall; simpl.
  - exists o. reflexivity.
  - unfold bind at 1. rewrite declare_run.
    destruct (Hall item) as (n & a & ->); [now left|].
    apply IH. intros item' Hin. apply Hall. now right.
Qed.

End Reloaded.

(** The last declaration of a name decides, whatever was there before. *)
Lemma declared_last (n : string) (items : list value) (prev : option Action) :
  declared n items prev =
    match declared n items None with
    | Some a => Some a
    | None => prev
    end.
Proof.
  revert prev. induction items as [|item rest IH]; intros prev; simpl; [reflexivity|].
  rewrite IH. symmetry. rewrite IH. symmetry.
  destruct (declared n rest None); [reflexivity|].
  destruct (action_of item) as [[n' a]|]; [|reflexivity].
  destruct (String.eqb n' n); reflexivity.
Qed.

Lemma declared_twice (n : string) (items : list value) (prev : option Action) :
  declared n items (declared n items prev) = declared n items prev.
Proof.
  rewrite (declared_last n items (declared n items prev)).
  rewrite (declared_last n items prev).
  destruct (declared n items None); reflexivity.
Qed.

Lemma ActionContainer_reload_again `{Environment} (o o' : Owner) (log log' : Log) :
  ActionContainer_reload (o, log) = (inr tt, (o', log')) ->
  forall log2, ActionContainer_reload (o', log2) = (inr tt, (o', log2)).
Proof.
  unfold ActionContainer_reload. unfold bind at 1.
  destruct (on_owner Collection_reload_if_needed Entity_reload_if_needed (o, log))
    as [[x|[]] [o1 log1]] eqn:Hneeded; [discriminate|].
  apply reload_if_needed_loaded in Hneeded as Hloaded.
  unfold bind at 1.
  destruct (on_owner Collection_get__actions Entity_get__actions (o1, log1))
    as [[x|actions] [o2 log2]] eqn:Hget; [discriminate|].
  apply (get__actions_loaded _ _ _ _ _ Hloaded) in Hget as (-> & -> & Hactions).
  unfold bind at 1, lift at 1.
  destruct (iterate actions) as [x|items] eqn:Hitems; [discriminate|].
  intros Hloop.
  destruct (declare_loop_owner _ _ _ _ _ Hloop) as [-> Ho'].
  destruct (declare_loop _ _ _ _ _ Hloop) as (Hsame & Hall & Hattrs).
  intros log3.
  assert (Hloaded' : is_None (Owner__data o') = false).
  { rewrite Ho', Owner_set_action_keeps. exact Hloaded. }
  unfold bind at 1. rewrite (reload_if_needed_noop _ _ Hloaded').
  unfold bind at 1. rewrite (get__actions_set o' log3 actions) by congruence.
  unfold bind at 1, lift at 1. rewrite Hitems.
  destruct (declare_loop_total items o' log3 Hall) as [o'' Hagain].
  rewrite Hagain. f_equal. f_equal.
  destruct (declare_loop_owner _ _ _ _ _ Hagain) as [_ Ho''].
  destruct (declare_loop _ _ _ _ _ Hagain) as (_ & _ & Hattrs').
  assert (Hcontainer : Owner_action o'' = Owner_action o').
  { destruct (Owner_action o'') as [m''], (Owner_action o') as [m'].
    simpl in *. f_equal. apply map_eq. intros n.
    rewrite Hattrs', Hattrs. apply declared_twice. }
  rewrite Ho'', Hcontainer. apply Owner_set_action_same.
Qed.

Lemma existsb_is_str (k : string) (l : list string) :
  existsb (is_str k) (map VStr l) = mem k l.
Proof.
  induction l as [|k' l IH]; simpl; [reflexivity|].
  now rewrite IH, (String.eqb_sym k' k).
Qed.

Lemma action_of_name (item : value) (n : string) (a : Action) :
  action_of item = Some (n, a) -> Action__name a = VStr n.
Proof.
  intros Hitem. apply action_of_inv in Hitem as (_ & _ & method & href & _ & _ & ->).
  reflexivity.
Qed.

Lemma ActionContainer___getattr___run `{Environment}
    (retry : string -> ST (Owner * Log) Action) (attr : string) (s : Owner * Log) :
  ActionContainer___getattr__ retry attr s =
    match ActionContainer_reload s with
    | (inl x, s') => (inl x, s')
    | (inr _, s') =>
        match retry attr s' with
        | (inl _, s'') => (inl (AttributeError ("No such action " +:+ attr)), s'')
        | (inr _, s'') => retry attr s''
        end
    end.
Proof.
  unfold ActionContainer___getattr__. unfold bind at 1.
  destruct (ActionContainer_reload s) as [[x|[]] s']; [reflexivity|].
  unfold bind at 1, hasattr.
  destruct (retry attr s') as [[x|a] s'']; reflexivity.
Qed.

Lemma ActionContainer_getattr_run `{Environment} (depth : nat) (attr : string)
    (s : Owner * Log) :
  ActionContainer_getattr depth attr s =
    match ActionContainer_attrs (Owner_action (fst s)) !! attr with
    | Some a => (inr a, s)
    | None =>
        match depth with
        | 0 => (inl (RuntimeError "maximum recursion depth exceeded"), s)
        | S depth' => ActionContainer___getattr__ (ActionContainer_getattr depth') attr s
        end
    end.
Proof.
  destruct depth; simpl; unfold bind at 1, self; simpl;
    destruct (ActionContainer_attrs (Owner_action (fst s)) !! attr); reflexivity.
Qed.

Arguments ActionContainer_getattr : simpl never.

(** On a container that a reload leaves as it is, the lookup of a name that
    is not set fails at every depth and changes nothing. *)
Lemma getattr_settled `{Environment} (o : Owner) (attr : string) :
  (forall log, ActionContainer_reload (o, log) = (inr tt, (o, log))) ->
  ActionContainer_attrs (Owner_action o) !! attr = None ->
  forall depth log,
    exists x, ActionContainer_getattr depth attr (o, log) = (inl x, (o, log)).
Proof.
  intros Hagain Hnone depth. induction depth as [|depth IH]; intros log.
  - rewrite ActionContainer_getattr_run. simpl. rewrite Hnone. eauto.
  - rewrite ActionContainer_getattr_run. simpl. rewrite Hnone.
    rewrite ActionContainer___getattr___run, Hagain.
    destruct (IH log) as [x ->]. eauto.
Qed.

(** X12. A reload of a container that has returned, on a plain document of
    the owner, settles it: every further reload sends nothing and changes
    nothing, and [all] lists the names of the latest snapshot, in its
    order, without a request. *)
Theorem container_reload_settles `{Environment} (o o' : Owner) (log log' : Log) :
  ActionContainer_reload (o, log) = (inr tt, (o', log')) ->
  plain_reply log (owner_request o) ->
  plain_actions o' = true ->
  forall log2,
    ActionContainer_reload (o', log2) = (inr tt, (o', log2)) /\
    ActionContainer_all (o', log2) = (inr (map VStr (declared_names o')), (o', log2)).
Proof.
  intros Hreload _ _ log2.
  pose proof (ActionContainer_reload_again _ _ _ _ Hreload log2) as Hagain.
  split; [exact Hagain|]. now apply ActionContainer_all_run.
Qed.

Lemma container_reload_settles_witness :
  @ActionContainer_reload stopped_vm_env
    (snd (@ActionContainer_reload stopped_vm_env fresh_vm)) =
    (inr tt, snd (@ActionContainer_reload stopped_vm_env fresh_vm)) /\
  @ActionContainer_all stopped_vm_env
    (snd (@ActionContainer_reload stopped_vm_env fresh_vm)) =
    (inr [VStr "start"], snd (@ActionContainer_reload stopped_vm_env fresh_vm)).
Proof.
  apply (@container_reload_settles stopped_vm_env (fst fresh_vm)
           (fst (snd (@ActionContainer_reload stopped_vm_env fresh_vm)))
           (snd fresh_vm)
           (snd (snd (@ActionContainer_reload stopped_vm_env fresh_vm))));
    first [settle_reply | vm_compute; reflexivity].
Defined.

Lemma getattr_undeclared `{Environment} (o o' : Owner) (log log' : Log)
    (attr : string) (depth : nat) :
  ActionContainer_reload (o, log) = (inr tt, (o', log')) ->
  ActionContainer_attrs (Owner_action o') !! attr = None ->
  ActionContainer_getattr (S depth) attr (o, log) =
    (inl (AttributeError ("No such action " +:+ attr)), (o', log')).
Proof.
  intros Hreload Hnone.
  destruct (ActionContainer_reload_inv _ _ _ _ Hreload)
    as (actions & items & _ & _ & _ & Hattrs).
  assert (Hbefore : ActionContainer_attrs (Owner_action o) !! attr = None).
  { specialize (Hattrs attr). rewrite Hnone, declared_last in Hattrs.
    destruct (declared attr items None); [discriminate|]. now symmetry. }
  rewrite ActionContainer_getattr_run. simpl. rewrite Hbefore.
  rewrite ActionContainer___getattr___run, Hreload.
  destruct (getattr_settled o' attr (ActionContainer_reload_again _ _ _ _ Hreload)
              Hnone depth log') as [x ->].
  reflexivity.
Qed.

(** X13. The lookup of an action that the owner, with a plain document,
    does not declare ends in [AttributeError]: [__getattr__] reloads the
    container, [hasattr] then repeats the lookup down to the limit of the
    interpreter and swallows what comes back, and the state is the one the
    first reload has left. *)
Theorem undeclared_action_raises `{Environment} (o o' : Owner) (log log' : Log)
    (attr : string) (depth : nat) :
  ActionContainer_reload (o, log) = (inr tt, (o', log')) ->
  plain_reply log (owner_request o) ->
  plain_actions o' = true ->
  plain_name attr = true ->
  ActionContainer_attrs (Owner_action o') !! attr = None ->
  ActionContainer_getattr (S depth) attr (o, log) =
    (inl (AttributeError ("No such action " +:+ attr)), (o', log')).
Proof.
  intros Hreload _ _ _ Hnone. now apply getattr_undeclared.
Qed.

Lemma undeclared_action_raises_witness :
  @ActionContainer_getattr stopped_vm_env 1000 "stop" fresh_vm =
    (inl (AttributeError "No such action stop"),
     snd (@ActionContainer_reload stopped_vm_env fresh_vm)).
Proof.
  apply (@undeclared_action_raises stopped_vm_env (fst fresh_vm)
           (fst (snd (@ActionContainer_reload stopped_vm_env fresh_vm)))
           (snd fresh_vm)
           (snd (snd (@ActionContainer_reload stopped_vm_env fresh_vm)))
           "stop" 999);
    first [settle_reply | vm_compute; reflexivity].
Defined.

(** X14. The lookup of an action: a name that is set on the container is
    answered from it, with no reload and no request, whatever the owner
    declares by now; a name that is not set and that the owner declares is
    answered after one reload of the container by the action of its last
    declaration. *)
Theorem declared_action_found `{Environment} (o o' : Owner) (log log' : Log)
    (attr : string) (depth : nat) :
  ActionContainer_reload (o, log) = (inr tt, (o', log')) ->
  plain_actions o' = true ->
  plain_name attr = true ->
  (forall a, ActionContainer_attrs (Owner_action o) !! attr = Some a ->
             ActionContainer_getattr depth attr (o, log) = (inr a, (o, log))) /\
  (ActionContainer_attrs (Owner_action o) !! attr = None ->
   mem attr (declared_names o') = true ->
   exists a,
     ActionContainer_getattr (S depth) attr (o, log) = (inr a, (o', log')) /\
     Action__name a = VStr attr /\
     ActionContainer_attrs (Owner_action o') !! attr = Some a).
Proof.
  intros Hreload _ _. split.
  - intros a Hset. rewrite ActionContainer_getattr_run. simpl. now rewrite Hset.
  - intros Hnone Hdeclared.
    destruct (ActionContainer_reload_inv _ _ _ _ Hreload)
      as (actions & items & Hactions & Hitems & _ & Hattrs).
    unfold declared_names in Hdeclared. rewrite Hactions, Hitems in Hdeclared.
    apply mem_declared_names in Hdeclared.
    destruct (declared_present attr items
                (ActionContainer_attrs (Owner_action o) !! attr) Hdeclared)
      as (item & a & _ & Hitem & Hlast).
    exists a. rewrite <- Hattrs in Hlast. split; [|split].
    + rewrite ActionContainer_getattr_run. simpl. rewrite Hnone.
      rewrite ActionContainer___getattr___run, Hreload.
      rewrite ActionContainer_getattr_run. simpl. rewrite Hlast.
      rewrite ActionContainer_getattr_run. simpl. rewrite Hlast. reflexivity.
    + exact (action_of_name item attr a Hitem).
    + exact Hlast.
Qed.

Lemma declared_action_found_witness :
  exists a,
    @ActionContainer_getattr stopped_vm_env 1 "start" fresh_vm =
      (inr a, snd (@ActionContainer_reload stopped_vm_env fresh_vm)) /\
    Action__name a = VStr "start".
Proof.
  destruct (@declared_action_found stopped_vm_env (fst fresh_vm)
              (fst (snd (@ActionContainer_reload stopped_vm_env fresh_vm)))
              (snd fresh_vm)
              (snd (snd (@ActionContainer_reload stopped_vm_env fresh_vm)))
              "start" 0) as [_ Hfound]; [vm_compute; reflexivity..|].
  destruct Hfound as (a & Hrun & Hname & _); [vm_compute; reflexivity..|].
  exists a. split; [exact Hrun|exact Hname].
Defined.

(** X15. [name in container] reloads the container and tells whether the
    latest snapshot declares the name; when it does, the container has an
    action under that name. *)
Theorem contains_reads_snapshot `{Environment} (o o' : Owner) (log log' : Log)
    (attr : string) :
  ActionContainer_reload (o, log) = (inr tt, (o', log')) ->
  plain_actions o' = true ->
  ActionContainer___contains__ attr (o, log) =
    (inr (mem attr (declared_names o')), (o', log')) /\
  (mem attr (declared_names o') = true ->
   is_Some (ActionContainer_attrs (Owner_action o') !! attr)).
Proof.
  intros Hreload _. split.
  - unfold ActionContainer___contains__. unfold bind at 1.
    rewrite (ActionContainer_all_run _ _ _ _ Hreload). unfold ret.
    now rewrite existsb_is_str.
  - intros Hdeclared.
    destruct (ActionContainer_reload_inv _ _ _ _ Hreload)
      as (actions & items & Hactions & Hitems & _ & Hattrs).
    unfold declared_names in Hdeclared. rewrite Hactions, Hitems in Hdeclared.
    apply mem_declared_names in Hdeclared.
    destruct (declared_present attr items
                (ActionContainer_attrs (Owner_action o) !! attr) Hdeclared)
      as (item & a & _ & _ & Hlast).
    rewrite Hattrs, Hlast. eauto.
Qed.

Lemma contains_reads_snapshot_witness :
  @ActionContainer___contains__ stopped_vm_env "stop" second_snapshot =
    (inr false, snd (@ActionContainer_reload stopped_vm_env second_snapshot)) /\
  @ActionContainer_getattr stopped_vm_env 0 "stop" second_snapshot =
    (inr (mkAction (VStr "stop") (VStr "post") (VStr "https://host/api/vms/1")),
     second_snapshot).
Proof.
  split; [|vm_compute; reflexivity].
  apply (@contains_reads_snapshot stopped_vm_env (fst second_snapshot)
           (fst (snd (@ActionContainer_reload stopped_vm_env second_snapshot)))
           (snd second_snapshot)
           (snd (snd (@ActionContainer_reload stopped_vm_env second_snapshot)))
           "stop"); vm_compute; reflexivity.
Defined.

(** ** The results of an action *)

Lemma Entity___init___href `{Environment} (collection : Collection) (href : value)
    (log : Log) :
  Entity___init__ collection (VDict [("href", href)]) log =
    (inr (Entity_stub collection href), log).
Proof. reflexivity. Qed.

Lemma dict_get_none_mem (k : string) (d : dict) :
  dict_get k d = None -> mem k (keys d) = false.
Proof.
  induction d as [|[k' v'] d IH]; simpl; [reflexivity|].
  destruct (String.eqb k k'); [discriminate|]. exact IH.
Qed.

Lemma Action_process_result_run `{Environment} (collection : Collection) (data : dict)
    (log : Log) :
  Action_process_result collection (VDict data) log =
    (match result_entity collection data with
     | Some e => inr e
     | None => inl NotImplementedError
     end, log).
Proof.
  unfold Action_process_result, result_entity.
  unfold bind at 1, lift at 1. simpl contains.
  destruct (dict_get "id" data) as [id|] eqn:Hid.
  - rewrite (dict_get_mem _ _ _ Hid).
    unfold bind at 1, lift at 1. simpl getitem. rewrite Hid.
    apply Entity___init___href.
  - rewrite (dict_get_none_mem _ _ Hid).
    unfold bind at 1, lift at 1. simpl contains.
    destruct (dict_get "href" data) as [href|] eqn:Hhref.
    + rewrite (dict_get_mem _ _ _ Hhref).
      unfold bind at 1, lift at 1. simpl getitem. rewrite Hhref.
      apply Entity___init___href.
    + rewrite (dict_get_none_mem _ _ Hhref). reflexivity.
Qed.

Lemma collect_results `{Environment} (collection : Collection) (results : list dict)
    (log : Log) :
  collect (Action_process_result collection) (map VDict results) log =
    (match result_entities collection results with
     | Some es => inr es
     | None => inl NotImplementedError
     end, log).
Proof.
  induction results as [|data rest IH]; simpl; [reflexivity|].
  unfold bind at 1. rewrite Action_process_result_run.
  destruct (result_entity collection data) as [e|]; [|reflexivity].
  unfold bind at 1. rewrite IH.
  destruct (result_entities collection rest); reflexivity.
Qed.

(** X16. What an action returns for a response with [results]: one entity
    for each result, addressed by the [id] of the result under the href of
    the collection when it has one, whatever its [href], or else by its
    [href], each a stub that is not loaded; a result with neither makes the
    call raise [NotImplementedError]; one request is sent, that of the
    action. *)
Theorem action_results_are_stubs `{Environment} (self : Action) (owner : Owner)
    (args : list Arg) (kwargs : dict) (log : Log) (text : string) (d : dict)
    (results : list dict) :
  let collection := ActionContainer_collection owner in
  let request :=
    mkRequest POST (Action__href self) (API__auth (Collection__api collection)) []
      (Some (Action_query_dict self args kwargs)) in
  is_str "post" (Action__method self) = true ->
  respond log request = Got text ->
  loads text = Some (VDict d) ->
  mem "error" (keys d) = false ->
  dict_get "results" d = Some (VList (map VDict results)) ->
  Action___call__ self owner args kwargs log =
    (match result_entities collection results with
     | Some es => inr (Results es)
     | None => inl NotImplementedError
     end, log ++ [request]).
Proof.
  intros collection request Hpost Hr Hloads Herr Hresults.
  unfold Action___call__. fold collection. rewrite Hpost.
  unfold bind at 1. rewrite API_post_run. fold request. rewrite Hr.
  unfold processed. rewrite Hloads, (result_processor_plain d Herr).
  cbv beta iota. change (is_None (VDict d)) with false. cbv beta iota.
  unfold bind at 1, lift at 1. simpl contains.
  rewrite (dict_get_mem _ _ _ Hresults).
  unfold bind at 1, lift at 1. simpl getitem. rewrite Hresults.
  unfold bind at 1, lift at 1. simpl iterate.
  unfold bind at 1. rewrite collect_results.
  destruct (result_entities collection results); reflexivity.
Qed.

Lemma action_results_are_stubs_witness :
  @Action___call__ results_env stop_action (OCollection vms) [] [] [] =
    (inr (Results [Entity_stub vms (VStr "https://host/api/vms/7");
                   Entity_stub vms (VStr "https://host/api/vms/8")]),
     [mkRequest POST (VStr "https://host/api/vms") ("admin", "smartvm") []
        (Some [("action", VStr "stop")])]).
Proof.
  apply (@action_results_are_stubs results_env stop_action (OCollection vms) [] [] []
           "done"
           [("results",
             VList [VDict [("id", VInt 7); ("href", VStr "https://host/api/vms/seven")];
                    VDict [("href", VStr "https://host/api/vms/8")]])]
           [[("id", VInt 7); ("href", VStr "https://host/api/vms/seven")];
            [("href", VStr "https://host/api/vms/8")]]);
    reflexivity.
Defined.

(** ** The entities of a collection *)

Lemma dict_remove_twice (k : string) (d : dict) :
  dict_remove k (dict_remove k d) = dict_remove k d.
Proof.
  induction d as [|[k' v] d IH]; simpl; [reflexivity|].
  destruct (String.eqb k k') eqn:Hk; [exact IH|].
  simpl. rewrite Hk. now rewrite IH.
Qed.

Lemma dict_get_remove_eq (k : string) (d : dict) :
  dict_get k (dict_remove k d) = None.
Proof.
  induction d as [|[k' v] d IH]; simpl; [reflexivity|].
  destruct (String.eqb k k') eqn:Hk; [exact IH|].
  simpl. now rewrite Hk.
Qed.

Lemma dict_replace_twice (k : string) (v : value) (d : dict) :
  dict_replace k v (dict_replace k v d) = dict_replace k v d.
Proof.
  induction d as [|[k' v'] d IH]; simpl; [reflexivity|].
  destruct (String.eqb k k') eqn:Hk; simpl; rewrite Hk; [reflexivity|].
  now rewrite IH.
Qed.

Lemma Collection_reload_log `{Environment} (expand : value) (c : Collection) (log : Log) :
  snd (snd (Collection_reload expand (c, log))) = log ++ [collection_request expand c].
Proof.
  unfold Collection_reload, collection_request.
  set (kwargs := if truthy expand then [("expand", VStr "resources")] else []).
  unfold bind at 1, self. simpl fst.
  rewrite bind_quiet_log with (proj := snd).
  - unfold call. simpl snd. rewrite API_get_run. reflexivity.
  - intros data. repeat quiet_step. destruct (negb _); quiet_step.
Qed.

Lemma Collection_reload_if_needed_log `{Environment} (c : Collection) (log : Log) :
  snd (snd (Collection_reload_if_needed (c, log))) =
    log ++ (if is_None (Collection__data c) then [collection_request (VBool false) c]
            else []).
Proof.
  rewrite Collection_reload_if_needed_run. simpl.
  destruct (is_None (Collection__data c)).
  - apply Collection_reload_log.
  - simpl. now rewrite app_nil_r.
Qed.

Section Fragments.
Context `{Environment}.

Lemma Entity_of_fragment_log (c : Collection) (fragment : value) (log : Log) :
  snd (Entity_of_fragment c fragment log) = log.
Proof.
  unfold Entity_of_fragment.
  destruct (quiet_Entity__load_data
              (mkEntity c empty_container fragment VNone None ∅, log)) as [Hlog _].
  destruct (Entity__load_data _) as [r [this log']]. exact Hlog.
Qed.

Lemma Collection_loop_log (n : nat) (c : Collection) (items : list value) (log : Log) :
  snd (Collection_loop n c items log) = log.
Proof.
  revert items log. induction n as [|n IH]; intros items log; [reflexivity|].
  destruct items as [|fragment rest]; [reflexivity|]. simpl.
  pose proof (Entity_of_fragment_log c fragment log) as Hlog.
  destruct (Entity_of_fragment c fragment log) as [[[x|e] fragment'] log'];
    simpl in Hlog; subst log'; [reflexivity|].
  specialize (IH rest log).
  destruct (Collection_loop n c rest log) as [[[yielded rest'] raised] log''].
  exact IH.
Qed.

End Fragments.

(** X17. [Collection.all] sends the GET of the first load, without
    parameters, when the collection has no snapshot, and nothing when it has
    one: the entities are built from the fragments of the snapshot, whatever
    the outcome. *)
Theorem all_sends_first_load_only `{Environment} (c : Collection) (log : Log) :
  snd (snd (Collection_all (c, log))) =
    log ++ (if is_None (Collection__data c) then [collection_request (VBool false) c]
            else []).
Proof.
  unfold Collection_all. unfold bind at 1.
  pose proof (Collection_reload_if_needed_log c log) as Hlog.
  destruct (Collection_reload_if_needed (c, log)) as [[x|[]] [c1 log1]];
    simpl in Hlog; [exact Hlog|].
  unfold bind at 1, self. cbn [fst snd].
  destruct (Collection__resources c1) as [resources|]; [|exact Hlog].
  unfold bind at 1, lift at 1.
  destruct (iterate resources) as [x|items]; [exact Hlog|]. cbn [fst snd].
  pose proof (Collection_loop_log (length items) c1 items log1) as Hloop.
  destruct (Collection_loop (length items) c1 items log1)
    as [[[yielded items'] raised] log'].
  cbn [fst snd] in *. now subst log'.
Qed.

Section Aliasing.
Context `{Environment}.

Lemma Entity_of_fragment_run (c : Collection) (fragment : value) (log : Log) :
  Entity_of_fragment c fragment log =
    let e0 := mkEntity c empty_container fragment VNone None ∅ in
    match contains "id" fragment with
    | inl x => (inl x, fragment, log)
    | inr true =>
        (match fst (Entity_snapshot fragment e0) with
         | inr _ => inr (snd (Entity_snapshot fragment e0))
         | inl x => inl x
         end, Entity__data (snd (Entity_snapshot fragment e0)), log)
    | inr false =>
        match contains "href" fragment with
        | inl x => (inl x, fragment, log)
        | inr true =>
            match getitem fragment "href" with
            | inl x => (inl x, fragment, log)
            | inr href => (inr (Entity_stub c href), fragment, log)
            end
        | inr false =>
            (inl (ValueError ("Malformed data: " +:+ py_repr fragment)), fragment, log)
        end
    end.
Proof.
  unfold Entity_of_fragment, Entity__load_data.
  unfold bind at 1, self. cbn [fst snd Entity__data].
  unfold bind at 1, lift at 1.
  destruct (contains "id" fragment) as [x|[|]]; [reflexivity| |].
  - rewrite Entity_reload_offline_run. cbn [Entity__data fst snd].
    destruct (Entity_snapshot fragment _) as [[x|[]] this]; reflexivity.
  - unfold bind at 1, lift at 1.
    destruct (contains "href" fragment) as [x|[|]]; [reflexivity| |reflexivity].
    unfold bind at 1, lift at 1.
    destruct (getitem fragment "href") as [x|href]; reflexivity.
Qed.

(** A fragment that has given an entity gives one again, whoever asks: the
    same but for the actions, which are gone from the fragment. *)
Lemma fragment_again (c c2 : Collection) (fragment fragment' : value) (e : Entity)
    (log log' log2 : Log) :
  Collection__api c2 = Collection__api c ->
  Entity_of_fragment c fragment log = (inr e, fragment', log') ->
  exists e2,
    Entity_of_fragment c2 fragment' log2 = (inr e2, fragment', log2) /\ rebuilt e e2.
Proof.
  intros Hapi. rewrite Entity_of_fragment_run. cbv zeta.
  destruct (contains "id" fragment) as [x|[|]] eqn:Hid; [discriminate| |].
  - unfold Entity_snapshot.
    destruct (getitem fragment _) as [x|h'] eqn:Hget; [discriminate|].
    destruct fragment as [| | | |l|d]; try discriminate Hget.
    destruct (fields_update (Collection__api c) (dict_remove "actions" d) ∅)
      as [r m'] eqn:Hloop.
    cbn [fst snd Entity__data]. destruct r as [x|[]]; [discriminate|].
    intros [= <- <- <-].
    simpl in Hid. injection Hid as Hid. simpl in Hget.
    assert (Hkey : dict_get (if negb (API_new_id_behaviour (Collection__api c))
                             then "id" else "href") (dict_remove "actions" d) = Some h').
    { rewrite dict_get_remove_ne by (destruct (negb _); discriminate).
      destruct (dict_get _ d); [congruence|discriminate]. }
    rewrite Entity_of_fragment_run. cbv zeta. simpl contains.
    rewrite (mem_keys_remove "id" "actions" d Hid) by discriminate.
    unfold Entity_snapshot. rewrite Hapi. simpl getitem. rewrite Hkey.
    rewrite dict_remove_twice, Hloop. cbn [fst snd Entity__data].
    eexists. split; [reflexivity|].
    unfold rebuilt, dict_pop. cbn [Entity__href Entity__data Entity_attrs
                                     Entity__actions is_None fst].
    now rewrite dict_get_remove_eq.
  - destruct (contains "href" fragment) as [x|[|]] eqn:Hhref; try discriminate.
    destruct (getitem fragment "href") as [x|href] eqn:Hget; [discriminate|].
    intros [= <- <- <-].
    rewrite Entity_of_fragment_run. cbv zeta. rewrite Hid, Hhref, Hget.
    eexists. split; [reflexivity|]. repeat split.
Qed.

(** No string is a fragment that gives an entity. *)
Lemma string_fragment (c : Collection) (s : string) (log : Log) :
  exists x, fst (fst (Entity_of_fragment c (VStr s) log)) = inl x.
Proof.
  rewrite Entity_of_fragment_run. cbv zeta. simpl contains.
  destruct (occurs_in "id" s).
  - unfold Entity_snapshot. simpl. eauto.
  - destruct (occurs_in "href" s); simpl; eauto.
Qed.

Lemma Collection_loop_again (c c2 : Collection) (items items' : list value)
    (yielded : list Entity) (log log' log2 : Log) :
  Collection__api c2 = Collection__api c ->
  Collection_loop (length items) c items log = (yielded, items', None, log') ->
  exists yielded2,
    Collection_loop (length items') c2 items' log2 = (yielded2, items', None, log2) /\
    Forall2 rebuilt yielded yielded2.
Proof.
  intros Hapi. revert items' yielded log.
  induction items as [|fragment rest IH]; intros items' yielded log; simpl.
  - intros [= <- <- <-]. exists []. split; [reflexivity|constructor].
  - destruct (Entity_of_fragment c fragment log) as [[[x|e] fragment'] log1] eqn:Hone;
      [discriminate|].
    destruct (Collection_loop (length rest) c rest log1)
      as [[[yielded1 rest'] raised] log''] eqn:Hrest.
    intros [= <- <- -> <-].
    destruct (fragment_again c c2 _ _ _ _ _ log2 Hapi Hone) as (e2 & Hone2 & He2).
    destruct (IH _ _ _ Hrest) as (yielded2 & Hrest2 & Hall).
    exists (e2 :: yielded2). simpl. rewrite Hone2, Hrest2.
    split; [reflexivity|]. now constructor.
Qed.

Lemma Collection_loop_strings (c : Collection) (items items' : list value)
    (yielded : list Entity) (log log' : Log) :
  (forall item, In item items -> exists s, item = VStr s) ->
  Collection_loop (length items) c items log = (yielded, items', None, log') ->
  items = [].
Proof.
  destruct items as [|item rest]; [reflexivity|]. intros Hstr. simpl.
  destruct (Hstr item) as [s ->]; [now left|].
  destruct (string_fragment c s log) as [x Hx].
  destruct (Entity_of_fragment c (VStr s) log) as [[[x'|e] fragment'] log1];
    [discriminate|]. discriminate Hx.
Qed.

Lemma Collection_set_fragments_twice (fragments : list value) (c : Collection) :
  Collection_set_fragments fragments (Collection_set_fragments fragments c) =
    Collection_set_fragments fragments c.
Proof.
  destruct c as [api href data action name description resources count subcount actions].
  unfold Collection_set_fragments, Collection_set__resources, Collection_set__data.
  simpl. destruct data; try reflexivity. now rewrite dict_replace_twice.
Qed.

Lemma Collection_set_fragments_loaded (fragments : list value) (c : Collection) :
  is_None (Collection__data (Collection_set_fragments fragments c)) =
    is_None (Collection__data c).
Proof. destruct c as [api href []]; reflexivity. Qed.

Lemma Collection_reload_if_needed_loaded (c c' : Collection) (log log' : Log) :
  Collection_reload_if_needed (c, log) = (inr tt, (c', log')) ->
  is_None (Collection__data c') = false.
Proof.
  intros Hneeded.
  exact (reload_if_needed_loaded (OCollection c) (OCollection c') log log'
           ltac:(unfold on_owner; simpl; now rewrite Hneeded)).
Qed.

End Aliasing.

(** X18. [Collection.all] hands each fragment of the snapshot to the entity
    it builds from it, and the entity takes the actions out of it: when the
    fragments are plain, a second [all] sends nothing, leaves the collection
    as it is and gives entities with the same href, data and attributes,
    but every loaded one of them with an empty list of actions. *)
Theorem all_takes_the_actions `{Environment} (c c' : Collection) (log log' : Log)
    (entities : list Entity) :
  Collection_all (c, log) = (inr entities, (c', log')) ->
  plain_resources c' = true ->
  forall log2,
    exists entities',
      Collection_all (c', log2) = (inr entities', (c', log2)) /\
      Forall2 rebuilt entities entities'.
Proof.
  unfold Collection_all at 1. unfold bind at 1.
  destruct (Collection_reload_if_needed (c, log)) as [[x|[]] [c1 log1]] eqn:Hneeded;
    [discriminate|].
  apply Collection_reload_if_needed_loaded in Hneeded as Hloaded.
  unfold bind at 1, self. cbn [fst snd].
  destruct (Collection__resources c1) as [resources|] eqn:Hresources; [|discriminate].
  unfold bind at 1, lift at 1.
  destruct (iterate resources) as [x|items] eqn:Hitems; [discriminate|]. cbn [fst snd].
  destruct (Collection_loop (length items) c1 items log1)
    as [[[yielded items'] raised] log1'] eqn:Hloop.
  destruct raised as [x|]; [discriminate|]. intros [= <- <- <-] _ log2.
  assert (Hstrings : (forall l, resources <> VList l) ->
            (forall item, In item items -> exists s, item = VStr s) ->
            exists entities',
              Collection_all (c1, log2) = (inr entities', (c1, log2)) /\
              Forall2 rebuilt yielded entities').
  { intros Hlist Hstr. pose proof (Collection_loop_strings _ _ _ _ _ _ Hstr Hloop) as ->.
    simpl in Hloop. injection Hloop as <- <- <-.
    exists []. split; [|constructor].
    unfold Collection_all. unfold bind at 1.
    rewrite Collection_reload_if_needed_run. cbn [fst]. rewrite Hloaded.
    unfold bind at 1, self. cbn [fst snd]. rewrite Hresources.
    unfold bind at 1, lift at 1. rewrite Hitems. cbn [fst snd length].
    simpl. destruct resources; try reflexivity. now destruct (Hlist l). }
  destruct resources as [| | |s|l|d]; try discriminate Hitems;
    simpl in Hitems; injection Hitems as <-.
  - apply Hstrings; [discriminate|].
    intros item Hin. apply in_map_iff in Hin as (a & <- & _). eauto.
  - cbn [Collection_keep_fragments].
    destruct (Collection_loop_again c1 (Collection_set_fragments items' c1) _ _ _ _ _ log2
                ltac:(destruct c1; reflexivity) Hloop) as (entities' & Hagain & Hall).
    exists entities'. split; [|exact Hall].
    unfold Collection_all. unfold bind at 1.
    rewrite Collection_reload_if_needed_run. cbn [fst].
    rewrite Collection_set_fragments_loaded, Hloaded.
    unfold bind at 1, self. cbn [fst snd].
    replace (Collection__resources (Collection_set_fragments items' c1))
      with (Some (VList items')) by (destruct c1; reflexivity).
    unfold bind at 1, lift at 1. cbn [iterate fst snd]. rewrite Hagain.
    cbn [Collection_keep_fragments]. now rewrite Collection_set_fragments_twice.
  - apply Hstrings; [discriminate|].
    intros item Hin. apply in_map_iff in Hin as (a & <- & _). eauto.
Qed.

Lemma all_takes_the_actions_witness :
  exists first second c' log',
    @Collection_all expanded_env (vms, []) = (inr [first], (c', log')) /\
    @Collection_all expanded_env (c', log') = (inr [second], (c', log')) /\
    Entity__actions first = Some (VList [vm_action "start"; vm_action "stop"]) /\
    Entity__actions second = Some (VList []).
Proof.
  destruct (@Collection_all expanded_env (vms, [])) as [r [c' log']] eqn:Hfirst.
  assert (Hr : exists first, r = inr [first] /\
                 Entity__actions first = Some (VList [vm_action "start"; vm_action "stop"])).
  { apply (f_equal fst) in Hfirst. vm_compute in Hfirst. subst r.
    eexists. split; reflexivity. }
  destruct Hr as (first & -> & Hactions).
  assert (Hplain : plain_resources
                     (fst (snd (@Collection_all expanded_env (vms, [])))) = true)
    by (vm_compute; reflexivity).
  rewrite Hfirst in Hplain.
  destruct (@all_takes_the_actions expanded_env vms c' [] log' [first] Hfirst Hplain log')
    as (entities' & Hsecond & Hall).
  inversion Hall as [|? second ? ? Hrebuilt Hnil]. subst.
  inversion Hnil. subst.
  exists first, second, c', log'.
  repeat split; [exact Hsecond|exact Hactions|].
  destruct Hrebuilt as (_ & _ & _ & Hsecond_actions). rewrite Hsecond_actions.
  apply (f_equal fst) in Hfirst. vm_compute in Hfirst.
  injection Hfirst as <-. reflexivity.
Defined.

Lemma Collection_loop_length `{Environment} (n : nat) (c : Collection)
    (items : list value) (log : Log) :
  length (fst (fst (fst (Collection_loop n c items log)))) <= n.
Proof.
  revert items log. induction n as [|n IH]; intros items log; [reflexivity|].
  destruct items as [|fragment rest]; simpl; [lia|].
  destruct (Entity_of_fragment c fragment log) as [[[x|e] fragment'] log']; simpl; [lia|].
  specialize (IH rest log').
  destruct (Collection_loop n c rest log') as [[[yielded rest'] raised] log''].
  simpl in *. lia.
Qed.

(** X19. A loop over a collection reloads it, snapshot or not, with the one
    GET that asks for the expanded resources, when it asks for the first
    entity; the entities are built from the fragments of that document
    without a request, no more of them than the loop asks for. *)
Theorem iter_always_reloads `{Environment} (n : nat) (c : Collection) (log : Log) :
  Collection___iter__ 0 (c, log) = ([], None, (c, log)) /\
  snd (snd (Collection___iter__ (S n) (c, log))) =
    log ++ [mkRequest GET (Collection__href c) (API__auth (Collection__api c))
              [("expand", VStr "resources")] None] /\
  length (fst (fst (Collection___iter__ (S n) (c, log)))) <= S n.
Proof.
  split; [reflexivity|]. unfold Collection___iter__.
  pose proof (Collection_reload_log (VBool true) c log) as Hlog.
  destruct (Collection_reload (VBool true) (c, log)) as [[x|[]] [c1 log1]];
    simpl in Hlog; [split; [exact Hlog|simpl; lia]|].
  destruct (Collection__resources c1) as [resources|]; [|split; [exact Hlog|simpl; lia]].
  destruct (iterate resources) as [x|items]; [split; [exact Hlog|simpl; lia]|].
  pose proof (Collection_loop_log (S n) c1 items log1) as Hloop.
  pose proof (Collection_loop_length (S n) c1 items log1) as Hlen.
  destruct (Collection_loop (S n) c1 items log1) as [[[yielded items'] raised] log'].
  simpl in *. subst log'. split; [exact Hlog|exact Hlen].
Qed.

(** X20. [collection[position]] on a collection with a snapshot: a position
    outside of the list of resources raises [IndexError] and sends nothing;
    a position inside builds the entity of that fragment, counted from the
    end when negative, and, when the fragment is plain, reloads it with one
    GET to its href; the fragment stays in the list as the entity has left
    it. *)
Theorem collection_getitem `{Environment} (c : Collection) (fragments : list value)
    (position : Z) (log : Log) :
  is_None (Collection__data c) = false ->
  Collection__resources c = Some (VList fragments) ->
  let n := Z.of_nat (length fragments) in
  ((position < - n \/ n <= position)%Z ->
   Collection___getitem__ position (c, log) = (inl IndexError, (c, log))) /\
  ((- n <= position < n)%Z ->
   exists fragment,
     fragments !! Z.to_nat (position mod n) = Some fragment /\
     forall e fragment' log',
       plain_fields fragment = true ->
       Entity_of_fragment c fragment log = (inr e, fragment', log') ->
       let reloaded := Entity_reload VNone true (e, log) in
       Collection___getitem__ position (c, log) =
         (match fst reloaded with
          | inr _ => inr (fst (snd reloaded))
          | inl x => inl (Raised_Exn x)
          end,
          (Collection_set_fragments
             (<[Z.to_nat (position mod n) := fragment']> fragments) c,
           log ++ [entity_request e]))).
Proof.
  intros Hloaded Hresources n. unfold Collection___getitem__.
  rewrite Collection_reload_if_needed_run. cbn [fst]. rewrite Hloaded, Hresources.
  unfold getitem_at. rewrite list_index_spec. fold n. split.
  - intros Hout.
    destruct (Z.leb_spec (- n) position), (Z.ltb_spec position n); simpl;
      try reflexivity. lia.
  - intros Hin.
    destruct (Z.leb_spec (- n) position), (Z.ltb_spec position n); simpl; try lia.
    assert (Hlt : Z.to_nat (position mod n) < length fragments).
    { pose proof (Z.mod_pos_bound position n). unfold n in *. lia. }
    destruct (lookup_lt_is_Some_2 fragments _ Hlt) as [fragment Hfragment].
    exists fragment. split; [exact Hfragment|]. rewrite Hfragment.
    intros e fragment' log' _ Hone. rewrite Hone.
    pose proof (Entity_of_fragment_log c fragment log) as Hsame.
    rewrite Hone in Hsame. simpl in Hsame. subst log'.
    pose proof (Entity_reload_log VNone e log) as Hlog.
    destruct (Entity_reload VNone true (e, log)) as [r [e' log3]].
    simpl in Hlog. subst log3. reflexivity.
Qed.

Lemma collection_getitem_witness :
  @Collection___getitem__ vms_env 2 (loaded_vms, []) =
    (inl IndexError, (loaded_vms, [])) /\
  snd (snd (@Collection___getitem__ stable_vm_env (-1) (loaded_vms, []))) =
    [mkRequest GET (VStr "https://host/api/vms/2") ("admin", "smartvm") [] None].
Proof.
  split.
  - apply @collection_getitem with
      (fragments := [VDict [("href", VStr "https://host/api/vms/1")];
                     VDict [("href", VStr "https://host/api/vms/2")]]);
      [reflexivity|reflexivity|]. right. simpl. lia.
  - destruct (@collection_getitem stable_vm_env loaded_vms
                [VDict [("href", VStr "https://host/api/vms/1")];
                 VDict [("href", VStr "https://host/api/vms/2")]]
                (-1) [] eq_refl eq_refl) as [_ Hinside].
    destruct Hinside as (fragment & Hfragment & Hrun); [simpl; lia|].
    vm_compute in Hfragment. injection Hfragment as <-.
    exact (f_equal (fun run => snd (snd run))
             (Hrun (Entity_stub loaded_vms (VStr "https://host/api/vms/2"))
                (VDict [("href", VStr "https://host/api/vms/2")]) []
                eq_refl eq_refl)).
Defined.

(** ** Time fields *)

Section TimeFields.
Context `{Environment}.

Lemma field_update_raises (api : API) (item : string * value) (x : Exn) :
  field_update api item = inl x -> x = ParseError.
Proof.
  unfold field_update. destruct item as [key v].
  destruct (mem key Entity_TIME_FIELDS).
  - unfold parse_date. destruct v as [| | |s| |]; try (now intros [= <-]).
    destruct (iso8601_valid s); [discriminate|now intros [= <-]].
  - destruct (mapping_get key Entity_COLLECTION_MAPPING); discriminate.
Qed.

Lemma fields_update_stops (api : API) (items : dict) (m : gmap string AttrVal)
    (item : string * value) :
  In item items ->
  field_update api item = inl ParseError ->
  fst (fields_update api items m) = inl ParseError.
Proof.
  revert m. induction items as [|first rest IH]; intros m Hin Hitem; [destruct Hin|].
  simpl. destruct (field_update api first) as [x|f] eqn:Hfirst.
  - now rewrite (field_update_raises _ _ _ Hfirst).
  - destruct Hin as [->|Hin]; [congruence|]. now apply IH.
Qed.

Lemma dict_get_In (k : string) (d : dict) (v : value) :
  dict_get k d = Some v -> In (k, v) d.
Proof.
  induction d as [|[k' v'] d IH]; simpl; [discriminate|].
  destruct (String.eqb_spec k k') as [->|Hne].
  - intros [= ->]. now left.
  - intros Hget. right. now apply IH.
Qed.

End TimeFields.

(** X21. In a document of plain fields, a time field that [iso8601] does
    not parse, such as one that is null, makes the reload raise
    [ParseError]; by then the entity has the document as its data and has
    taken the identity from it. *)
Theorem unparsable_time_stops_reload `{Environment} (e : Entity) (expand : value)
    (log : Log) (text : string) (d : dict) (key : string) (v h : value) :
  let api := Collection__api (Entity_collection e) in
  let request :=
    mkRequest GET (Entity__href e) (API__auth api)
      (if truthy expand then [("expand", expand)] else []) None in
  respond log request = Got text ->
  loads text = Some (VDict d) ->
  mem "error" (keys d) = false ->
  plain_fields (VDict d) = true ->
  dict_get (identity_field api) d = Some h ->
  mem key Entity_TIME_FIELDS = true ->
  dict_get key d = Some v ->
  (forall s, v = VStr s -> iso8601_valid s = false) ->
  exists e',
    Entity_reload expand true (e, log) = (inl ParseError, (e', log ++ [request])) /\
    Entity__data e' = VDict (dict_remove "actions" d) /\
    Entity__href e' = h.
Proof.
  intros api request Hr Hloads Herr _ Hid Htime Hkey Hbad.
  rewrite Entity_reload_run, API_get_run. cbv zeta. fold api. fold request. rewrite Hr.
  unfold processed. rewrite Hloads, (result_processor_plain d Herr).
  destruct e as [c a d0 h0 ac m]. unfold Entity_snapshot. simpl in api.
  fold api. unfold identity_field in Hid. simpl getitem. rewrite Hid.
  assert (Hstop : fst (fields_update api (dict_remove "actions" d) m) = inl ParseError).
  { apply (fields_update_stops api _ m (key, v)).
    - apply dict_get_In. rewrite dict_get_remove_ne; [exact Hkey|].
      intros ->. discriminate Htime.
    - unfold field_update. rewrite Htime. unfold parse_date.
      destruct v as [| | |s| |]; try reflexivity.
      now rewrite (Hbad s eq_refl). }
  destruct (fields_update api (dict_remove "actions" d) m) as [r m'].
  simpl in Hstop. subst r. eexists. split; [reflexivity|]. split; reflexivity.
Qed.

Lemma unparsable_time_stops_reload_witness :
  fst (@Entity_reload user_env VNone true
         (Entity_stub vms (VStr "https://host/api/users/1"), [])) = inl ParseError.
Proof.
  destruct (@unparsable_time_stops_reload user_env
              (Entity_stub vms (VStr "https://host/api/users/1")) VNone [] "user"
              [("id", VStr "https://host/api/users/1"); ("lastlogon", VNone);
               ("name", VStr "admin")]
              "lastlogon" VNone (VStr "https://host/api/users/1")
              eq_refl eq_refl eq_refl eq_refl eq_refl eq_refl eq_refl)
    as (e' & Hrun & _); [discriminate|].
  exact (f_equal fst Hrun).
Defined.

(** ** The requests of a container *)

Section ContainerRequests.
Context `{Environment}.

Lemma reload_if_needed_log (o : Owner) (log : Log) :
  snd (snd (on_owner Collection_reload_if_needed Entity_reload_if_needed (o, log))) =
    log ++ (if is_None (Owner__data o) then [owner_request o] else []).
Proof.
  destruct o as [c|e]; unfold on_owner; cbn [fst snd Owner__data owner_request].
  - pose proof (Collection_reload_if_needed_log c log) as Hlog.
    destruct (Collection_reload_if_needed (c, log)) as [r [c' log']]. exact Hlog.
  - rewrite Entity_reload_if_needed_run. cbn [fst].
    destruct (is_None (Entity__data e)).
    + pose proof (Entity_reload_log VNone e log) as Hlog.
      destruct (Entity_reload VNone true (e, log)) as [r [e' log']]. exact Hlog.
    + simpl. now rewrite app_nil_r.
Qed.

Lemma get__actions_log (o : Owner) (log : Log) :
  is_None (Owner__data o) = false ->
  snd (snd (on_owner Collection_get__actions Entity_get__actions (o, log))) = log.
Proof.
  destruct o as [c|e]; unfold on_owner; cbn [fst snd Owner__data]; intros Hdata.
  - unfold Collection_get__actions. run. destruct (Collection__actions c); reflexivity.
  - unfold Entity_get__actions. run.
    destruct (Entity__actions e); [reflexivity|].
    rewrite Entity___getattr___run. cbn [fst]. now rewrite Hdata.
Qed.

Lemma declare_loop_log (items : list value) (o : Owner) (log : Log) :
  snd (snd (for_each items
              (fun action =>
                 name <- lift (getitem action "name") ;;
                 name' <- lift (getitem action "name") ;;
                 method <- lift (getitem action "method") ;;
                 href <- lift (getitem action "href") ;;
                 ActionContainer_setattr name (mkAction name' method href)) (o, log))) =
    log.
Proof.
  revert o. induction items as [|item rest IH]; intros o; simpl; [reflexivity|].
  unfold bind at 1. rewrite declare_run.
  destruct (action_of item) as [[n a]|]; [apply IH|].
  destruct (getitem item "name") as [x|name]; [reflexivity|].
  destruct (getitem item "method") as [x|?]; [destruct name; reflexivity|].
  destruct (getitem item "href") as [x|?]; destruct name; reflexivity.
Qed.

End ContainerRequests.

(** X22. The reload of a container sends the GET of the first load of its
    owner when the owner has no data, and nothing when it has: the actions
    are read from the snapshot of the owner, whatever the outcome. *)
Theorem container_reload_requests `{Environment} (o : Owner) (log : Log) :
  snd (snd (ActionContainer_reload (o, log))) =
    log ++ (if is_None (Owner__data o) then [owner_request o] else []).
Proof.
  unfold ActionContainer_reload. unfold bind at 1.
  pose proof (reload_if_needed_log o log) as Hlog.
  destruct (on_owner Collection_reload_if_needed Entity_reload_if_needed (o, log))
    as [[x|[]] [o1 log1]] eqn:Hneeded; cbn [fst snd] in Hlog; [exact Hlog|].
  apply reload_if_needed_loaded in Hneeded as Hloaded.
  unfold bind at 1.
  pose proof (get__actions_log o1 log1 Hloaded) as Hget.
  destruct (on_owner Collection_get__actions Entity_get__actions (o1, log1))
    as [[x|actions] [o2 log2]]; cbn [fst snd] in Hget; subst log2; [exact Hlog|].
  unfold bind at 1, lift at 1.
  destruct (iterate actions) as [x|items]; [exact Hlog|].
  rewrite declare_loop_log. exact Hlog.
Qed.

(** ** The index of the collections *)

Lemma CollectionsIndex__load_entry_run (entry : value) (index : CollectionsIndex)
    (log : Log) :
  CollectionsIndex__load_entry entry (index, log) =
    match entry_collection (CollectionsIndex__api index) entry with
    | inr c =>
        (inr tt,
         (mkCollectionsIndex (CollectionsIndex__api index) (CollectionsIndex__data index)
            (CollectionsIndex__collections index ++ [c])
            (<[Collection_name c := c]> (CollectionsIndex_attrs index)), log))
    | inl x => (inl x, (index, log))
    end.
Proof.
  unfold entry_collection, CollectionsIndex__load_entry.
  unfold bind at 1, self. cbn [fst snd].
  unfold bind at 1, lift at 1.
  destruct (getitem entry "href") as [x|href]; [reflexivity|].
  unfold bind at 1, lift at 1.
  destruct (getitem entry "name") as [x|name] eqn:Hname; [reflexivity|].
  unfold bind at 1, lift at 1.
  destruct (getitem entry "description") as [x|description]; [reflexivity|].
  destruct name as [| | |n| |]; try reflexivity.
  unfold bind at 1, lift at 1.
  unfold CollectionsIndex_setattr.
  destruct (mem n ["all"; "all_names"]); reflexivity.
Qed.

Lemma entry_collection_name (api : API) (entry : value) (c : Collection) :
  entry_collection api entry = inr c ->
  Collection__api c = api /\ Collection__data c = VNone.
Proof.
  unfold entry_collection.
  destruct (getitem entry "href") as [x|href]; [discriminate|].
  destruct (getitem entry "name") as [x|name]; [discriminate|].
  destruct (getitem entry "description") as [x|description]; [discriminate|].
  destruct name as [| | |n| |]; try discriminate.
  destruct (mem n ["all"; "all_names"]); [discriminate|].
  intros [= <-]. repeat split.
Qed.

Lemma index_ok_entry (index : CollectionsIndex) (c : Collection) :
  index_ok index ->
  Collection__api c = CollectionsIndex__api index ->
  Collection__data c = VNone ->
  index_ok (mkCollectionsIndex (CollectionsIndex__api index) (CollectionsIndex__data index)
              (CollectionsIndex__collections index ++ [c])
              (<[Collection_name c := c]> (CollectionsIndex_attrs index))).
Proof.
  intros [Hnames Hattrs] Hapi Hdata. split.
  - intros name. unfold CollectionsIndex_all_names, CollectionsIndex_all. simpl.
    rewrite map_app, mem_app, orb_true_iff, lookup_insert_is_Some. simpl.
    rewrite orb_false_r, String.eqb_eq.
    unfold CollectionsIndex_all_names, CollectionsIndex_all in Hnames.
    rewrite Hnames. split.
    + intros [Hold | ->]; [|now left].
      destruct (decide (Collection_name c = name)); [now left|now right].
    + intros [-> | [_ Hold]]; [now right|now left].
  - intros name c'. simpl. unfold CollectionsIndex_all. simpl.
    destruct (decide (Collection_name c = name)) as [<-|Hne].
    + rewrite lookup_insert_eq. intros [= <-].
      repeat split; [exact Hapi|exact Hdata|]. apply in_or_app. right. now left.
    + rewrite lookup_insert_ne by exact Hne. intros Hc'.
      destruct (Hattrs name c' Hc') as (Hn & Ha & Hd & Hin).
      repeat split; [exact Hn|exact Ha|exact Hd|]. apply in_or_app. now left.
Qed.

Lemma CollectionsIndex_loop (items : list value) (index index' : CollectionsIndex)
    (log log' : Log) :
  for_each items CollectionsIndex__load_entry (index, log) = (inr tt, (index', log')) ->
  log' = log /\
  CollectionsIndex__api index' = CollectionsIndex__api index /\
  length (CollectionsIndex_all index') = length (CollectionsIndex_all index) + length items /\
  (index_ok index -> index_ok index').
Proof.
  revert index. induction items as [|entry rest IH]; intros index; simpl.
  - intros [= <- <-]. split; [reflexivity|]. split; [reflexivity|].
    split; [simpl; lia|]. auto.
  - unfold bind at 1. rewrite CollectionsIndex__load_entry_run.
    destruct (entry_collection (CollectionsIndex__api index) entry) as [x|c] eqn:Hentry;
      [discriminate|].
    intros Hrest. apply IH in Hrest as (-> & Hapi & Hlen & Hok).
    destruct (entry_collection_name _ _ _ Hentry) as (Hcapi & Hcdata).
    split; [reflexivity|]. split; [exact Hapi|]. split.
    + rewrite Hlen. unfold CollectionsIndex_all. simpl. rewrite length_app. simpl. lia.
    + intros Hindex. apply Hok. now apply index_ok_entry.
Qed.

(** X23. The index of the collections is built without a request, with one
    collection for each entry of the root document, none of them loaded; a
    name is in the index just when it is an attribute of it, and the
    attribute is a collection of that name in the list.  Two entries of one
    name are two collections in the list and one attribute. *)
Theorem index_names_are_attributes (api : API) (data : value) (log log' : Log)
    (index : CollectionsIndex) :
  CollectionsIndex___init__ api data log = (inr index, log') ->
  plain_collections index = true ->
  log' = log /\
  (exists items, iterate data = inr items /\
                 length (CollectionsIndex_all index) = length items) /\
  (forall name, CollectionsIndex___contains__ name index = true <->
                exists c, CollectionsIndex_getattr name index = inr c) /\
  (forall name c, CollectionsIndex_getattr name index = inr c ->
                  Collection_name c = name /\ Collection__api c = api /\
                  Collection__data c = VNone /\ In c (CollectionsIndex_all index)).
Proof.
  unfold CollectionsIndex___init__, CollectionsIndex__load_data.
  unfold bind at 1, self. cbn [fst snd CollectionsIndex__data].
  unfold bind at 1, lift at 1.
  destruct (iterate data) as [x|items]; [discriminate|].
  destruct (for_each items CollectionsIndex__load_entry _)
    as [[x|[]] [index' log1]] eqn:Hloop; [discriminate|].
  intros [= <- <-] _.
  apply CollectionsIndex_loop in Hloop as (-> & Hapi & Hlen & Hok).
  assert (Hempty : index_ok (mkCollectionsIndex api data [] ∅)).
  { split.
    - intros name. simpl. rewrite lookup_empty. split; [discriminate|].
      intros [c Hc]. discriminate.
    - intros name c. simpl. rewrite lookup_empty. discriminate. }
  destruct (Hok Hempty) as [Hnames Hattrs].
  split; [reflexivity|]. split; [exists items; split; [reflexivity|exact Hlen]|].
  unfold CollectionsIndex___contains__, CollectionsIndex_getattr. split.
  - intros name. rewrite Hnames. split.
    + intros [c Hc]. exists c. now rewrite Hc.
    + intros [c Hc]. destruct (CollectionsIndex_attrs index' !! name); [eauto|discriminate].
  - intros name c Hc.
    destruct (CollectionsIndex_attrs index' !! name) as [c'|] eqn:Hset; [|discriminate].
    injection Hc as ->. destruct (Hattrs name c Hset) as (Hn & Ha & Hd & Hin).
    rewrite Ha. auto.
Qed.

Lemma index_names_are_attributes_witness :
  exists index,
    CollectionsIndex___init__ example_api root_collections [] = (inr index, []) /\
    length (CollectionsIndex_all index) = 3 /\
    CollectionsIndex___contains__ "vms" index = true /\
    CollectionsIndex_getattr "vms" index =
      inr (Collection___init__ example_api (VStr "https://host/api/v2/vms") "vms"
             (VStr "Virtual Machines")).
Proof.
  destruct (CollectionsIndex___init__ example_api root_collections [])
    as [[x|index] log'] eqn:Hinit; [vm_compute in Hinit; discriminate|].
  assert (Hplain : plain_collections index = true).
  { vm_compute in Hinit. injection Hinit as <- _. reflexivity. }
  destruct (index_names_are_attributes example_api root_collections [] log' index
              Hinit Hplain) as (-> & (items & Hitems & Hlen) & Hin & _).
  exists index. split; [reflexivity|].
  injection Hitems as <-. split; [exact Hlen|].
  vm_compute in Hinit. injection Hinit as <-. split; vm_compute; reflexivity.
Defined.

Lemma CollectionsIndex_loop_stops (api : API) (before after : list value) (entry : value)
    (x : Exn) (index : CollectionsIndex) (log : Log) :
  CollectionsIndex__api index = api ->
  forallb (good_entry api) before = true ->
  entry_collection api entry = inl x ->
  exists index',
    for_each (before ++ entry :: after) CollectionsIndex__load_entry (index, log) =
      (inl x, (index', log)).
Proof.
  intros Hapi Hbefore Hentry. revert index Hapi.
  induction before as [|first rest IH]; intros index Hapi; simpl.
  - unfold bind at 1. rewrite CollectionsIndex__load_entry_run, Hapi, Hentry. eauto.
  - simpl in Hbefore. apply andb_true_iff in Hbefore as [Hfirst Hrest].
    unfold bind at 1. rewrite CollectionsIndex__load_entry_run, Hapi.
    unfold good_entry in Hfirst.
    destruct (entry_collection api first) as [x'|c]; [discriminate|].
    apply (IH Hrest). reflexivity.
Qed.

(** X24. An entry of the root document without a [description] stops the
    index with [KeyError], although the constructor of [Collection] has a
    default for it: the first entry that does not give a collection ends
    [_load_data] with its exception, and there is no index. *)
Theorem index_entry_needs_description (api : API) (before after : list value)
    (d : dict) (href name : value) (log : Log) :
  forallb (good_entry api) before = true ->
  dict_get "href" d = Some href ->
  dict_get "name" d = Some name ->
  dict_get "description" d = None ->
  CollectionsIndex___init__ api (VList (before ++ VDict d :: after)) log =
    (inl (KeyError "description"), log).
Proof.
  intros Hbefore Hhref Hname Hdescription.
  unfold CollectionsIndex___init__, CollectionsIndex__load_data.
  unfold bind at 1, self. cbn [fst snd CollectionsIndex__data].
  unfold bind at 1, lift at 1. cbn [iterate].
  destruct (CollectionsIndex_loop_stops api before after (VDict d) (KeyError "description")
              (mkCollectionsIndex api (VList (before ++ VDict d :: after)) [] ∅) log
              eq_refl Hbefore) as [index' ->]; [|reflexivity].
  unfold entry_collection. simpl. now rewrite Hhref, Hname, Hdescription.
Qed.

Lemma index_entry_needs_description_witness :
  CollectionsIndex___init__ example_api
    (VList [VDict [("name", VStr "vms"); ("href", VStr "https://host/api/vms");
                   ("description", VStr "Virtual Machines")];
            VDict [("name", VStr "hosts"); ("href", VStr "https://host/api/hosts")]]) [] =
    (inl (KeyError "description"), []).
Proof.
  apply (index_entry_needs_description example_api
           [VDict [("name", VStr "vms"); ("href", VStr "https://host/api/vms");
                   ("description", VStr "Virtual Machines")]] []
           [("name", VStr "hosts"); ("href", VStr "https://host/api/hosts")]
           (VStr "https://host/api/hosts") (VStr "hosts") []); reflexivity.
Defined.

(** ** The result of a search *)

Lemma collect_length {S A B} (f : A -> ST S B) (l : list A) (s s' : S) (out : list B) :
  collect f l s = (inr out, s') -> length out = length l.
Proof.
  revert s out. induction l as [|a l IH]; intros s out; simpl.
  - now intros [= <- <-].
  - unfold bind at 1. destruct (f a s) as [[x|b] s1]; [discriminate|].
    unfold bind at 1. destruct (collect f l s1) as [[x|bs] s2] eqn:Hrest; [discriminate|].
    intros [= <- <-]. simpl. f_equal. exact (IH _ _ Hrest).
Qed.

(** X25. A search result is built from the document without a request: it
    takes [count], [subcount] and [name] from it, the name as it comes,
    with no check against the name of the collection, and builds one entity
    for each element of [resources]; [len] of it is the [subcount] of the
    document, whatever the number of the entities. *)
Theorem search_result_init `{Environment} (c : Collection) (d : dict) (log log' : Log)
    (sr : SearchResult) :
  SearchResult___init__ c (VDict d) log = (inr sr, log') ->
  log' = log /\
  SearchResult_collection sr = c /\
  dict_get "count" d = Some (SearchResult_count sr) /\
  dict_get "subcount" d = Some (SearchResult___len__ sr) /\
  dict_get "name" d = Some (SearchResult_name sr) /\
  exists resources items,
    dict_get "resources" d = Some resources /\
    iterate resources = inr items /\
    length (SearchResult_resources sr) = length items.
Proof.
  intros Hinit.
  assert (Hlog : log' = log).
  { destruct (quiet_SearchResult___init__ c (VDict d) log) as [Hq _].
    rewrite Hinit in Hq. exact Hq. }
  subst log'. split; [reflexivity|]. revert Hinit.
  unfold SearchResult___init__. unfold bind at 1, lift at 1. cbn [pop_required].
  destruct (dict_get "count" d) as [count|] eqn:Hcount; [|discriminate].
  unfold bind at 1, lift at 1. cbn [snd pop_required].
  rewrite dict_get_remove_ne by discriminate.
  destruct (dict_get "subcount" d) as [subcount|] eqn:Hsubcount; [|discriminate].
  unfold bind at 1, lift at 1. cbn [snd pop_required].
  rewrite !dict_get_remove_ne by discriminate.
  destruct (dict_get "name" d) as [name|] eqn:Hname; [|discriminate].
  unfold bind at 1, lift at 1. cbn [snd getitem].
  rewrite !dict_get_remove_ne by discriminate.
  destruct (dict_get "resources" d) as [resources|] eqn:Hresources; [|discriminate].
  unfold bind at 1, lift at 1.
  destruct (iterate resources) as [x|items] eqn:Hitems; [discriminate|].
  unfold bind at 1.
  destruct (collect (Entity___init__ c) items log) as [[x|entities] log1] eqn:Hcollect;
    [discriminate|].
  unfold ret. intros [= <- _]. cbn.
  split; [reflexivity|]. split; [reflexivity|]. split; [reflexivity|].
  split; [reflexivity|]. exists resources, items.
  split; [reflexivity|]. split; [exact Hitems|].
  exact (collect_length _ _ _ _ _ Hcollect).
Qed.

Lemma search_result_init_witness :
  exists sr,
    @SearchResult___init__ vms_env vms (vms_document "hosts") [] = (inr sr, []) /\
    SearchResult_name sr = VStr "hosts" /\
    SearchResult___len__ sr = VInt 2.
Proof.
  destruct (@SearchResult___init__ vms_env vms (vms_document "hosts") [])
    as [[x|sr] log'] eqn:Hinit; [vm_compute in Hinit; discriminate|].
  destruct (@search_result_init vms_env vms _ [] log' sr Hinit)
    as (-> & _ & _ & Hsubcount & Hname & _).
  exists sr. split; [reflexivity|].
  change (Some (VInt 2) = Some (SearchResult___len__ sr)) in Hsubcount.
  change (Some (VStr "hosts") = Some (SearchResult_name sr)) in Hname.
  injection Hsubcount as <-. injection Hname as <-. split; reflexivity.
Defined.

(** ** The text of an action *)

Lemma getattr_declared `{Environment} (o o' : Owner) (log log' : Log)
    (attr : string) (a : Action) (depth : nat) :
  ActionContainer_attrs (Owner_action o) !! attr = None ->
  ActionContainer_reload (o, log) = (inr tt, (o', log')) ->
  ActionContainer_attrs (Owner_action o') !! attr = Some a ->
  ActionContainer_getattr (S depth) attr (o, log) = (inr a, (o', log')).
Proof.
  intros Hnone Hreload Hset.
  rewrite ActionContainer_getattr_run. simpl. rewrite Hnone.
  rewrite ActionContainer___getattr___run, Hreload.
  rewrite ActionContainer_getattr_run. simpl. rewrite Hset.
  rewrite ActionContainer_getattr_run. simpl. rewrite Hset. reflexivity.
Qed.

Lemma Action_text_run `{Environment} {S} (self entity : Action) (s : S) :
  (method <- lift (py_format (Action__method self)) ;;
   href <- lift (py_format (Action__href entity)) ;;
   name <- lift (py_format (Action__name self)) ;;
   ret ("<Action " +:+ method +:+ " " +:+ href +:+ "#" +:+ name +:+ ">")) s =
    (Action_text self entity, s).
Proof.
  unfold Action_text, bind, lift, ret.
  destruct (py_format (Action__method self)); [reflexivity|].
  destruct (py_format (Action__href entity)); [reflexivity|].
  destruct (py_format (Action__name self)); reflexivity.
Qed.

(** X26. [repr] of an action looks [_entity] up on the container, which
    has no such slot.  When the container has an action of that name, the
    text is made with the href of that action.  When it has none, the
    container is reloaded; what the reload raises goes through, and after a
    reload that returns, on a plain document of the owner, the text is made
    with the href of the action that the owner declares under the name
    [_entity], and [AttributeError] is raised when it declares none. *)
Theorem action_repr_looks_up_entity `{Environment} (a : Action) (o : Owner)
    (log : Log) (depth : nat) :
  (forall entity,
     ActionContainer_attrs (Owner_action o) !! "_entity" = Some entity ->
     Action___repr__ depth a (o, log) = (Action_text a entity, (o, log))) /\
  (ActionContainer_attrs (Owner_action o) !! "_entity" = None ->
   (forall x s',
      ActionContainer_reload (o, log) = (inl x, s') ->
      Action___repr__ (S depth) a (o, log) = (inl x, s')) /\
   (forall o' log',
      ActionContainer_reload (o, log) = (inr tt, (o', log')) ->
      plain_reply log (owner_request o) ->
      plain_actions o' = true ->
      Action___repr__ (S depth) a (o, log) =
        (match ActionContainer_attrs (Owner_action o') !! "_entity" with
         | Some entity => Action_text a entity
         | None => inl (AttributeError "No such action _entity")
         end, (o', log')))).
Proof.
  unfold Action___repr__. split; [|intros Hnone; split].
  - intros entity Hset. unfold bind at 1.
    rewrite ActionContainer_getattr_run. cbn [fst]. rewrite Hset.
    apply Action_text_run.
  - intros x s' Hreload. unfold bind at 1.
    rewrite ActionContainer_getattr_run. cbn [fst]. rewrite Hnone.
    now rewrite ActionContainer___getattr___run, Hreload.
  - intros o' log' Hreload _ _. unfold bind at 1.
    destruct (ActionContainer_attrs (Owner_action o') !! "_entity") as [entity|] eqn:Hafter.
    + rewrite (getattr_declared o o' log log' "_entity" entity depth Hnone Hreload Hafter).
      apply Action_text_run.
    + now rewrite (getattr_undeclared o o' log log' "_entity" depth Hreload Hafter).
Qed.

Lemma action_repr_looks_up_entity_witness :
  @Action___repr__ stopped_vm_env 1000 stop_action fresh_vm =
    (inl (AttributeError "No such action _entity"),
     snd (@ActionContainer_reload stopped_vm_env fresh_vm)) /\
  @Action___repr__ entity_action_env 1000 stop_action fresh_vm =
    (inr "<Action post https://host/api/vms/1#stop>",
     snd (@ActionContainer_reload entity_action_env fresh_vm)) /\
  snd (snd (@ActionContainer_reload stopped_vm_env fresh_vm)) =
    [mkRequest GET (VStr "https://host/api/vms/1") ("admin", "smartvm") [] None].
Proof.
  split; [|split; [|vm_compute; reflexivity]].
  - destruct (@action_repr_looks_up_entity stopped_vm_env stop_action (fst fresh_vm)
                (snd fresh_vm) 999) as [_ Hnone].
    destruct (Hnone eq_refl) as [_ Hreturns].
    etransitivity;
      [apply (Hreturns (fst (snd (@ActionContainer_reload stopped_vm_env fresh_vm)))
                (snd (snd (@ActionContainer_reload stopped_vm_env fresh_vm))));
       first [settle_reply | vm_compute; reflexivity]|].
    vm_compute. reflexivity.
  - destruct (@action_repr_looks_up_entity entity_action_env stop_action (fst fresh_vm)
                (snd fresh_vm) 999) as [_ Hnone].
    destruct (Hnone eq_refl) as [_ Hreturns].
    etransitivity;
      [apply (Hreturns (fst (snd (@ActionContainer_reload entity_action_env fresh_vm)))
                (snd (snd (@ActionContainer_reload entity_action_env fresh_vm))));
       first [settle_reply | vm_compute; reflexivity]|].
    vm_compute. reflexivity.
Defined.

(** ** A load that fails *)

Lemma Collection_reload_failed_get `{Environment} (c : Collection) (expand : value)
    (log log1 : Log) (x : Exn) :
  API_get (Collection__api c) (Collection__href c)
    (if truthy expand then [("expand", VStr "resources")] else []) log = (inl x, log1) ->
  Collection_reload expand (c, log) = (inl x, (c, log1)).
Proof.
  intros Hget. unfold Collection_reload. cbv zeta. unfold bind at 1, self. cbn [fst].
  unfold bind at 1, call. cbn [fst snd].
  match goal with
  | |- context [API_get ?a ?u ?k ?l] =>
      replace (API_get a u k l) with (@inl Exn value x, log1)
        by (symmetry; exact Hget)
  end.
  reflexivity.
Qed.

(** X27. A load whose GET raises leaves the object as it was: the entity or
    the collection has no data still, and the next [reload_if_needed] sends
    the GET again. *)
Theorem failed_get_is_retried `{Environment} (e : Entity) (c : Collection)
    (expand : value) (log : Log) (x : Exn) :
  (fst (API_get (Collection__api (Entity_collection e)) (Entity__href e)
          (if truthy expand then [("expand", expand)] else []) log) = inl x ->
   fst (Entity_reload expand true (e, log)) = inl x /\
   fst (snd (Entity_reload expand true (e, log))) = e /\
   (is_None (Entity__data e) = true ->
    forall log2, snd (snd (Entity_reload_if_needed (e, log2))) =
                   log2 ++ [entity_request e])) /\
  (fst (API_get (Collection__api c) (Collection__href c)
          (if truthy expand then [("expand", VStr "resources")] else []) log) = inl x ->
   fst (Collection_reload expand (c, log)) = inl x /\
   fst (snd (Collection_reload expand (c, log))) = c /\
   (is_None (Collection__data c) = true ->
    forall log2, snd (snd (Collection_reload_if_needed (c, log2))) =
                   log2 ++ [collection_request (VBool false) c])).
Proof.
  split; intros Hget.
  - rewrite Entity_reload_run.
    destruct (API_get _ _ _ log) as [[x'|data] log1]; [|discriminate].
    simpl in Hget. injection Hget as ->. repeat split.
    intros Hdata log2. rewrite Entity_reload_if_needed_run. cbn [fst]. rewrite Hdata.
    apply Entity_reload_log.
  - destruct (API_get _ _ _ log) as [[x'|data] log1] eqn:Hrun; [|discriminate].
    simpl in Hget. injection Hget as ->.
    rewrite (Collection_reload_failed_get _ _ _ _ _ Hrun).
    split; [reflexivity|]. split; [reflexivity|].
    intros Hdata log2. rewrite Collection_reload_if_needed_log. now rewrite Hdata.
Qed.

Lemma failed_get_is_retried_witness :
  fst (@Entity_reload envelope_env VNone true (vm "1", [])) = inl (APIException "Foo: bar") /\
  fst (snd (@Entity_reload envelope_env VNone true (vm "1", []))) = vm "1" /\
  fst (snd (@Collection_reload envelope_env (VBool false) (vms, []))) = vms.
Proof.
  destruct (@failed_get_is_retried envelope_env (vm "1") vms VNone []
              (APIException "Foo: bar")) as [Hentity Hcollection].
  destruct (Hentity eq_refl) as (Hraise & Hsame & _).
  destruct (Hcollection eq_refl) as (_ & Hsame' & _).
  split; [exact Hraise|]. split; [exact Hsame|exact Hsame'].
Defined.

(** ** Entities by id *)

(** X28. [collection(id)] gives an entity that is not loaded, with the id
    after the href of the collection as its address, and sends nothing; the
    first load of the entity asks for that address. *)
Theorem called_entity_is_lazy `{Environment} (c : Collection) (id : value) (log : Log) :
  let address := VStr (py_str (Collection__href c) +:+ "/" +:+ py_str id) in
  Entity__href (Collection___call__ c id) = address /\
  Entity__data (Collection___call__ c id) = VNone /\
  Entity_collection (Collection___call__ c id) = c /\
  snd (snd (Entity_reload_if_needed (Collection___call__ c id, log))) =
    log ++ [mkRequest GET address (API__auth (Collection__api c)) [] None].
Proof.
  intros address. split; [reflexivity|]. split; [reflexivity|]. split; [reflexivity|].
  rewrite Entity_reload_if_needed_run. cbn [fst].
  change (is_None (Entity__data (Collection___call__ c id))) with true. cbv iota.
  apply Entity_reload_log.
Qed.
